(** * NEXUS dashboard client: a model of [websocket_client.py]

    The development embeds the publishing pipeline of
    [WebSocketDashboardClient]: the envelope ([DashboardMessage]), its
    wire encoding ([_send_raw_message]), the outbound queue and the send
    worker, the sequence counter, the reconnect backoff, the inbound
    dispatcher and the start/stop life cycle of the background tasks.

    Conventions.
    - A Python [str] is a Rocq [string]; one [ascii] stands for one code
      point below 256.
    - A Python [int] is a [Z].  A [float] that is only carried around is
      kept by its [repr] text ([PyFloat]); clock readings and durations
      are whole numbers of clock ticks ([Z]).
    - A Python [dict] is an association list in insertion order; the
      dictionary operations below keep the first binding of a key.
    - A coroutine is cut where it waits for the network or the clock
      ([websockets.connect], the next inbound frame, [asyncio.sleep],
      [websocket.close]); what runs between two such points is one
      function on the client state.  A socket write and a put on the
      unbounded queue are part of the step that makes them.  What the
      outside world decides (whether a write succeeds, what the clock
      shows, which frame arrives) is an argument of the step. *)

From Stdlib Require Import ZArith String Ascii List DecimalString Sorted.
From Stdlib.Strings Require Import Byte.
From stdpp Require Import base tactics option list.

Import ListNotations.
Set Warnings "-register-all".
Local Open Scope Z_scope.
Local Open Scope string_scope.

(** ** Python values *)

(** A [datetime] object is only ever rendered: [isoformat()] for the
    timestamps of envelopes, [str()] when [json.dumps] falls back on
    [default=str]. *)
Record datetime := mk_datetime {
  dt_isoformat : string;
  dt_str : string
}.

Inductive pyval : Type :=
  | PyNone
  | PyBool (b : bool)
  | PyInt (z : Z)
  | PyFloat (repr : string)
  | PyStr (s : string)
  | PyList (l : list pyval)
  | PyDict (kvs : list (string * pyval))
  | PyDatetime (d : datetime).

(** Dictionary operations on association lists. *)
Fixpoint dict_get {A} (k : string) (d : list (string * A)) : option A :=
  match d with
  | [] => None
  | (k', v) :: d' => if String.eqb k k' then Some v else dict_get k d'
  end.

Definition dict_mem {A} (k : string) (d : list (string * A)) : bool :=
  match dict_get k d with Some _ => true | None => false end.

(** [d[k] = v]: an existing key keeps its place, a new key goes last. *)
Fixpoint dict_set {A} (k : string) (v : A) (d : list (string * A))
  : list (string * A) :=
  match d with
  | [] => [(k, v)]
  | (k', v') :: d' =>
      if String.eqb k k' then (k', v) :: d' else (k', v') :: dict_set k v d'
  end.

(** ** json.dumps *)

Module Json.

Definition dquote : ascii := "034"%char.
Definition backslash : ascii := "092"%char.

Definition hex_digit (n : N) : ascii :=
  if (n <? 10)%N then ascii_of_N (48 + n) else ascii_of_N (87 + n).

(** [ESCAPE_ASCII]: the seven short escapes, [\u00xx] for every other
    character outside [' '..'~'], the character itself otherwise. *)
Definition escape_char (c : ascii) : string :=
  let n := N_of_ascii c in
  if (n =? 34)%N then String backslash (String dquote EmptyString)
  else if (n =? 92)%N then String backslash (String backslash EmptyString)
  else if (n =? 10)%N then String backslash "n"
  else if (n =? 13)%N then String backslash "r"
  else if (n =? 9)%N then String backslash "t"
  else if (n =? 8)%N then String backslash "b"
  else if (n =? 12)%N then String backslash "f"
  else if ((n <? 32) || (126 <? n))%N then
    String backslash
      ("u00" ++ String (hex_digit (n / 16)) (String (hex_digit (n mod 16)) EmptyString))
  else String c EmptyString.

Fixpoint escape_string (s : string) : string :=
  match s with
  | EmptyString => EmptyString
  | String c s' => escape_char c ++ escape_string s'
  end.

Definition dumps_str (s : string) : string :=
  String dquote (escape_string s ++ String dquote EmptyString).

Definition dumps_int (z : Z) : string := NilZero.string_of_int (Z.to_int z).

(** The default separators of [json.dumps]: [", "] and [": "]; a
    [datetime] goes through [default=str]. *)
Fixpoint dumps (v : pyval) : string :=
  match v with
  | PyNone => "null"
  | PyBool true => "true"
  | PyBool false => "false"
  | PyInt z => dumps_int z
  | PyFloat r => r
  | PyStr s => dumps_str s
  | PyDatetime d => dumps_str (dt_str d)
  | PyList l =>
      let fix items (l : list pyval) : string :=
        match l with
        | [] => EmptyString
        | [x] => dumps x
        | x :: l' => dumps x ++ ", " ++ items l'
        end in
      "[" ++ items l ++ "]"
  | PyDict kvs =>
      let fix items (l : list (string * pyval)) : string :=
        match l with
        | [] => EmptyString
        | [(k, x)] => dumps_str k ++ ": " ++ dumps x
        | (k, x) :: l' => dumps_str k ++ ": " ++ dumps x ++ ", " ++ items l'
        end in
      "{" ++ items kvs ++ "}"
  end.

(** *** json.loads

    The decoder of Python's [json] module: whitespace between tokens,
    the three literals, integers, strings with their escapes, arrays,
    objects (a repeated key keeps its first place and its last value).

    It answers in one of three ways: [Value v] when [json.loads]
    returns [v]; [DecodeError] when it raises [JSONDecodeError];
    [Beyond] when the text holds something the model has no exact
    value for, and nothing is said about it: a [\uXXXX] escape above
    255 (a [str] is kept one character per code point below 256), a
    float ([NaN] and [Infinity] included: the decoder rounds it to a
    double), an integer of more than 640 digits or brackets nested
    more than 100 deep (the interpreter may refuse either with an
    exception of another kind). *)

Inductive decoded (A : Type) : Type :=
  | Value (a : A)
  | DecodeError
  | Beyond.
Arguments Value {A} a.
Arguments DecodeError {A}.
Arguments Beyond {A}.

Definition decoded_bind {A B : Type} (f : A -> decoded B) (r : decoded A)
  : decoded B :=
  match r with
  | Value a => f a
  | DecodeError => DecodeError
  | Beyond => Beyond
  end.

#[global] Instance decoded_mbind : MBind decoded := @decoded_bind.

(** A step that can only fail as [JSONDecodeError]. *)
Definition expect {A : Type} (o : option A) : decoded A :=
  match o with
  | Some a => Value a
  | None => DecodeError
  end.

Definition max_depth : nat := 100.
Definition max_digits : nat := 640.

Definition is_ws (c : ascii) : bool :=
  let n := N_of_ascii c in
  ((n =? 32) || (n =? 9) || (n =? 10) || (n =? 13))%N.

Fixpoint skip_ws (s : string) : string :=
  match s with
  | String c s' => if is_ws c then skip_ws s' else s
  | EmptyString => s
  end.

Definition is_digit (c : ascii) : bool :=
  let n := N_of_ascii c in ((48 <=? n) && (n <=? 57))%N.

Definition hex_value (c : ascii) : option N :=
  let n := N_of_ascii c in
  if ((48 <=? n) && (n <=? 57))%N then Some (n - 48)%N
  else if ((97 <=? n) && (n <=? 102))%N then Some (n - 87)%N
  else if ((65 <=? n) && (n <=? 70))%N then Some (n - 55)%N
  else None.

Definition unescape (e : ascii) : option ascii :=
  let n := N_of_ascii e in
  if (n =? 34)%N then Some dquote
  else if (n =? 92)%N then Some backslash
  else if (n =? 47)%N then Some "/"%char
  else if (n =? 98)%N then Some "008"%char
  else if (n =? 102)%N then Some "012"%char
  else if (n =? 110)%N then Some "010"%char
  else if (n =? 114)%N then Some "013"%char
  else if (n =? 116)%N then Some "009"%char
  else None.

(** The body of a string, after its opening quote: the content and the
    text after the closing quote. *)
Fixpoint scan_string (s : string) : decoded (string * string) :=
  match s with
  | EmptyString => DecodeError
  | String c s' =>
      let n := N_of_ascii c in
      if (n =? 34)%N then Value (EmptyString, s')
      else if (n =? 92)%N then
        match s' with
        | String "u" (String h1 (String h2 (String h3 (String h4 s'')))) =>
            a ← expect (hex_value h1); b ← expect (hex_value h2);
            c' ← expect (hex_value h3); d ← expect (hex_value h4);
            let cp := (((a * 16 + b) * 16 + c') * 16 + d)%N in
            if (cp <? 256)%N then
              r ← scan_string s''; Value (String (ascii_of_N cp) r.1, r.2)
            else Beyond
        | String e s'' =>
            x ← expect (unescape e);
            r ← scan_string s''; Value (String x r.1, r.2)
        | EmptyString => DecodeError
        end
      else if (n <? 32)%N then DecodeError
      else r ← scan_string s'; Value (String c r.1, r.2)
  end.

Fixpoint take_digits (s : string) : string * string :=
  match s with
  | String c s' =>
      if is_digit c then let r := take_digits s' in (String c r.1, r.2)
      else (EmptyString, s)
  | EmptyString => (EmptyString, s)
  end.

(** Whether a fraction ([.] and a digit) or an exponent ([e] or [E], an
    optional sign and a digit) starts here: the number is then a
    float. *)
Definition float_follows (s : string) : bool :=
  match s with
  | String c s' =>
      if Ascii.eqb c "." then negb (String.eqb (take_digits s').1 EmptyString)
      else if (Ascii.eqb c "e" || Ascii.eqb c "E")%bool then
        let s'' :=
          match s' with
          | String "+" t => t
          | String "-" t => t
          | _ => s'
          end in
        negb (String.eqb (take_digits s'').1 EmptyString)
      else false
  | EmptyString => false
  end.

(** A JSON number: an optional minus sign, then [0] or a run of digits
    that does not start with [0]; an integer unless a fraction or an
    exponent follows. *)
Definition scan_number (s : string) : decoded (pyval * string) :=
  let '(sign, s1) :=
    match s with
    | String "-" s' => ("-", s')
    | _ => (EmptyString, s)
    end in
  ip ← match s1 with
       | String "0" s' => Value ("0", s')
       | _ => let r := take_digits s1 in
              if String.eqb r.1 EmptyString then DecodeError else Value r
       end;
  let '(int_part, s2) := ip in
  if float_follows s2 then Beyond
  else if (max_digits <? String.length int_part)%nat then Beyond
  else z ← expect (NilZero.int_of_string (sign ++ int_part));
       Value (PyInt (Z.of_int z), s2).

(** [strip_prefix p s]: [s] without its prefix [p]. *)
Fixpoint strip_prefix (p s : string) : option string :=
  match p, s with
  | EmptyString, _ => Some s
  | String a p', String b s' => if Ascii.eqb a b then strip_prefix p' s' else None
  | _, _ => None
  end.

Definition scan_literal (s : string) : decoded (pyval * string) :=
  match strip_prefix "null" s with Some r => Value (PyNone, r) | None =>
  match strip_prefix "true" s with Some r => Value (PyBool true, r) | None =>
  match strip_prefix "false" s with Some r => Value (PyBool false, r) | None =>
  match strip_prefix "NaN" s with Some _ => Beyond | None =>
  match strip_prefix "Infinity" s with Some _ => Beyond | None =>
  match strip_prefix "-Infinity" s with Some _ => Beyond | None =>
    scan_number s
  end end end end end end.

(** One unit of [fuel] is spent at each value and at each member or
    element; a text of [n] characters needs at most [n + 1].  [depth]
    is how many more brackets may be opened. *)
Fixpoint scan_value (fuel depth : nat) (s : string) : decoded (pyval * string) :=
  match fuel with
  | O => Beyond
  | S fuel' =>
      match s with
      | String "{" s1 =>
          match depth with
          | O => Beyond
          | S depth' =>
              match skip_ws s1 with
              | String "}" s2 => Value (PyDict [], s2)
              | s2 => r ← scan_members fuel' depth' s2 []; Value (PyDict r.1, r.2)
              end
          end
      | String "[" s1 =>
          match depth with
          | O => Beyond
          | S depth' =>
              match skip_ws s1 with
              | String "]" s2 => Value (PyList [], s2)
              | s2 => r ← scan_elements fuel' depth' s2 []; Value (PyList r.1, r.2)
              end
          end
      | String c s1 =>
          if (N_of_ascii c =? 34)%N then
            r ← scan_string s1; Value (PyStr r.1, r.2)
          else scan_literal s
      | EmptyString => DecodeError
      end
  end
with scan_members (fuel depth : nat) (s : string) (acc : list (string * pyval))
  : decoded (list (string * pyval) * string) :=
  match fuel with
  | O => Beyond
  | S fuel' =>
      match s with
      | String c s1 =>
          if (N_of_ascii c =? 34)%N then
            k ← scan_string s1;
            match skip_ws k.2 with
            | String ":" s2 =>
                v ← scan_value fuel' depth (skip_ws s2);
                let acc' := dict_set k.1 v.1 acc in
                match skip_ws v.2 with
                | String "}" s3 => Value (acc', s3)
                | String "," s3 => scan_members fuel' depth (skip_ws s3) acc'
                | _ => DecodeError
                end
            | _ => DecodeError
            end
          else DecodeError
      | EmptyString => DecodeError
      end
  end
with scan_elements (fuel depth : nat) (s : string) (acc : list pyval)
  : decoded (list pyval * string) :=
  match fuel with
  | O => Beyond
  | S fuel' =>
      v ← scan_value fuel' depth s;
      match skip_ws v.2 with
      | String "]" s1 => Value ((acc ++ [v.1])%list, s1)
      | String "," s1 => scan_elements fuel' depth (skip_ws s1) (acc ++ [v.1])%list
      | _ => DecodeError
      end
  end.

(** [json.loads] *)
Definition loads (s : string) : decoded pyval :=
  r ← scan_value (S (String.length s)) max_depth (skip_ws s);
  match skip_ws r.2 with
  | EmptyString => Value r.1
  | _ => DecodeError
  end.

End Json.

(** ** str.encode('utf-8') and base64.b64encode *)

Module Bytes.

Definition byte_of_N (n : N) : byte :=
  match Byte.of_N n with Some b => b | None => x00 end.

(** UTF-8 of a code point below 256: one byte below 128, two above. *)
Definition encode_char (c : ascii) : list byte :=
  let n := N_of_ascii c in
  if (n <? 128)%N then [byte_of_N n]
  else [byte_of_N (N.lor 192 (N.shiftr n 6)); byte_of_N (N.lor 128 (N.land n 63))].

Fixpoint encode_utf8 (s : string) : list byte :=
  match s with
  | EmptyString => []
  | String c s' => encode_char c ++ encode_utf8 s'
  end.

(** The standard alphabet [A-Za-z0-9+/]. *)
Definition b64_char (i : N) : ascii :=
  if (i <? 26)%N then ascii_of_N (65 + i)
  else if (i <? 52)%N then ascii_of_N (97 + (i - 26))
  else if (i <? 62)%N then ascii_of_N (48 + (i - 52))
  else if (i =? 62)%N then "+"%char
  else "/"%char.

(** Three bytes give four characters; a tail of one or two bytes is
    padded with [=]. *)
Fixpoint b64encode (bs : list byte) : string :=
  match bs with
  | [] => EmptyString
  | [a] =>
      let n := N.shiftl (Byte.to_N a) 16 in
      String (b64_char (N.shiftr n 18))
        (String (b64_char (N.land (N.shiftr n 12) 63)) "==")
  | [a; b] =>
      let n := N.lor (N.shiftl (Byte.to_N a) 16) (N.shiftl (Byte.to_N b) 8) in
      String (b64_char (N.shiftr n 18))
        (String (b64_char (N.land (N.shiftr n 12) 63))
           (String (b64_char (N.land (N.shiftr n 6) 63)) "="))
  | a :: b :: c :: rest =>
      let n := N.lor (N.lor (N.shiftl (Byte.to_N a) 16) (N.shiftl (Byte.to_N b) 8))
                     (Byte.to_N c) in
      String (b64_char (N.shiftr n 18))
        (String (b64_char (N.land (N.shiftr n 12) 63))
           (String (b64_char (N.land (N.shiftr n 6) 63))
              (String (b64_char (N.land n 63)) (b64encode rest))))
  end.

End Bytes.

(** ** The envelope *)

(** The [data] field of an envelope.  [send_system_status] stores the
    objects [self.stats] and [self.config] themselves in its payload, so
    that payload shows their content at the time it is serialised, not
    at the time it was queued. *)
Inductive msgdata : Type :=
  | Data (d : pyval)
  | StatusData (status connection : string).

Module Msg.
Record t := mk {
  message_type : string;
  timestamp : string;
  data : msgdata;
  system_id : string;
  sequence_id : Z
}.
End Msg.
Abbreviation DashboardMessage := Msg.t.

(** ** Client state *)

Record Stats := mk_stats {
  messages_sent : Z;
  messages_failed : Z;
  bytes_sent : Z;
  connection_uptime : Z;
  last_heartbeat : option datetime;
  reconnections : Z
}.

(** [self.stats] as the dictionary it is, keys in insertion order. *)
Definition stats_items (s : Stats) : list (string * pyval) :=
  [ ("messages_sent", PyInt (messages_sent s));
    ("messages_failed", PyInt (messages_failed s));
    ("bytes_sent", PyInt (bytes_sent s));
    ("connection_uptime", PyInt (connection_uptime s));
    ("last_heartbeat",
       match last_heartbeat s with Some d => PyDatetime d | None => PyNone end);
    ("reconnections", PyInt (reconnections s)) ].

Definition handle := nat.

Record Client := mk_client {
  config : list (string * pyval);
  websocket : option handle;
  is_connected : bool;
  is_running : bool;
  reconnect_attempts : nat;
  max_reconnect_attempts : Z;
  reconnect_delay : Z;
  max_reconnect_delay : Z;
  sequence_id : Z;
  dashboard_url : string;
  api_key : string;
  system_id : string;
  compress_data : bool;
  batch_size : Z;
  send_interval : pyval;
  message_queue : list DashboardMessage;
  send_task : option nat;        (* the task, by its number in the loop *)
  heartbeat_task : option nat;
  stats : Stats
}.

Definition set_config v (c : Client) : Client :=
  mk_client v (websocket c) (is_connected c) (is_running c)
    (reconnect_attempts c) (max_reconnect_attempts c) (reconnect_delay c)
    (max_reconnect_delay c) (sequence_id c) (dashboard_url c) (api_key c)
    (system_id c) (compress_data c) (batch_size c) (send_interval c)
    (message_queue c) (send_task c) (heartbeat_task c) (stats c).

Definition set_websocket v (c : Client) : Client :=
  mk_client (config c) v (is_connected c) (is_running c)
    (reconnect_attempts c) (max_reconnect_attempts c) (reconnect_delay c)
    (max_reconnect_delay c) (sequence_id c) (dashboard_url c) (api_key c)
    (system_id c) (compress_data c) (batch_size c) (send_interval c)
    (message_queue c) (send_task c) (heartbeat_task c) (stats c).

Definition set_is_connected v (c : Client) : Client :=
  mk_client (config c) (websocket c) v (is_running c)
    (reconnect_attempts c) (max_reconnect_attempts c) (reconnect_delay c)
    (max_reconnect_delay c) (sequence_id c) (dashboard_url c) (api_key c)
    (system_id c) (compress_data c) (batch_size c) (send_interval c)
    (message_queue c) (send_task c) (heartbeat_task c) (stats c).

Definition set_is_running v (c : Client) : Client :=
  mk_client (config c) (websocket c) (is_connected c) v
    (reconnect_attempts c) (max_reconnect_attempts c) (reconnect_delay c)
    (max_reconnect_delay c) (sequence_id c) (dashboard_url c) (api_key c)
    (system_id c) (compress_data c) (batch_size c) (send_interval c)
    (message_queue c) (send_task c) (heartbeat_task c) (stats c).

Definition set_reconnect_attempts v (c : Client) : Client :=
  mk_client (config c) (websocket c) (is_connected c) (is_running c)
    v (max_reconnect_attempts c) (reconnect_delay c)
    (max_reconnect_delay c) (sequence_id c) (dashboard_url c) (api_key c)
    (system_id c) (compress_data c) (batch_size c) (send_interval c)
    (message_queue c) (send_task c) (heartbeat_task c) (stats c).

Definition set_sequence_id v (c : Client) : Client :=
  mk_client (config c) (websocket c) (is_connected c) (is_running c)
    (reconnect_attempts c) (max_reconnect_attempts c) (reconnect_delay c)
    (max_reconnect_delay c) v (dashboard_url c) (api_key c)
    (system_id c) (compress_data c) (batch_size c) (send_interval c)
    (message_queue c) (send_task c) (heartbeat_task c) (stats c).

Definition set_message_queue v (c : Client) : Client :=
  mk_client (config c) (websocket c) (is_connected c) (is_running c)
    (reconnect_attempts c) (max_reconnect_attempts c) (reconnect_delay c)
    (max_reconnect_delay c) (sequence_id c) (dashboard_url c) (api_key c)
    (system_id c) (compress_data c) (batch_size c) (send_interval c)
    v (send_task c) (heartbeat_task c) (stats c).

Definition set_send_task v (c : Client) : Client :=
  mk_client (config c) (websocket c) (is_connected c) (is_running c)
    (reconnect_attempts c) (max_reconnect_attempts c) (reconnect_delay c)
    (max_reconnect_delay c) (sequence_id c) (dashboard_url c) (api_key c)
    (system_id c) (compress_data c) (batch_size c) (send_interval c)
    (message_queue c) v (heartbeat_task c) (stats c).

Definition set_heartbeat_task v (c : Client) : Client :=
  mk_client (config c) (websocket c) (is_connected c) (is_running c)
    (reconnect_attempts c) (max_reconnect_attempts c) (reconnect_delay c)
    (max_reconnect_delay c) (sequence_id c) (dashboard_url c) (api_key c)
    (system_id c) (compress_data c) (batch_size c) (send_interval c)
    (message_queue c) (send_task c) v (stats c).

Definition set_stats v (c : Client) : Client :=
  mk_client (config c) (websocket c) (is_connected c) (is_running c)
    (reconnect_attempts c) (max_reconnect_attempts c) (reconnect_delay c)
    (max_reconnect_delay c) (sequence_id c) (dashboard_url c) (api_key c)
    (system_id c) (compress_data c) (batch_size c) (send_interval c)
    (message_queue c) (send_task c) (heartbeat_task c) v.

(** [config.get(key, default)] for a setting the model keeps as an
    integer, a string or a boolean; [None] when the stored value has
    another type. *)
Definition get_int (k : string) (default : Z) (cfg : list (string * pyval))
  : option Z :=
  match dict_get k cfg with
  | None => Some default
  | Some (PyInt z) => Some z
  | Some _ => None
  end.

Definition get_str (k : string) (default : string) (cfg : list (string * pyval))
  : option string :=
  match dict_get k cfg with
  | None => Some default
  | Some (PyStr s) => Some s
  | Some _ => None
  end.

Definition get_bool (k : string) (default : bool) (cfg : list (string * pyval))
  : option bool :=
  match dict_get k cfg with
  | None => Some default
  | Some (PyBool b) => Some b
  | Some _ => None
  end.

(** The outcome of [__init__].  [InitKeyError]:
    [config['dashboard_url']] raises [KeyError], the only way the
    constructor fails.  [InitBeyond]: the constructor returns, but a
    setting has a type the [Client] record does not keep (a float
    delay, say); the model has no such client and says nothing about
    it. *)
Inductive init_result : Type :=
  | InitOk (c : Client)
  | InitKeyError
  | InitBeyond.

Definition init (cfg : list (string * pyval)) : init_result :=
  match dict_get "dashboard_url" cfg with
  | None => InitKeyError
  | Some url_value =>
      let built :=
        max_attempts ← get_int "max_reconnect_attempts" 10 cfg;
        delay ← get_int "reconnect_delay" 5 cfg;
        max_delay ← get_int "max_reconnect_delay" 300 cfg;
        url ← match url_value with
              | PyStr u => Some u
              | _ => None
              end;
        key ← get_str "api_key" EmptyString cfg;
        sid ← get_str "system_id" "nexus_ai_local" cfg;
        compress ← get_bool "compress_data" true cfg;
        bsize ← get_int "batch_size" 10 cfg;
        Some {|
          config := cfg;
          websocket := None;
          is_connected := false;
          is_running := false;
          reconnect_attempts := 0;
          max_reconnect_attempts := max_attempts;
          reconnect_delay := delay;
          max_reconnect_delay := max_delay;
          sequence_id := 0;
          dashboard_url := url;
          api_key := key;
          system_id := sid;
          compress_data := compress;
          batch_size := bsize;
          send_interval := default (PyFloat "2.0") (dict_get "send_interval" cfg);
          message_queue := [];
          send_task := None;
          heartbeat_task := None;
          stats := {| messages_sent := 0; messages_failed := 0; bytes_sent := 0;
                      connection_uptime := 0; last_heartbeat := None;
                      reconnections := 0 |}
        |} in
      match built with
      | Some c => InitOk c
      | None => InitBeyond
      end
  end.

Local Open Scope list_scope.
Local Open Scope Z_scope.

(** ** What a step does to the outside world *)

Inductive event : Type :=
  | EvQueued (m : DashboardMessage)            (* [message_queue.put(m)] *)
  | EvWrite (h : handle) (m : DashboardMessage) (frame : string)
                                               (* [websocket.send] returned *)
  | EvWriteError (h : handle) (m : DashboardMessage)
                                               (* the [try] block raised *)
  | EvClose (h : handle)                       (* [websocket.close()] *)
  | EvSleep (d : pyval).                       (* [asyncio.sleep(d)] *)

(** Whether the guarded part of [_send_raw_message] runs to its end or
    raises (in practice: [websocket.send] on a broken connection). *)
Inductive io_result := IoOk | IoError.

(** A float with an integral value, as [repr] writes it (below 1e16 in
    absolute value). *)
Definition float_of_Z (z : Z) : pyval :=
  PyFloat (Json.dumps_int z ++ ".0")%string.

Section Operations.

(** [gzip.compress] is not modelled; the development holds for every
    function in its place. *)
Variable gzip_compress : list byte -> list byte.

(** [asdict(message)]: a deep copy, taken when the envelope is
    serialised. *)
Definition data_asdict (c : Client) (d : msgdata) : pyval :=
  match d with
  | Data v => v
  | StatusData status connection =>
      PyDict [ ("status", PyStr status);
               ("connection", PyStr connection);
               ("stats", PyDict (stats_items (stats c)));
               ("config", PyDict (config c)) ]
  end.

Definition asdict (c : Client) (m : DashboardMessage) : pyval :=
  PyDict [ ("message_type", PyStr (Msg.message_type m));
           ("timestamp", PyStr (Msg.timestamp m));
           ("data", data_asdict c (Msg.data m));
           ("system_id", PyStr (Msg.system_id m));
           ("sequence_id", PyInt (Msg.sequence_id m)) ].

(** The text handed to [websocket.send]. *)
Definition wire_frame (compress : bool) (message_json : string) : string :=
  if compress then
    let compressed := gzip_compress (Bytes.encode_utf8 message_json) in
    let encoded := Bytes.b64encode compressed in
    Json.dumps (PyDict [("compressed", PyBool true); ("data", PyStr encoded)])
  else message_json.

Definition stats_sent (n : Z) (s : Stats) : Stats :=
  {| messages_sent := messages_sent s + 1;
     messages_failed := messages_failed s;
     bytes_sent := bytes_sent s + n;
     connection_uptime := connection_uptime s;
     last_heartbeat := last_heartbeat s;
     reconnections := reconnections s |}.

Definition stats_failed (s : Stats) : Stats :=
  {| messages_sent := messages_sent s;
     messages_failed := messages_failed s + 1;
     bytes_sent := bytes_sent s;
     connection_uptime := connection_uptime s;
     last_heartbeat := last_heartbeat s;
     reconnections := reconnections s |}.

Definition _send_raw_message (message : DashboardMessage) (io : io_result)
    (c : Client) : bool * Client * list event :=
  match is_connected c, websocket c with
  | true, Some h =>
      match io with
      | IoOk =>
          let message_json := Json.dumps (asdict c message) in
          let final_message := wire_frame (compress_data c) message_json in
          (true,
           set_stats (stats_sent (Z.of_nat (String.length final_message)) (stats c)) c,
           [EvWrite h message final_message])
      | IoError =>
          (false,
           set_is_connected false (set_stats (stats_failed (stats c)) c),
           [EvWriteError h message])
      end
  | _, _ => (false, c, [])
  end.

Definition _get_next_sequence_id (c : Client) : Z * Client :=
  let c' := set_sequence_id (sequence_id c + 1) c in
  (sequence_id c', c').

(** *** Publishing *)

Definition enqueue (message : DashboardMessage) (c : Client)
  : Client * list event :=
  (set_message_queue (message_queue c ++ [message]) c, [EvQueued message]).

Definition send_queued (mtype : string) (now : datetime) (d : msgdata)
    (c : Client) : Client * list event :=
  let '(id, c1) := _get_next_sequence_id c in
  enqueue (Msg.mk mtype (dt_isoformat now) d (system_id c) id) c1.

Definition send_portfolio_data (portfolio_data : pyval) (now : datetime) :=
  send_queued "portfolio_update" now (Data portfolio_data).

Definition send_trade_signal (signal_data : pyval) (now : datetime) :=
  send_queued "trade_signal" now (Data signal_data).

Definition send_risk_alert (risk_data : pyval) (now : datetime) :=
  send_queued "risk_alert" now (Data risk_data).

Definition send_system_status (now : datetime) (c : Client)
  : Client * list event :=
  send_queued "system_status" now
    (StatusData (if is_running c then "running" else "stopped")
                (if is_connected c then "connected" else "disconnected")) c.

(** [now_iso], [now]: the two [datetime.now()]; [t0], [t1]: the two
    [time.time()], in the order Python evaluates them, as whole
    seconds.  [stats.get('start_time', t1)] looks the key up in
    [self.stats] and falls back on [t1]. *)
Definition send_heartbeat (now_iso now : datetime) (t0 t1 : Z)
    (io : io_result) (c : Client) : bool * Client * list event :=
  let start_time :=
    match dict_get "start_time" (stats_items (stats c)) with
    | Some (PyInt z) => z
    | _ => t1
    end in
  let heartbeat_data :=
    PyDict [ ("timestamp", PyStr (dt_isoformat now_iso));
             ("uptime", float_of_Z (t0 - start_time));
             ("queue_size", PyInt (Z.of_nat (length (message_queue c)))) ] in
  let '(id, c1) := _get_next_sequence_id c in
  _send_raw_message
    (Msg.mk "heartbeat" (dt_isoformat now) (Data heartbeat_data) (system_id c) id)
    io c1.

(** *** The send worker *)

Definition queue_empty (queue : list DashboardMessage) : bool :=
  match queue with [] => true | _ => false end.

(** [for _ in range(n): messages.append(queue.get_nowait())], left by
    [break] on [QueueEmpty]: the messages taken, oldest first, and what
    stays queued. *)
Fixpoint collect (n : nat) (queue messages : list DashboardMessage)
  : list DashboardMessage * list DashboardMessage :=
  match n with
  | O => (messages, queue)
  | S n' =>
      match queue with
      | [] => (messages, queue)
      | message :: queue' => collect n' queue' (messages ++ [message])
      end
  end.

Definition _send_batch (messages : list DashboardMessage) (now : datetime)
    (io : io_result) (c : Client) : bool * Client * list event :=
  let members := PyList (map (asdict c) messages) in
  let '(id, c1) := _get_next_sequence_id c in
  _send_raw_message
    (Msg.mk "batch" (dt_isoformat now) (Data (PyDict [("messages", members)]))
       (system_id c) id)
    io c1.

(** One turn of the loop of [_send_worker], up to its
    [asyncio.sleep(self.send_interval)]. *)
Definition send_worker_cycle (now : datetime) (io : io_result) (c : Client)
  : Client * list event :=
  let '(c', evs) :=
    if is_connected c && negb (queue_empty (message_queue c)) then
      let '(messages, queue') :=
        collect (Z.to_nat (batch_size c)) (message_queue c) [] in
      let c1 := set_message_queue queue' c in
      match messages with
      | [] => (c1, [])
      | [message] =>
          let '(_, c2, evs) := _send_raw_message message io c1 in (c2, evs)
      | _ =>
          let '(_, c2, evs) := _send_batch messages now io c1 in (c2, evs)
      end
    else (c, []) in
  (c', evs ++ [EvSleep (send_interval c')]).

(** *** The heartbeat worker: one turn, up to its [asyncio.sleep(30)] *)

Definition stats_heartbeat (d : datetime) (s : Stats) : Stats :=
  {| messages_sent := messages_sent s;
     messages_failed := messages_failed s;
     bytes_sent := bytes_sent s;
     connection_uptime := connection_uptime s;
     last_heartbeat := Some d;
     reconnections := reconnections s |}.

Definition heartbeat_period : pyval := PyInt 30.

Definition heartbeat_worker_cycle (now_iso now now' : datetime) (t0 t1 : Z)
    (io : io_result) (c : Client) : Client * list event :=
  let '(c', evs) :=
    if is_connected c then
      let '(_, c1, evs) := send_heartbeat now_iso now t0 t1 io c in
      (set_stats (stats_heartbeat now' (stats c1)) c1, evs)
    else (c, []) in
  (c', evs ++ [EvSleep heartbeat_period]).

(** *** The inbound dispatcher *)

Definition _send_pong (now : datetime) (io : io_result) (c : Client)
  : bool * Client * list event :=
  _send_raw_message
    (Msg.mk "pong" (dt_isoformat now) (Data (PyDict [("status", PyStr "ok")]))
       (system_id c) 0)
    io c.

(** [for key, value in config.items(): if key in self.config:
    self.config[key] = value] *)
Definition _handle_config_update (update : list (string * pyval)) (c : Client)
  : Client :=
  fold_left
    (fun c kv =>
       if dict_mem kv.1 (config c) then set_config (dict_set kv.1 kv.2 (config c)) c
       else c)
    update c.

(** [value == 'text'] for a value taken out of a decoded message. *)
Definition py_eq_str (v : pyval) (s : string) : bool :=
  match v with
  | PyStr s' => String.eqb s' s
  | _ => false
  end.

Definition _handle_command (command : pyval) (now : datetime) (c : Client)
  : option (Client * list event) :=
  match command with
  | PyDict kvs =>
      let cmd_type := default PyNone (dict_get "type" kvs) in
      if py_eq_str cmd_type "get_status" then Some (send_system_status now c)
      else Some (c, [])
  | _ => None
  end.

(** [None]: the handler raised ([data] or one of its parts is not the
    dictionary the code takes it for); [_listen_for_messages] logs it
    and goes on. *)
Definition _handle_incoming_message (data : pyval) (now : datetime)
    (io : io_result) (c : Client) : option (Client * list event) :=
  match data with
  | PyDict kvs =>
      let message_type := default (PyStr "unknown") (dict_get "type" kvs) in
      if py_eq_str message_type "ping" then
        let '(_, c', evs) := _send_pong now io c in Some (c', evs)
      else if py_eq_str message_type "config_update" then
        match default (PyDict []) (dict_get "config" kvs) with
        | PyDict update => Some (_handle_config_update update c, [])
        | _ => None
        end
      else if py_eq_str message_type "command" then
        _handle_command (default (PyDict []) (dict_get "command" kvs)) now c
      else Some (c, [])
  | _ => None
  end.

(** The body of the [async for] of [_listen_for_messages] for one frame;
    a frame that is not JSON, or whose handler raises, changes nothing.
    [None]: the frame is beyond the decoder of the model, which says
    nothing about what the client does with it. *)
Definition on_frame (message : string) (now : datetime) (io : io_result)
    (c : Client) : option (Client * list event) :=
  match Json.loads message with
  | Json.Value data =>
      Some (default (c, []) (_handle_incoming_message data now io c))
  | Json.DecodeError => Some (c, [])
  | Json.Beyond => None
  end.

(** *** Reconnecting *)

(** [_handle_reconnect] up to its [asyncio.sleep]: the state, the delay
    and whether the attempt counter is reset after the sleep. *)
Definition reconnect_wait (c : Client) : Client * Z * bool :=
  if Z.of_nat (reconnect_attempts c) <? max_reconnect_attempts c then
    let c' := set_reconnect_attempts (S (reconnect_attempts c)) c in
    let delay :=
      Z.min (reconnect_delay c' * 2 ^ (Z.of_nat (reconnect_attempts c') - 1))
            (max_reconnect_delay c') in
    (c', delay, false)
  else (c, max_reconnect_delay c, true).

Definition reconnect_resume (reset : bool) (c : Client) : Client :=
  if reset then set_reconnect_attempts 0%nat c else c.

(** The whole call: the state it leaves and the time it slept. *)
Definition _handle_reconnect (c : Client) : Client * Z :=
  let '(c', delay, reset) := reconnect_wait c in
  (reconnect_resume reset c', delay).

(** *** Connecting *)

Definition stats_reconnected (s : Stats) : Stats :=
  {| messages_sent := messages_sent s;
     messages_failed := messages_failed s;
     bytes_sent := bytes_sent s;
     connection_uptime := connection_uptime s;
     last_heartbeat := last_heartbeat s;
     reconnections := reconnections s + 1 |}.

Definition _send_handshake (now_info now : datetime) (io : io_result)
    (c : Client) : bool * Client * list event :=
  let handshake_data :=
    PyDict
      [ ("system_info",
           PyDict [ ("system_id", PyStr (system_id c));
                    ("version", PyStr "1.0.0");
                    ("timestamp", PyStr (dt_isoformat now_info));
                    ("capabilities",
                       PyList [ PyStr "real_time_data"; PyStr "compressed_data";
                                PyStr "batch_updates" ]) ]);
        ("config",
           PyDict [ ("send_interval", send_interval c);
                    ("batch_size", PyInt (batch_size c));
                    ("compression", PyBool (compress_data c)) ]) ] in
  _send_raw_message
    (Msg.mk "handshake" (dt_isoformat now) (Data handshake_data) (system_id c) 0)
    io c.

(** [_connect] after [websockets.connect] has returned the handle [h]. *)
Definition connected (h : handle) (now_info now : datetime) (io : io_result)
    (c : Client) : Client * list event :=
  let c1 := set_websocket (Some h) c in
  let c2 := set_is_connected true c1 in
  let c3 := set_stats (stats_reconnected (stats c2)) c2 in
  let '(_, c4, evs) := _send_handshake now_info now io c3 in
  (c4, evs).

(** ** The event loop

    [start] creates three tasks.  The loop resumes one task at a time,
    from the [await] where it is suspended to its next [await]; what the
    awaited operation produced is the [input] of the step. *)

Inductive cm_pc : Type :=
  | CmCreated                 (* created by [start], not run yet *)
  | CmConnecting              (* in [_connect]: [await websockets.connect] *)
  | CmListening               (* in [_listen_for_messages]: next frame *)
  | CmBackoff (reset : bool)  (* in [_handle_reconnect]: [await sleep] *)
  | CmPause                   (* [await asyncio.sleep(1)], end of the loop body *)
  | CmDone.

Inductive worker_pc : Type :=
  | WkCreated
  | WkSleeping
  | WkDone.

Inductive coroutine : Type :=
  | ConnectionManager (pc : cm_pc)
  | SendWorker (pc : worker_pc)
  | HeartbeatWorker (pc : worker_pc).

(** An [asyncio.Task]: where its coroutine stands and whether
    [cancel()] was called on it. *)
Record task := mk_task {
  body : coroutine;
  cancel_requested : bool
}.

Definition task_done (t : task) : bool :=
  match body t with
  | ConnectionManager CmDone | SendWorker WkDone | HeartbeatWorker WkDone => true
  | _ => false
  end.

(** What the clock and the socket give during one step. *)
Record world := mk_world {
  now_a : datetime;
  now_b : datetime;
  now_c : datetime;
  time_a : Z;
  time_b : Z;
  io : io_result
}.

Inductive input : Type :=
  | Wake (w : world)                   (* first run, or the sleep is over *)
  | ConnectOk (h : handle) (w : world) (* [websockets.connect] returned *)
  | ConnectFailed                      (* [websockets.connect] raised *)
  | Frame (message : string) (w : world)
  | StreamEnd                          (* the [async for] is exhausted *)
  | StreamClosed                       (* [ConnectionClosed] *)
  | StreamError.                       (* another exception while reading *)

Definition one_second : pyval := PyInt 1.

(** [while self.is_running:] then [try: await self._connect()]. *)
Definition cm_loop_head (c : Client) : cm_pc * Client * list event :=
  if is_running c then (CmConnecting, c, []) else (CmDone, c, []).

Definition cm_resume (pc : cm_pc) (inp : input) (c : Client)
  : option (cm_pc * Client * list event) :=
  match pc, inp with
  | CmCreated, Wake _ | CmPause, Wake _ => Some (cm_loop_head c)
  | CmConnecting, ConnectOk h w =>
      let '(c1, evs) := connected h (now_a w) (now_b w) (io w) c in
      if is_connected c1 then
        Some (CmListening, set_reconnect_attempts 0%nat c1, evs)
      else Some (CmPause, c1, evs ++ [EvSleep one_second])
  | CmConnecting, ConnectFailed =>
      let c1 := set_is_connected false c in
      if is_running c1 then
        let '(c2, delay, reset) := reconnect_wait c1 in
        Some (CmBackoff reset, c2, [EvSleep (PyInt delay)])
      else Some (CmPause, c1, [EvSleep one_second])
  | CmBackoff reset, Wake _ =>
      Some (CmPause, reconnect_resume reset c, [EvSleep one_second])
  | CmListening, Frame message w =>
      r ← on_frame message (now_a w) (io w) c;
      Some (CmListening, r.1, r.2)
  | CmListening, StreamEnd => Some (CmPause, c, [EvSleep one_second])
  | CmListening, StreamClosed | CmListening, StreamError =>
      Some (CmPause, set_is_connected false c, [EvSleep one_second])
  | _, _ => None
  end.

(** A worker resumed from its [sleep] (or run for the first time): a
    pending [cancel()] raises [CancelledError] there and the loop is
    left by [break]; otherwise the loop goes on while [is_running]. *)
Definition worker_resume (cycle : world -> Client -> Client * list event)
    (cancelled : bool) (pc : worker_pc) (inp : input) (c : Client)
  : option (worker_pc * Client * list event) :=
  match pc, inp with
  | WkDone, _ => None
  | _, Wake w =>
      if cancelled then Some (WkDone, c, [])
      else if is_running c then
        let '(c', evs) := cycle w c in Some (WkSleeping, c', evs)
      else Some (WkDone, c, [])
  | _, _ => None
  end.

Definition send_cycle (w : world) : Client -> Client * list event :=
  send_worker_cycle (now_a w) (io w).

Definition heartbeat_cycle (w : world) : Client -> Client * list event :=
  heartbeat_worker_cycle (now_a w) (now_b w) (now_c w) (time_a w) (time_b w) (io w).

Definition task_resume (t : task) (inp : input) (c : Client)
  : option (task * Client * list event) :=
  match body t with
  | ConnectionManager pc =>
      r ← cm_resume pc inp c;
      Some (mk_task (ConnectionManager r.1.1) (cancel_requested t), r.1.2, r.2)
  | SendWorker pc =>
      r ← worker_resume send_cycle (cancel_requested t) pc inp c;
      Some (mk_task (SendWorker r.1.1) (cancel_requested t), r.1.2, r.2)
  | HeartbeatWorker pc =>
      r ← worker_resume heartbeat_cycle (cancel_requested t) pc inp c;
      Some (mk_task (HeartbeatWorker r.1.1) (cancel_requested t), r.1.2, r.2)
  end.

(** The client, the tasks of the loop (a task is named by its position)
    and the number of [stop()] calls suspended in [websocket.close()]. *)
Record System := mk_system {
  client : Client;
  tasks : list task;
  closing : nat
}.

(** [task.cancel()]: a request, recorded on a task that is not done. *)
Definition cancel (t : task) : task :=
  if task_done t then t else mk_task (body t) true.

Definition cancel_task (ref : option nat) (ts : list task) : list task :=
  match ref with
  | Some i => alter cancel i ts
  | None => ts
  end.

(** [start()] up to its [await asyncio.sleep(2)]. *)
Definition start (s : System) : System * list event :=
  let c := client s in
  if is_running c then (s, [])
  else
    let n := length (tasks s) in
    let c1 := set_is_running true c in
    let c2 := set_send_task (Some (S n)) c1 in
    let c3 := set_heartbeat_task (Some (S (S n))) c2 in
    (mk_system c3
       (tasks s ++ [ mk_task (ConnectionManager CmCreated) false;
                     mk_task (SendWorker WkCreated) false;
                     mk_task (HeartbeatWorker WkCreated) false ])
       (closing s),
     [EvSleep (PyInt 2)]).

(** [stop()] up to [await self.websocket.close()], or to its end when no
    socket is held. *)
Definition stop (s : System) : System * list event :=
  let c := set_is_running false (client s) in
  let ts := cancel_task (heartbeat_task c) (cancel_task (send_task c) (tasks s)) in
  match websocket c with
  | Some h => (mk_system c ts (S (closing s)), [EvClose h])
  | None => (mk_system c ts (closing s), [])
  end.

(** The rest of [stop()], once [close()] has returned. *)
Definition stop_resume (s : System) : option (System * list event) :=
  match closing s with
  | O => None
  | S n =>
      Some (mk_system (set_is_connected false (set_websocket None (client s)))
              (tasks s) n, [])
  end.

Inductive action : Type :=
  | Start
  | Stop
  | StopResume
  | Portfolio (d : pyval) (now : datetime)
  | Signal (d : pyval) (now : datetime)
  | Risk (d : pyval) (now : datetime)
  | Status (now : datetime)
  | Resume (i : nat) (inp : input).

Definition on_client (f : Client -> Client * list event) (s : System)
  : System * list event :=
  let '(c, evs) := f (client s) in (mk_system c (tasks s) (closing s), evs).

(** One step of the system; [None] when the action cannot happen in this
    state. *)
Definition step (a : action) (s : System) : option (System * list event) :=
  match a with
  | Start => Some (start s)
  | Stop => Some (stop s)
  | StopResume => stop_resume s
  | Portfolio d now => Some (on_client (send_portfolio_data d now) s)
  | Signal d now => Some (on_client (send_trade_signal d now) s)
  | Risk d now => Some (on_client (send_risk_alert d now) s)
  | Status now => Some (on_client (send_system_status now) s)
  | Resume i inp =>
      t ← tasks s !! i;
      r ← task_resume t inp (client s);
      Some (mk_system r.1.2 (<[i := r.1.1]> (tasks s)) (closing s), r.2)
  end.

(** A run: the final state and everything that happened, in order. *)
Fixpoint run (acts : list action) (s : System) : option (System * list event) :=
  match acts with
  | [] => Some (s, [])
  | a :: acts' =>
      r ← step a s;
      r' ← run acts' r.1;
      Some (r'.1, r.2 ++ r'.2)
  end.

End Operations.

(** * The data publisher: a model of [data_publisher.py]

    [DashboardDataPublisher] formats what the trading system hands it
    and passes it to the client.  The publisher holds a reference to
    the client; here the two states travel side by side.  The trading
    engine, its performance tracker and the risk adjuster are outside
    the repository: a call on one of them is the value it returned, or
    nothing when it raised.  Every public method runs inside
    [try: ... except Exception], so a failure anywhere in its body
    leaves both states as they were at that point. *)

(** ** Python operations on values *)

(** [v.get(k, d)]; [None] is [AttributeError]: only a [dict] has
    [get]. *)
Definition py_get (v : pyval) (k : string) (d : pyval) : option pyval :=
  match v with
  | PyDict kvs => Some (default d (dict_get k kvs))
  | _ => None
  end.

(** [bool(v)] *)
Definition py_truthy (v : pyval) : bool :=
  match v with
  | PyNone => false
  | PyBool b => b
  | PyInt z => negb (z =? 0)
  | PyFloat r => negb (String.eqb r "0.0" || String.eqb r "-0.0")
  | PyStr s => negb (String.eqb s EmptyString)
  | PyList l => match l with [] => false | _ => true end
  | PyDict kvs => match kvs with [] => false | _ => true end
  | PyDatetime _ => true
  end.

(** [a or b] *)
Definition py_or (a b : pyval) : pyval := if py_truthy a then a else b.

(** [len(v)]; [None] is [TypeError]. *)
Definition py_len (v : pyval) : option Z :=
  match v with
  | PyStr s => Some (Z.of_nat (String.length s))
  | PyList l => Some (Z.of_nat (length l))
  | PyDict kvs => Some (Z.of_nat (length kvs))
  | _ => None
  end.

(** [l[k:]] on a sequence of length [n]: a negative [k] counts from the
    end, and the start is clipped to [0..n]. *)
Definition py_slice_from {A} (k : Z) (l : list A) : list A :=
  let n := Z.of_nat (length l) in
  let start := if k <? 0 then Z.max (n + k) 0 else Z.min k n in
  drop (Z.to_nat start) l.

(** [for x in v]: the items of a list, the keys of a dict, the
    characters of a string; [None] is [TypeError]. *)
Definition py_iter (v : pyval) : option (list pyval) :=
  match v with
  | PyList l => Some l
  | PyDict kvs => Some (map (fun kv => PyStr kv.1) kvs)
  | PyStr s => Some (map (fun ch => PyStr (String ch EmptyString))
                         (list_ascii_of_string s))
  | _ => None
  end.

(** [str.lower] on code points below 256: the letters [A-Z] and the
    capital letters of Latin-1 (192 to 222, but not the multiplication
    sign 215) move up by 32. *)
Definition lower_char (c : ascii) : ascii :=
  let n := N_of_ascii c in
  if (((65 <=? n) && (n <=? 90))
      || ((192 <=? n) && (n <=? 222) && negb (n =? 215)))%N
  then ascii_of_N (n + 32) else c.

Fixpoint py_lower (s : string) : string :=
  match s with
  | EmptyString => EmptyString
  | String c s' => String (lower_char c) (py_lower s')
  end.

(** [s.replace('Z', '+00:00')] *)
Fixpoint replace_Z (s : string) : string :=
  match s with
  | EmptyString => EmptyString
  | String c s' =>
      if Ascii.eqb c "Z" then ("+00:00" ++ replace_Z s')%string
      else String c (replace_Z s')
  end.

(** ** The publisher *)

Module PublisherConfig.
Record t := mk {
  update_interval : pyval;
  portfolio_update_interval : pyval;
  batch_signals : bool;
  max_history_length : Z;
  enable_compression : bool
}.

(** [PublisherConfig()] *)
Definition default : t :=
  {| update_interval := PyFloat "2.0";
     portfolio_update_interval := PyFloat "5.0";
     batch_signals := true;
     max_history_length := 1000;
     enable_compression := true |}.
End PublisherConfig.

Module Pub.
Record t := mk {
  config : PublisherConfig.t;
  last_portfolio_update : option datetime;
  signal_cache : list pyval;
  risk_alerts : list pyval;
  performance_history : list (string * list pyval);
  is_running : bool
}.

Definition set_last_portfolio_update v (p : t) : t :=
  mk (config p) v (signal_cache p) (risk_alerts p) (performance_history p)
     (is_running p).

Definition set_signal_cache v (p : t) : t :=
  mk (config p) (last_portfolio_update p) v (risk_alerts p)
     (performance_history p) (is_running p).

Definition set_risk_alerts v (p : t) : t :=
  mk (config p) (last_portfolio_update p) (signal_cache p) v
     (performance_history p) (is_running p).

Definition set_performance_history v (p : t) : t :=
  mk (config p) (last_portfolio_update p) (signal_cache p) (risk_alerts p) v
     (is_running p).

(** [__init__]: [config or PublisherConfig()]. *)
Definition init (config : option PublisherConfig.t) : t :=
  {| config := default PublisherConfig.default config;
     last_portfolio_update := None;
     signal_cache := [];
     risk_alerts := [];
     performance_history := [];
     is_running := false |}.
End Pub.

(** [WebSocketDashboardClient.get_connection_status] *)
Definition get_connection_status (c : Client) : pyval :=
  PyDict [ ("connected", PyBool (is_connected c));
           ("running", PyBool (is_running c));
           ("reconnect_attempts", PyInt (Z.of_nat (reconnect_attempts c)));
           ("queue_size", PyInt (Z.of_nat (length (message_queue c))));
           ("stats", PyDict (stats_items (stats c))) ].

(** *** Trade signals *)

(** The dictionary [publish_trade_signal] builds; [now] is its
    [datetime.now()]. *)
Definition format_signal (signal_data strategy_name : pyval) (now : datetime)
  : option pyval :=
  confidence ← py_get signal_data "confidence" (PyInt 0);
  action ← py_get signal_data "action" (PyStr "HOLD");
  symbol ← py_get signal_data "symbol" (PyStr "unknown");
  price ← py_get signal_data "price" (PyInt 0);
  quantity ← py_get signal_data "quantity" (PyInt 0);
  metadata ← py_get signal_data "metadata" (PyDict []);
  Some (PyDict [ ("timestamp", PyStr (dt_isoformat now));
                 ("strategy", py_or strategy_name (PyStr "unknown"));
                 ("signal", signal_data);
                 ("confidence", confidence);
                 ("action", action);
                 ("symbol", symbol);
                 ("price", price);
                 ("quantity", quantity);
                 ("metadata", metadata) ]).

(** [if len(cache) > max: cache = cache[-max//2:]]; the minus sign binds
    first, so the bound of the slice is the floor of [-max / 2]. *)
Definition _cleanup_signal_cache (p : Pub.t) : Pub.t :=
  let max := PublisherConfig.max_history_length (Pub.config p) in
  if Z.of_nat (length (Pub.signal_cache p)) >? max then
    Pub.set_signal_cache (py_slice_from ((- max) / 2) (Pub.signal_cache p)) p
  else p.

(** [now]: the [datetime.now()] of the signal; [now_q]: the one of the
    envelope. *)
Definition publish_trade_signal (signal_data strategy_name : pyval)
    (now now_q : datetime) (p : Pub.t) (c : Client)
  : Pub.t * Client * list event :=
  match format_signal signal_data strategy_name now with
  | Some formatted_signal =>
      let '(c', evs) := send_trade_signal formatted_signal now_q c in
      let p' :=
        if PublisherConfig.batch_signals (Pub.config p) then
          _cleanup_signal_cache
            (Pub.set_signal_cache (Pub.signal_cache p ++ [formatted_signal]) p)
        else p in
      (p', c', evs)
  | None => (p, c, [])
  end.

(** *** Risk alerts *)

Section RiskAlerts.

(** [datetime.fromisoformat] belongs to the standard library and is
    left as a parameter: the instant a text denotes as a naive
    [datetime], in microseconds, or nothing when the text does not
    parse ([ValueError]) or denotes an aware [datetime], which cannot
    be compared with the naive cutoff ([TypeError]). *)
Variable fromisoformat : string -> option Z.

(** [timedelta(hours=24)], in microseconds. *)
Definition one_day : Z := 24 * 3600 * 1000000.

(** [datetime.fromisoformat(alert['timestamp'].replace('Z', '+00:00'))];
    [None]: one of the steps raised. *)
Definition alert_instant (alert : pyval) : option Z :=
  match alert with
  | PyDict kvs =>
      match dict_get "timestamp" kvs with
      | Some (PyStr ts) => fromisoformat (replace_Z ts)
      | _ => None
      end
  | _ => None
  end.

(** The list comprehension of [_cleanup_risk_alerts]; [None]: it
    raised on one of the alerts. *)
Fixpoint recent_alerts (cutoff_time : Z) (alerts : list pyval)
  : option (list pyval) :=
  match alerts with
  | [] => Some []
  | alert :: rest =>
      t ← alert_instant alert;
      r ← recent_alerts cutoff_time rest;
      Some (if t >? cutoff_time then alert :: r else r)
  end.

(** [now_us]: the [datetime.now()] of the cutoff, in microseconds.
    [None]: the comprehension raised and [risk_alerts] was not
    assigned. *)
Definition _cleanup_risk_alerts (now_us : Z) (p : Pub.t) : option Pub.t :=
  kept ← recent_alerts (now_us - one_day) (Pub.risk_alerts p);
  Some (Pub.set_risk_alerts kept p).

(** [now]: the [datetime.now()] of the timestamp; [epoch]:
    [int(datetime.now().timestamp())]; [now_q]: the clock reading of
    the envelope; [now_us]: the one of the cleanup.  [alert_type] is a
    [str].  An exception in the cleanup is caught by the [except] of
    this method, after the alert was sent and cached. *)
Definition publish_risk_alert (alert_type : string)
    (message severity data : pyval) (now : datetime) (epoch : Z)
    (now_q : datetime) (now_us : Z) (p : Pub.t) (c : Client)
  : Pub.t * Client * list event :=
  match severity with
  | PyStr severity_text =>
      let risk_alert :=
        PyDict [ ("timestamp", PyStr (dt_isoformat now));
                 ("type", PyStr alert_type);
                 ("message", message);
                 ("severity", PyStr (py_lower severity_text));
                 ("data", py_or data (PyDict []));
                 ("alert_id",
                  PyStr (alert_type ++ "_" ++ Json.dumps_int epoch)%string) ] in
      let '(c', evs) := send_risk_alert risk_alert now_q c in
      let p1 := Pub.set_risk_alerts (Pub.risk_alerts p ++ [risk_alert]) p in
      (default p1 (_cleanup_risk_alerts now_us p1), c', evs)
  | _ => (p, c, [])
  end.

End RiskAlerts.

(** *** Model performance *)

Definition format_model_performance (model_name : string)
    (performance_data : pyval) (now : datetime) : option pyval :=
  accuracy ← py_get performance_data "accuracy" (PyInt 0);
  precision ← py_get performance_data "precision" (PyInt 0);
  recall ← py_get performance_data "recall" (PyInt 0);
  f1_score ← py_get performance_data "f1_score" (PyInt 0);
  returns ← py_get performance_data "returns" (PyInt 0);
  sharpe ← py_get performance_data "sharpe" (PyInt 0);
  Some (PyDict [ ("timestamp", PyStr (dt_isoformat now));
                 ("model_name", PyStr model_name);
                 ("performance", performance_data);
                 ("metrics",
                  PyDict [ ("accuracy", accuracy);
                           ("precision", precision);
                           ("recall", recall);
                           ("f1_score", f1_score);
                           ("returns", returns);
                           ("sharpe", sharpe) ]) ]).

(** The history of one model after [model_perf] has been added:
    [if len(l) > max: l = l[-max:]]. *)
Definition history_add (max : Z) (model_perf : pyval) (old : list pyval)
  : list pyval :=
  let l := old ++ [model_perf] in
  if Z.of_nat (length l) >? max then py_slice_from (- max) l else l.

Definition publish_model_performance (model_name : string)
    (performance_data : pyval) (now now_q : datetime) (p : Pub.t) (c : Client)
  : Pub.t * Client * list event :=
  match format_model_performance model_name performance_data now with
  | Some model_perf =>
      let history := Pub.performance_history p in
      let history1 :=
        if dict_mem model_name history then history
        else dict_set model_name [] history in
      let entries := default [] (dict_get model_name history1) in
      let history2 :=
        dict_set model_name
          (history_add (PublisherConfig.max_history_length (Pub.config p))
             model_perf entries)
          history1 in
      let '(c', evs) :=
        send_portfolio_data (PyDict [("model_performance", model_perf)]) now_q c in
      (Pub.set_performance_history history2 p, c', evs)
  | None => (p, c, [])
  end.

(** *** System metrics *)

(** [metrics_data] is built and then left unused; only
    [send_system_status()] is called. *)
Definition publish_system_metrics (system_metrics : pyval)
    (now now_q : datetime) (p : Pub.t) (c : Client)
  : Pub.t * Client * list event :=
  let metrics_data :=
    PyDict [ ("timestamp", PyStr (dt_isoformat now));
             ("system", system_metrics);
             ("connection_status", get_connection_status c);
             ("publisher_stats",
              PyDict [ ("last_portfolio_update",
                        match Pub.last_portfolio_update p with
                        | Some d => PyStr (dt_isoformat d)
                        | None => PyNone
                        end);
                       ("signals_cached",
                        PyInt (Z.of_nat (length (Pub.signal_cache p))));
                       ("alerts_cached",
                        PyInt (Z.of_nat (length (Pub.risk_alerts p))));
                       ("is_running", PyBool (Pub.is_running p)) ]) ] in
  let '(c', evs) := send_system_status now_q c in
  (p, c', evs).

(** *** Formatting helpers *)

(** One entry of [_format_positions]; [now] is the [datetime.now()] of
    this entry. *)
Definition format_position (symbol : string) (position_data : pyval)
    (now : datetime) : option pyval :=
  quantity ← py_get position_data "quantity" (PyInt 0);
  avg_price ← py_get position_data "avg_price" (PyInt 0);
  current_price ← py_get position_data "current_price" (PyInt 0);
  market_value ← py_get position_data "market_value" (PyInt 0);
  unrealized_pnl ← py_get position_data "unrealized_pnl" (PyInt 0);
  unrealized_pnl_pct ← py_get position_data "unrealized_pnl_pct" (PyInt 0);
  side ← py_get position_data "side" (PyStr "long");
  entry_time ← py_get position_data "entry_time" (PyStr EmptyString);
  Some (PyDict [ ("symbol", PyStr symbol);
                 ("quantity", quantity);
                 ("avg_price", avg_price);
                 ("current_price", current_price);
                 ("market_value", market_value);
                 ("unrealized_pnl", unrealized_pnl);
                 ("unrealized_pnl_pct", unrealized_pnl_pct);
                 ("side", side);
                 ("entry_time", entry_time);
                 ("last_update", PyStr (dt_isoformat now)) ]).

Fixpoint format_positions_from (i : nat) (clock : nat -> datetime)
    (items : list (string * pyval)) : option (list pyval) :=
  match items with
  | [] => Some []
  | (symbol, position_data) :: rest =>
      fp ← format_position symbol position_data (clock i);
      r ← format_positions_from (S i) clock rest;
      Some (fp :: r)
  end.

(** [clock i] is the clock reading taken for the [i]-th position;
    [None]: [positions] has no [items()], or a position has no
    [get]. *)
Definition _format_positions (positions : pyval) (clock : nat -> datetime)
  : option (list pyval) :=
  match positions with
  | PyDict items => format_positions_from 0 clock items
  | _ => None
  end.

Definition format_trade (trade : pyval) : option pyval :=
  trade_id ← py_get trade "trade_id" (PyStr EmptyString);
  symbol ← py_get trade "symbol" (PyStr EmptyString);
  side ← py_get trade "side" (PyStr EmptyString);
  quantity ← py_get trade "quantity" (PyInt 0);
  price ← py_get trade "price" (PyInt 0);
  value ← py_get trade "value" (PyInt 0);
  pnl ← py_get trade "pnl" (PyInt 0);
  commission ← py_get trade "commission" (PyInt 0);
  timestamp ← py_get trade "timestamp" (PyStr EmptyString);
  strategy ← py_get trade "strategy" (PyStr "unknown");
  Some (PyDict [ ("trade_id", trade_id);
                 ("symbol", symbol);
                 ("side", side);
                 ("quantity", quantity);
                 ("price", price);
                 ("value", value);
                 ("pnl", pnl);
                 ("commission", commission);
                 ("timestamp", timestamp);
                 ("strategy", strategy) ]).

Fixpoint format_all (f : pyval -> option pyval) (l : list pyval)
  : option (list pyval) :=
  match l with
  | [] => Some []
  | x :: l' => y ← f x; r ← format_all f l'; Some (y :: r)
  end.

(** [None]: [recent_trades] cannot be iterated, or one of its items has
    no [get]. *)
Definition _format_recent_trades (recent_trades : pyval) : option (list pyval) :=
  trades ← py_iter recent_trades;
  format_all format_trade trades.

Definition format_point (point : pyval) : option pyval :=
  timestamp ← py_get point "timestamp" (PyStr EmptyString);
  equity ← py_get point "equity" (PyInt 0);
  drawdown ← py_get point "drawdown" (PyInt 0);
  Some (PyDict [ ("timestamp", timestamp);
                 ("equity", equity);
                 ("drawdown", drawdown) ]).

(** [equity_data[-100:]]; [None] is [TypeError]: only a list or a
    string can be sliced. *)
Definition last_hundred (equity_data : pyval) : option (list pyval) :=
  match equity_data with
  | PyList l => Some (py_slice_from (-100) l)
  | PyStr s =>
      Some (map (fun ch => PyStr (String ch EmptyString))
              (py_slice_from (-100) (list_ascii_of_string s)))
  | _ => None
  end.

(** [get_equity_curve]: what [performance_tracker.get_equity_curve()]
    returned, or nothing when the call raised.  Whatever goes wrong is
    caught inside and gives the empty list. *)
Definition _get_equity_curve_data (get_equity_curve : option pyval)
  : list pyval :=
  default []
    (equity_data ← get_equity_curve;
     points ← last_hundred equity_data;
     format_all format_point points).

(** The risk adjuster: for each of the two methods, whether the object
    has it and, if so, what awaiting it gave (nothing: it raised). *)
Record RiskAdjuster := mk_risk_adjuster {
  calculate_var : option (option pyval);
  get_portfolio_concentration : option (option pyval)
}.

Definition _get_risk_metrics (risk_adjuster : RiskAdjuster) : pyval :=
  let risk_metrics :=
    [ ("var_95", PyInt 0);
      ("expected_shortfall", PyInt 0);
      ("position_concentration", PyInt 0);
      ("leverage", PyInt 0);
      ("correlation_risk", PyInt 0);
      ("liquidity_risk", PyInt 0) ] in
  let after_var :=
    match calculate_var risk_adjuster with
    | None => Some risk_metrics
    | Some (Some v) => Some (dict_set "var_95" v risk_metrics)
    | Some None => None
    end in
  let after_concentration :=
    m ← after_var;
    match get_portfolio_concentration risk_adjuster with
    | None => Some m
    | Some (Some v) => Some (dict_set "position_concentration" v m)
    | Some None => None
    end in
  match after_concentration with
  | Some m => PyDict m
  | None => PyDict []
  end.

(** *** Portfolio data *)

(** The trading engine as [publish_portfolio_data] sees it: what each
    of the four calls returned, or nothing when it raised. *)
Record TradingEngine := mk_engine {
  get_portfolio_summary : option pyval;
  get_performance_summary : option pyval;
  get_recent_trades : option pyval;
  get_equity_curve : option pyval
}.

(** The dictionary handed to [send_portfolio_data]; [None]: an
    exception left the [try] block before the send. *)
Definition portfolio_payload (trading_engine : TradingEngine)
    (risk_adjuster : option RiskAdjuster) (now : datetime)
    (clock : nat -> datetime) : option pyval :=
  portfolio_summary ← get_portfolio_summary trading_engine;
  performance_metrics ← get_performance_summary trading_engine;
  total_value ← py_get portfolio_summary "total_portfolio_value" (PyInt 0);
  cash ← py_get portfolio_summary "cash" (PyInt 0);
  positions_value ← py_get portfolio_summary "positions_value" (PyInt 0);
  unrealized_pnl ← py_get portfolio_summary "unrealized_pnl" (PyInt 0);
  realized_pnl ← py_get portfolio_summary "realized_pnl" (PyInt 0);
  total_pnl ← py_get portfolio_summary "total_pnl" (PyInt 0);
  positions ← py_get portfolio_summary "positions" (PyDict []);
  position_count ← py_len positions;
  total_return ← py_get performance_metrics "total_return" (PyInt 0);
  daily_return ← py_get performance_metrics "daily_return" (PyInt 0);
  sharpe_ratio ← py_get performance_metrics "sharpe_ratio" (PyInt 0);
  max_drawdown ← py_get performance_metrics "max_drawdown" (PyInt 0);
  win_rate ← py_get performance_metrics "win_rate" (PyInt 0);
  profit_factor ← py_get performance_metrics "profit_factor" (PyInt 0);
  formatted_positions ← _format_positions positions clock;
  recent_trades ← get_recent_trades trading_engine;
  formatted_trades ← _format_recent_trades recent_trades;
  let equity_curve := _get_equity_curve_data (get_equity_curve trading_engine) in
  let portfolio_data :=
    [ ("timestamp", PyStr (dt_isoformat now));
      ("portfolio",
       PyDict [ ("total_value", total_value);
                ("cash", cash);
                ("positions_value", positions_value);
                ("unrealized_pnl", unrealized_pnl);
                ("realized_pnl", realized_pnl);
                ("total_pnl", total_pnl);
                ("position_count", PyInt position_count) ]);
      ("performance",
       PyDict [ ("total_return", total_return);
                ("daily_return", daily_return);
                ("sharpe_ratio", sharpe_ratio);
                ("max_drawdown", max_drawdown);
                ("win_rate", win_rate);
                ("profit_factor", profit_factor) ]);
      ("positions", PyList formatted_positions);
      ("recent_trades", PyList formatted_trades);
      ("equity_curve", PyList equity_curve) ] in
  Some (PyDict
          match risk_adjuster with
          | Some ra => dict_set "risk" (_get_risk_metrics ra) portfolio_data
          | None => portfolio_data
          end).

(** [now_q]: the clock reading of the envelope; [now_last]: the one
    stored in [last_portfolio_update].  The client is the client as it
    is when [send_portfolio_data] is reached. *)
Definition publish_portfolio_data (trading_engine : TradingEngine)
    (risk_adjuster : option RiskAdjuster) (now : datetime)
    (clock : nat -> datetime) (now_q now_last : datetime)
    (p : Pub.t) (c : Client) : Pub.t * Client * list event :=
  match portfolio_payload trading_engine risk_adjuster now clock with
  | Some portfolio_data =>
      let '(c', evs) := send_portfolio_data portfolio_data now_q c in
      (Pub.set_last_portfolio_update (Some now_last) p, c', evs)
  | None => (p, c, [])
  end.

(** [get_publisher_status] *)
Definition get_publisher_status (p : Pub.t) (c : Client) : pyval :=
  PyDict [ ("is_running", PyBool (Pub.is_running p));
           ("last_portfolio_update",
            match Pub.last_portfolio_update p with
            | Some d => PyStr (dt_isoformat d)
            | None => PyNone
            end);
           ("signals_cached", PyInt (Z.of_nat (length (Pub.signal_cache p))));
           ("alerts_cached", PyInt (Z.of_nat (length (Pub.risk_alerts p))));
           ("websocket_status", get_connection_status c);
           ("config",
            PyDict [ ("update_interval",
                      PublisherConfig.update_interval (Pub.config p));
                     ("portfolio_update_interval",
                      PublisherConfig.portfolio_update_interval (Pub.config p));
                     ("batch_signals",
                      PyBool (PublisherConfig.batch_signals (Pub.config p)));
                     ("max_history_length",
                      PyInt (PublisherConfig.max_history_length (Pub.config p))) ]) ].

(** * Configuration: a model of [dashboard_config.py] *)

(** The dataclass checks no types: a field holds whatever value it is
    given. *)
Module DashboardConfig.
Record t := mk {
  dashboard_url : pyval;
  api_key : pyval;
  system_id : pyval;
  auto_connect : pyval;
  max_reconnect_attempts : pyval;
  reconnect_delay : pyval;
  max_reconnect_delay : pyval;
  connection_timeout : pyval;
  send_interval : pyval;
  portfolio_update_interval : pyval;
  batch_size : pyval;
  compress_data : pyval;
  max_history_length : pyval;
  publish_portfolio : pyval;
  publish_signals : pyval;
  publish_risk_alerts : pyval;
  publish_model_performance : pyval;
  publish_system_status : pyval;
  enable_ssl : pyval;
  verify_ssl : pyval;
  log_connection_events : pyval;
  log_data_publishing : pyval
}.

(** [DashboardConfig()] *)
Definition default : t :=
  {| dashboard_url := PyStr "wss://your-dashboard-domain.com/ws/trading";
     api_key := PyStr EmptyString;
     system_id := PyStr "nexus_ai_local";
     auto_connect := PyBool true;
     max_reconnect_attempts := PyInt 10;
     reconnect_delay := PyFloat "5.0";
     max_reconnect_delay := PyFloat "300.0";
     connection_timeout := PyFloat "30.0";
     send_interval := PyFloat "2.0";
     portfolio_update_interval := PyFloat "5.0";
     batch_size := PyInt 10;
     compress_data := PyBool true;
     max_history_length := PyInt 1000;
     publish_portfolio := PyBool true;
     publish_signals := PyBool true;
     publish_risk_alerts := PyBool true;
     publish_model_performance := PyBool true;
     publish_system_status := PyBool true;
     enable_ssl := PyBool true;
     verify_ssl := PyBool false;
     log_connection_events := PyBool true;
     log_data_publishing := PyBool false |}.

Definition set_dashboard_url v (c : t) : t :=
  mk v (api_key c) (system_id c) (auto_connect c) (max_reconnect_attempts c)
     (reconnect_delay c) (max_reconnect_delay c) (connection_timeout c)
     (send_interval c) (portfolio_update_interval c) (batch_size c)
     (compress_data c) (max_history_length c) (publish_portfolio c)
     (publish_signals c) (publish_risk_alerts c) (publish_model_performance c)
     (publish_system_status c) (enable_ssl c) (verify_ssl c)
     (log_connection_events c) (log_data_publishing c).
End DashboardConfig.

Definition get_default_dashboard_config : pyval :=
  PyDict
    [ ("dashboard",
       PyDict
         [ ("enabled", PyBool false);
           ("url", PyStr "wss://your-dashboard-domain.com/ws/trading");
           ("api_key", PyStr EmptyString);
           ("system_id", PyStr "nexus_ai_local");
           ("auto_connect", PyBool true);
           ("connection",
            PyDict [ ("max_reconnect_attempts", PyInt 10);
                     ("reconnect_delay", PyFloat "5.0");
                     ("max_reconnect_delay", PyFloat "300.0");
                     ("timeout", PyFloat "30.0");
                     ("enable_ssl", PyBool true);
                     ("verify_ssl", PyBool false) ]);
           ("publishing",
            PyDict [ ("send_interval", PyFloat "2.0");
                     ("portfolio_update_interval", PyFloat "5.0");
                     ("batch_size", PyInt 10);
                     ("compress_data", PyBool true);
                     ("max_history_length", PyInt 1000) ]);
           ("data_types",
            PyDict [ ("portfolio", PyBool true);
                     ("signals", PyBool true);
                     ("risk_alerts", PyBool true);
                     ("model_performance", PyBool true);
                     ("system_status", PyBool true) ]);
           ("logging",
            PyDict [ ("connection_events", PyBool true);
                     ("data_publishing", PyBool false) ]) ]) ].

(** [None] is [AttributeError]: [config_dict], its [dashboard] entry or
    one of the four sections under it is not a dictionary. *)
Definition load_dashboard_config_from_dict (config_dict : pyval)
  : option DashboardConfig.t :=
  dashboard_section ← py_get config_dict "dashboard" (PyDict []);
  connection_section ← py_get dashboard_section "connection" (PyDict []);
  publishing_section ← py_get dashboard_section "publishing" (PyDict []);
  data_types_section ← py_get dashboard_section "data_types" (PyDict []);
  logging_section ← py_get dashboard_section "logging" (PyDict []);
  dashboard_url ← py_get dashboard_section "url"
                    (PyStr "wss://localhost:8080/ws/trading");
  api_key ← py_get dashboard_section "api_key" (PyStr EmptyString);
  system_id ← py_get dashboard_section "system_id" (PyStr "nexus_ai_local");
  auto_connect ← py_get dashboard_section "auto_connect" (PyBool true);
  max_reconnect_attempts ←
    py_get connection_section "max_reconnect_attempts" (PyInt 10);
  reconnect_delay ← py_get connection_section "reconnect_delay" (PyFloat "5.0");
  max_reconnect_delay ←
    py_get connection_section "max_reconnect_delay" (PyFloat "300.0");
  connection_timeout ← py_get connection_section "timeout" (PyFloat "30.0");
  send_interval ← py_get publishing_section "send_interval" (PyFloat "2.0");
  portfolio_update_interval ←
    py_get publishing_section "portfolio_update_interval" (PyFloat "5.0");
  batch_size ← py_get publishing_section "batch_size" (PyInt 10);
  compress_data ← py_get publishing_section "compress_data" (PyBool true);
  max_history_length ←
    py_get publishing_section "max_history_length" (PyInt 1000);
  publish_portfolio ← py_get data_types_section "portfolio" (PyBool true);
  publish_signals ← py_get data_types_section "signals" (PyBool true);
  publish_risk_alerts ← py_get data_types_section "risk_alerts" (PyBool true);
  publish_model_performance ←
    py_get data_types_section "model_performance" (PyBool true);
  publish_system_status ←
    py_get data_types_section "system_status" (PyBool true);
  enable_ssl ← py_get connection_section "enable_ssl" (PyBool true);
  verify_ssl ← py_get connection_section "verify_ssl" (PyBool false);
  log_connection_events ←
    py_get logging_section "connection_events" (PyBool true);
  log_data_publishing ← py_get logging_section "data_publishing" (PyBool false);
  Some (DashboardConfig.mk dashboard_url api_key system_id auto_connect
          max_reconnect_attempts reconnect_delay max_reconnect_delay
          connection_timeout send_interval portfolio_update_interval batch_size
          compress_data max_history_length publish_portfolio publish_signals
          publish_risk_alerts publish_model_performance publish_system_status
          enable_ssl verify_ssl log_connection_events log_data_publishing).

Definition DEVELOPMENT_CONFIG : pyval :=
  PyDict
    [ ("dashboard",
       PyDict
         [ ("enabled", PyBool false);
           ("url", PyStr "ws://localhost:8080/ws/trading");
           ("api_key", PyStr "dev_key_123");
           ("system_id", PyStr "nexus_ai_dev");
           ("connection",
            PyDict [ ("enable_ssl", PyBool false);
                     ("verify_ssl", PyBool false);
                     ("timeout", PyFloat "10.0") ]);
           ("publishing",
            PyDict [ ("send_interval", PyFloat "1.0");
                     ("portfolio_update_interval", PyFloat "2.0") ]);
           ("logging",
            PyDict [ ("connection_events", PyBool true);
                     ("data_publishing", PyBool true) ]) ]) ].

Definition PRODUCTION_CONFIG : pyval :=
  PyDict
    [ ("dashboard",
       PyDict
         [ ("enabled", PyBool true);
           ("url", PyStr "wss://nexus-dashboard.yourdomain.com/ws/trading");
           ("api_key", PyStr "your_production_api_key_here");
           ("system_id", PyStr "nexus_ai_prod");
           ("connection",
            PyDict [ ("enable_ssl", PyBool true);
                     ("verify_ssl", PyBool true);
                     ("timeout", PyFloat "30.0");
                     ("max_reconnect_attempts", PyInt 20) ]);
           ("publishing",
            PyDict [ ("send_interval", PyFloat "3.0");
                     ("compress_data", PyBool true) ]);
           ("logging",
            PyDict [ ("connection_events", PyBool true);
                     ("data_publishing", PyBool false) ]) ]) ].

Definition TESTING_CONFIG : pyval :=
  PyDict
    [ ("dashboard",
       PyDict
         [ ("enabled", PyBool false);
           ("url", PyStr "ws://localhost:8080/ws/testing");
           ("api_key", PyStr "test_key");
           ("system_id", PyStr "nexus_ai_test");
           ("connection",
            PyDict [ ("max_reconnect_attempts", PyInt 3);
                     ("reconnect_delay", PyFloat "1.0");
                     ("timeout", PyFloat "5.0") ]);
           ("publishing",
            PyDict [ ("send_interval", PyFloat "0.5");
                     ("batch_size", PyInt 5) ]) ]) ].

Definition get_config_for_environment (environment : string) : pyval :=
  if String.eqb (py_lower environment) "production" then PRODUCTION_CONFIG
  else if String.eqb (py_lower environment) "testing" then TESTING_CONFIG
  else DEVELOPMENT_CONFIG.

(** * Observations and sample data *)

(** The envelopes handed to the socket during a step, and whether a step
    put anything (back) on the queue. *)
Definition sent_envelope (e : event) : option DashboardMessage :=
  match e with
  | EvWrite _ m _ | EvWriteError _ m => Some m
  | _ => None
  end.

Definition sent_envelopes (evs : list event) : list DashboardMessage :=
  omap sent_envelope evs.

Definition is_queued (e : event) : bool :=
  match e with EvQueued _ => true | _ => false end.


(** The sequence ids given to queued and to batch envelopes during a
    run, in the order they were given. *)
Definition assigned_id (e : event) : option Z :=
  match e with
  | EvQueued m => Some (Msg.sequence_id m)
  | EvWrite _ m _ | EvWriteError _ m =>
      if String.eqb (Msg.message_type m) "batch" then Some (Msg.sequence_id m)
      else None
  | _ => None
  end.

Definition assigned_ids (evs : list event) : list Z := omap assigned_id evs.

(** The ids taken from the counter during a run: those of queued, batch
    and heartbeat envelopes. *)
Definition takes_id (m : DashboardMessage) : bool :=
  String.eqb (Msg.message_type m) "batch"
  || String.eqb (Msg.message_type m) "heartbeat".

Definition consumed_id (e : event) : option Z :=
  match e with
  | EvQueued m => Some (Msg.sequence_id m)
  | EvWrite _ m _ | EvWriteError _ m =>
      if takes_id m then Some (Msg.sequence_id m) else None
  | _ => None
  end.

Definition consumed_ids (evs : list event) : list Z := omap consumed_id evs.

Definition is_heartbeat (e : event) : bool :=
  match sent_envelope e with
  | Some m => String.eqb (Msg.message_type m) "heartbeat"
  | None => false
  end.

(** The ids carried by the heartbeats handed to the socket. *)
Definition heartbeat_id (e : event) : option Z :=
  match sent_envelope e with
  | Some m =>
      if String.eqb (Msg.message_type m) "heartbeat" then Some (Msg.sequence_id m)
      else None
  | None => None
  end.

Definition heartbeat_ids (evs : list event) : list Z := omap heartbeat_id evs.

(** What holds of every state the client can reach: [is_connected] is
    only set with a socket in hand, and the envelopes on the queue are
    those of the four publishing calls. *)
Definition well_formed (c : Client) : Prop :=
  (is_connected c = true -> websocket c <> None)
  /\ Forall (fun m => takes_id m = false) (message_queue c).

(** What a step may do to the counter: take [n] ids in a row. *)
Definition counts (c c' : Client) (evs : list event) : Prop :=
  well_formed c ->
  well_formed c'
  /\ exists n : nat,
       sequence_id c' = sequence_id c + Z.of_nat n
       /\ consumed_ids evs = seqZ (sequence_id c + 1) (Z.of_nat n).

(** A task whose [cancel()] was called, or that is over. *)
Definition stopping (t : task) : bool := cancel_requested t || task_done t.

Definition running_tasks (s : System) : list bool :=
  map (fun t => negb (task_done t)) (tasks s).

(** A character [json.dumps] writes as it is, and a text made of such
    characters. *)
Definition plain_char (c : ascii) : bool :=
  let n := N_of_ascii c in
  ((32 <=? n) && (n <=? 126) && negb (n =? 34) && negb (n =? 92))%N.

Fixpoint plain_string (s : string) : bool :=
  match s with
  | EmptyString => true
  | String c s' => plain_char c && plain_string s'
  end.

(** The marker object wrapped around a compressed envelope. *)
Definition marker_object (encoded : string) : pyval :=
  PyDict [("compressed", PyBool true); ("data", PyStr encoded)].

(** The text [json.dumps] writes for the marker object. *)
Definition marker_text (encoded : string) : string :=
  String "{" (String Json.dquote ("compressed" ++ String Json.dquote (": true, "
    ++ String Json.dquote ("data" ++ String Json.dquote (": "
    ++ String Json.dquote (encoded ++ String Json.dquote "}"))))))%string.

Module Sample.

(** Stands for [gzip.compress] where a statement is run on a concrete
    input. *)
Definition stored (bs : list byte) : list byte := bs.

Definition noon : datetime :=
  mk_datetime "2025-01-01T12:00:00" "2025-01-01 12:00:00".

Definition cfg : list (string * pyval) :=
  [ ("dashboard_url", PyStr "ws://localhost:8080/ws/trading");
    ("api_key", PyStr "dev_key_123");
    ("send_interval", PyFloat "1.0") ].

(** The client [__init__] builds from [cfg]. *)
Definition fresh : Client :=
  Eval vm_compute in
    match init cfg as o
          return (match o with InitOk _ => Client | _ => unit end) with
    | InitOk c => c
    | _ => tt
    end.

(** The same client, connected on socket 7 after a handshake. *)
Definition online : Client :=
  Eval vm_compute in (connected stored 7%nat noon noon IoOk fresh).1.

Definition portfolio (n : Z) : pyval :=
  PyDict [("total_value", PyInt n)].

(** [online] after [n] calls of [send_portfolio_data]. *)
Fixpoint publish (n : nat) (c : Client) : Client :=
  match n with
  | O => c
  | S n' =>
      let c' := publish n' c in
      (send_portfolio_data (portfolio (Z.of_nat n')) noon c').1
  end.

Definition world_ok : world := mk_world noon noon noon 1000 1000 IoOk.

Definition idle : System := mk_system fresh [] 0.

(** A session: start, connect, three publishes sent as one batch, a
    dropped connection, a reconnect, one more publish sent alone. *)
Definition session : list action :=
  [ Start;
    Resume 0 (Wake world_ok);
    Resume 0 (ConnectOk 7%nat world_ok);
    Portfolio (portfolio 100) noon;
    Signal (PyDict [("side", PyStr "buy")]) noon;
    Risk (PyDict [("level", PyStr "high")]) noon;
    Resume 1 (Wake world_ok);
    Resume 0 StreamClosed;
    Resume 0 (Wake world_ok);
    Resume 0 (ConnectOk 8%nat world_ok);
    Status noon;
    Resume 1 (Wake world_ok) ].

(** The system at the end of [session]: connected on socket 8, the three
    tasks alive. *)
Definition live : System :=
  Eval vm_compute in
    match run stored session idle with
    | Some r => r.1
    | None => idle
    end.

(** [start()], then the connection manager runs up to its
    [await websockets.connect(...)]. *)
Definition connecting : list action := [Start; Resume 0 (Wake world_ok)].

(** A connected client whose configuration asks for batches of 0. *)
Definition batch0 : Client :=
  Eval vm_compute in
    match init (("batch_size", PyInt 0) :: cfg) with
    | InitOk c => publish 2 (connected stored 7%nat noon noon IoOk c).1
    | _ => fresh
    end.

Definition envelope : DashboardMessage :=
  Msg.mk "portfolio_update" "2025-01-01T12:00:00"
    (Data (PyDict [ ("total_value", PyInt 100);
                    ("owner", PyStr (String "233"%char "milie"));
                    ("positions", PyList [PyDict [("symbol", PyStr "BTC")]]) ]))
    "nexus_ai_local" 1.

End Sample.

(** ** What a step is made of

    Every step of the system changes the client through a few
    elementary moves.  A property kept by each move is kept by every
    run. *)

Definition silent (e : event) : bool :=
  match e with
  | EvSleep _ | EvClose _ => true
  | _ => false
  end.

Inductive move (gz : list byte -> list byte)
  : Client -> Client -> list event -> Prop :=
  | MvRaw m io c :
      move gz c (_send_raw_message gz m io c).1.2 (_send_raw_message gz m io c).2
  | MvPublish mtype now d c :
      move gz c (send_queued mtype now d c).1 (send_queued mtype now d c).2
  | MvTakeId c :
      move gz c (set_sequence_id (sequence_id c + 1) c) []
  | MvDequeue n c :
      move gz c (set_message_queue (drop n (message_queue c)) c) []
  | MvConnected b c :
      move gz c (set_is_connected b c) []
  | MvSocket o c :
      move gz c (set_websocket o c) []
  | MvRunning b c :
      move gz c (set_is_running b c) []
  | MvAttempt c :
      Z.of_nat (reconnect_attempts c) < max_reconnect_attempts c ->
      move gz c (set_reconnect_attempts (S (reconnect_attempts c)) c) []
  | MvAttemptsReset c :
      move gz c (set_reconnect_attempts 0%nat c) []
  | MvReconnected c :
      move gz c (set_stats (stats_reconnected (stats c)) c) []
  | MvHeartbeatAt d c :
      move gz c (set_stats (stats_heartbeat d (stats c)) c) []
  | MvConfig update c :
      move gz c (_handle_config_update update c) []
  | MvSendTask o c :
      move gz c (set_send_task o c) []
  | MvHeartbeatTask o c :
      move gz c (set_heartbeat_task o c) []
  | MvSilent e c :
      silent e = true -> move gz c c [e].

Inductive moves (gz : list byte -> list byte)
  : Client -> Client -> list event -> Prop :=
  | moves_nil c : moves gz c c []
  | moves_cons c c1 c2 evs1 evs2 :
      move gz c c1 evs1 -> moves gz c1 c2 evs2 -> moves gz c c2 (evs1 ++ evs2).

(** The settings [__init__] copies out of the configuration. *)
Definition same_settings (c c' : Client) : Prop :=
  max_reconnect_attempts c' = max_reconnect_attempts c
  /\ reconnect_delay c' = reconnect_delay c
  /\ max_reconnect_delay c' = max_reconnect_delay c
  /\ dashboard_url c' = dashboard_url c
  /\ api_key c' = api_key c
  /\ system_id c' = system_id c
  /\ compress_data c' = compress_data c
  /\ batch_size c' = batch_size c
  /\ send_interval c' = send_interval c.

(** Counting what went to the socket. *)
Definition is_write (e : event) : bool :=
  match e with EvWrite _ _ _ => true | _ => false end.

Definition is_write_error (e : event) : bool :=
  match e with EvWriteError _ _ => true | _ => false end.

Definition frame_length (e : event) : Z :=
  match e with
  | EvWrite _ _ frame => Z.of_nat (String.length frame)
  | _ => 0
  end.

Fixpoint count_events (p : event -> bool) (evs : list event) : Z :=
  match evs with
  | [] => 0
  | e :: evs' => (if p e then 1 else 0) + count_events p evs'
  end.

Definition written_length (evs : list event) : Z :=
  foldr Z.add 0 (map frame_length evs).

(** The envelopes put on the queue during a run, oldest first. *)
Definition queued_envelope (e : event) : option DashboardMessage :=
  match e with EvQueued m => Some m | _ => None end.

Definition queued_envelopes (evs : list event) : list DashboardMessage :=
  omap queued_envelope evs.

(** What a step does to the statistics. *)
Definition accounted (c c' : Client) (evs : list event) : Prop :=
  messages_sent (stats c') = messages_sent (stats c) + count_events is_write evs
  /\ messages_failed (stats c')
     = messages_failed (stats c) + count_events is_write_error evs
  /\ bytes_sent (stats c') = bytes_sent (stats c) + written_length evs
  /\ connection_uptime (stats c') = connection_uptime (stats c)
  /\ reconnections (stats c) <= reconnections (stats c').


(** The settings of a configuration have the types the [Client] record
    keeps them in: integers for the three reconnect settings and the
    batch size, strings for the url, the key and the system id, a
    boolean for the compression switch. *)
Definition absent_or (p : pyval -> bool) (k : string)
    (cfg : list (string * pyval)) : bool :=
  match dict_get k cfg with
  | Some v => p v
  | None => true
  end.

Definition is_int (v : pyval) : bool :=
  match v with PyInt _ => true | _ => false end.

Definition is_str (v : pyval) : bool :=
  match v with PyStr _ => true | _ => false end.

Definition is_bool (v : pyval) : bool :=
  match v with PyBool _ => true | _ => false end.

Definition settings_kept (cfg : list (string * pyval)) : bool :=
  absent_or is_int "max_reconnect_attempts" cfg
  && absent_or is_int "reconnect_delay" cfg
  && absent_or is_int "max_reconnect_delay" cfg
  && absent_or is_str "dashboard_url" cfg
  && absent_or is_str "api_key" cfg
  && absent_or is_str "system_id" cfg
  && absent_or is_bool "compress_data" cfg
  && absent_or is_int "batch_size" cfg.

(** The statistics of a client that has done nothing yet. *)
Definition no_stats : Stats :=
  {| messages_sent := 0; messages_failed := 0; bytes_sent := 0;
     connection_uptime := 0; last_heartbeat := None; reconnections := 0 |}.

Definition pong_envelope (now : datetime) (c : Client) : DashboardMessage :=
  Msg.mk "pong" (dt_isoformat now) (Data (PyDict [("status", PyStr "ok")]))
    (system_id c) 0.

Definition status_envelope (now : datetime) (c : Client) : DashboardMessage :=
  Msg.mk "system_status" (dt_isoformat now)
    (StatusData (if is_running c then "running" else "stopped")
                (if is_connected c then "connected" else "disconnected"))
    (system_id c) (sequence_id c + 1).

Definition is_publish (a : action) : bool :=
  match a with
  | Portfolio _ _ | Signal _ _ | Risk _ _ | Status _ => true
  | _ => false
  end.

(** The connection managers of the loop that have not returned. *)
Definition live_connection_manager (t : task) : bool :=
  match body t with
  | ConnectionManager CmDone => false
  | ConnectionManager _ => true
  | _ => false
  end.

Definition live_connection_managers (s : System) : nat :=
  length (List.filter live_connection_manager (tasks s)).

Module Demo.

Definition cfg : list (string * pyval) :=
  [ ("dashboard_url", PyStr "ws://localhost:8080/ws/trading");
    ("batch_size", PyInt 10);
    ("max_reconnect_attempts", PyInt 3) ].

(** The client [__init__] builds from [cfg]. *)
Definition fresh : Client :=
  Eval vm_compute in
    match init cfg as o
          return (match o with InitOk _ => Client | _ => unit end) with
    | InitOk c => c
    | _ => tt
    end.

Definition idle : System := mk_system fresh [] 0.

Definition update_frame : string :=
  Json.dumps (PyDict [ ("type", PyStr "config_update");
                       ("config", PyDict [("batch_size", PyInt 1)]) ]).

Definition ping_frame : string :=
  Json.dumps (PyDict [("type", PyStr "ping")]).

Definition status_frame : string :=
  Json.dumps (PyDict [ ("type", PyStr "command");
                       ("command", PyDict [("type", PyStr "get_status")]) ]).

(** Start, connect, take a configuration update, publish three times, a
    failed batch write, a failed connect, a second one. *)
Definition session : list action :=
  [ Start;
    Resume 0 (Wake Sample.world_ok);
    Resume 0 (ConnectOk 7%nat Sample.world_ok);
    Resume 0 (Frame update_frame Sample.world_ok);
    Portfolio (Sample.portfolio 1) Sample.noon;
    Portfolio (Sample.portfolio 2) Sample.noon;
    Portfolio (Sample.portfolio 3) Sample.noon;
    Resume 1 (Wake (mk_world Sample.noon Sample.noon Sample.noon 0 0 IoError));
    Portfolio (Sample.portfolio 4) Sample.noon;
    Resume 0 StreamClosed;
    Resume 0 (Wake Sample.world_ok);
    Resume 0 ConnectFailed;
    Resume 0 (Wake Sample.world_ok);
    Resume 0 (Wake Sample.world_ok);
    Resume 0 ConnectFailed ].

End Demo.

Definition handshake_envelope_type (m : DashboardMessage) : bool :=
  String.eqb (Msg.message_type m) "handshake".

Definition is_stream_loss (inp : input) : bool :=
  match inp with
  | StreamEnd | StreamClosed | StreamError => true
  | _ => false
  end.

(** The kind of coroutine a task runs. *)
Inductive kind : Type := KConnectionManager | KSendWorker | KHeartbeatWorker.

Definition task_kind (t : task) : kind :=
  match body t with
  | ConnectionManager _ => KConnectionManager
  | SendWorker _ => KSendWorker
  | HeartbeatWorker _ => KHeartbeatWorker
  end.

(** The task references [start] keeps. *)
Definition same_refs (c c' : Client) : Prop :=
  send_task c' = send_task c /\ heartbeat_task c' = heartbeat_task c.

(** [send_task] and [heartbeat_task] name workers of their kind, and no
    connection manager has a cancellation pending. *)
Definition tasks_tidy (s : System) : Prop :=
  (forall i t, send_task (client s) = Some i -> tasks s !! i = Some t ->
     task_kind t = KSendWorker)
  /\ (forall i t, heartbeat_task (client s) = Some i -> tasks s !! i = Some t ->
        task_kind t = KHeartbeatWorker)
  /\ (forall i t, tasks s !! i = Some t -> task_kind t = KConnectionManager ->
        cancel_requested t = false).

(** ** Observing the publisher *)

Definition is_dict (v : pyval) : bool :=
  match v with PyDict _ => true | _ => false end.

(** One call of [publish_trade_signal]: the signal, the strategy name
    and the two clock readings. *)
Record signal_call := mk_signal_call {
  call_signal : pyval;
  call_strategy : pyval;
  call_now : datetime;
  call_now_q : datetime
}.

Definition formatted (k : signal_call) : option pyval :=
  format_signal (call_signal k) (call_strategy k) (call_now k).

(** A series of [publish_trade_signal] calls. *)
Fixpoint publish_signals (calls : list signal_call) (p : Pub.t) (c : Client)
  : Pub.t * Client * list event :=
  match calls with
  | [] => (p, c, [])
  | k :: calls' =>
      let '(p1, c1, evs1) :=
        publish_trade_signal (call_signal k) (call_strategy k) (call_now k)
          (call_now_q k) p c in
      let '(p2, c2, evs2) := publish_signals calls' p1 c1 in
      (p2, c2, evs1 ++ evs2)
  end.

(** The payload of an envelope that carries plain data. *)
Definition payload (m : DashboardMessage) : option pyval :=
  match Msg.data m with
  | Data d => Some d
  | StatusData _ _ => None
  end.

(** The five [publish_*] methods of [DashboardDataPublisher], each with
    the clock readings and the outcomes of the outside calls it makes. *)
Inductive pub_call : Type :=
  | CallSignal (signal_data strategy_name : pyval) (now : datetime)
  | CallRiskAlert (alert_type : string) (message severity data : pyval)
      (now : datetime) (epoch : Z) (now_us : Z)
  | CallModel (model_name : string) (performance_data : pyval) (now : datetime)
  | CallMetrics (system_metrics : pyval) (now : datetime)
  | CallPortfolio (trading_engine : TradingEngine)
      (risk_adjuster : option RiskAdjuster) (now : datetime)
      (clock : nat -> datetime) (now_last : datetime).

Definition is_risk_alert_call (k : pub_call) : bool :=
  match k with
  | CallRiskAlert _ _ _ _ _ _ _ => true
  | _ => false
  end.

Definition pub_step (fromisoformat : string -> option Z) (k : pub_call)
    (now_q : datetime) (p : Pub.t) (c : Client)
  : Pub.t * Client * list event :=
  match k with
  | CallSignal d s now => publish_trade_signal d s now now_q p c
  | CallRiskAlert t m sv d now epoch now_us =>
      publish_risk_alert fromisoformat t m sv d now epoch now_q now_us p c
  | CallModel name d now => publish_model_performance name d now now_q p c
  | CallMetrics d now => publish_system_metrics d now now_q p c
  | CallPortfolio e ra now clock now_last =>
      publish_portfolio_data e ra now clock now_q now_last p c
  end.

(** The keys of a dictionary, in order. *)
Definition py_keys (v : pyval) : list string :=
  match v with
  | PyDict kvs => map fst kvs
  | _ => []
  end.

Module DemoPub.

Definition small : PublisherConfig.t :=
  PublisherConfig.mk (PyFloat "2.0") (PyFloat "5.0") true 3 true.

Definition buy (n : Z) : signal_call :=
  mk_signal_call (PyDict [("action", PyStr "BUY"); ("quantity", PyInt n)])
    (PyStr "momentum") Sample.noon Sample.noon.

Definition broken : signal_call :=
  mk_signal_call (PyList []) PyNone Sample.noon Sample.noon.

Definition calls : list signal_call :=
  [buy 1; broken; buy 2; buy 3; buy 4; buy 5].

Definition trade (n : Z) : pyval :=
  PyDict [("trade_id", PyInt n); ("symbol", PyStr "BTC")].

Definition point (n : Z) : pyval := PyDict [("equity", PyInt n)].

Definition engine : TradingEngine :=
  {| get_portfolio_summary :=
       Some (PyDict [ ("cash", PyInt 100);
                      ("positions",
                       PyDict [ ("BTC", PyDict [("quantity", PyInt 2)]);
                                ("ETH", PyDict []) ]) ]);
     get_performance_summary := Some (PyDict [("win_rate", PyFloat "0.5")]);
     get_recent_trades := Some (PyList [trade 1; trade 2]);
     get_equity_curve := None |}.

(** Stands for [datetime.fromisoformat] where a statement is run on a
    concrete input: it knows the text of [Sample.noon] only, as instant
    0. *)
Definition parse (s : string) : option Z :=
  if String.eqb s (dt_isoformat Sample.noon) then Some 0 else None.

Definition adjuster : RiskAdjuster :=
  {| calculate_var := Some (Some (PyFloat "0.02"));
     get_portfolio_concentration := None |}.

End DemoPub.

(** The keys of the dictionaries the publisher builds. *)
Definition signal_keys : list string :=
  [ "timestamp"; "strategy"; "signal"; "confidence"; "action"; "symbol";
    "price"; "quantity"; "metadata" ].

(** The fields [publish_trade_signal] copies out of the signal, with
    the value each one gets when the signal does not have it. *)
Definition signal_defaults : list (string * pyval) :=
  [ ("confidence", PyInt 0); ("action", PyStr "HOLD");
    ("symbol", PyStr "unknown"); ("price", PyInt 0); ("quantity", PyInt 0);
    ("metadata", PyDict []) ].

Definition trade_keys : list string :=
  [ "trade_id"; "symbol"; "side"; "quantity"; "price"; "value"; "pnl";
    "commission"; "timestamp"; "strategy" ].

Definition risk_keys : list string :=
  [ "var_95"; "expected_shortfall"; "position_concentration"; "leverage";
    "correlation_risk"; "liquidity_risk" ].

(** The risk metrics no method of the adjuster is asked for. *)
Definition fixed_risk_keys : list string :=
  [ "expected_shortfall"; "leverage"; "correlation_risk"; "liquidity_risk" ].

Definition publisher_types : list string :=
  [ "trade_signal"; "risk_alert"; "portfolio_update"; "system_status" ].

Definition alert_keys : list string :=
  [ "timestamp"; "type"; "message"; "severity"; "data"; "alert_id" ].

(** The same engine with another outcome of [get_equity_curve]. *)
Definition with_equity_curve (g : option pyval) (e : TradingEngine)
  : TradingEngine :=
  mk_engine (get_portfolio_summary e) (get_performance_summary e)
    (get_recent_trades e) g.

(** [position_count] in a portfolio payload. *)
Definition position_count (d : pyval) : option pyval :=
  pf ← py_get d "portfolio" PyNone; py_get pf "position_count" PyNone.

(** The inputs [publish_portfolio_data] can format: both summaries are
    dictionaries, every position is one, and the recent trades are a
    list of dictionaries. *)
Definition engine_ok (e : TradingEngine) : bool :=
  match get_portfolio_summary e, get_performance_summary e, get_recent_trades e with
  | Some (PyDict s), Some (PyDict _), Some (PyList trades) =>
      match default (PyDict []) (dict_get "positions" s) with
      | PyDict items => forallb (fun kv => is_dict kv.2) items
      | _ => false
      end
      && forallb is_dict trades
  | _, _, _ => false
  end.

(** ** Observing the configuration loader *)

Definition section_names : list string :=
  [ "connection"; "publishing"; "data_types"; "logging" ].

(** Whatever is a section is a dictionary. *)
Definition sections_ok (config_dict : pyval) : bool :=
  match py_get config_dict "dashboard" (PyDict []) with
  | Some (PyDict ds) =>
      forallb (fun k => is_dict (default (PyDict []) (dict_get k ds)))
        section_names
  | _ => false
  end.

Definition environments : list pyval :=
  [ PRODUCTION_CONFIG; TESTING_CONFIG; DEVELOPMENT_CONFIG ].

(** Turns of the send worker, one per clock reading, while the socket
    accepts every write. *)
Fixpoint send_cycles (gz : list byte -> list byte) (nows : list datetime)
    (c : Client) : Client * list event :=
  match nows with
  | [] => (c, [])
  | now :: nows' =>
      let '(c1, evs1) := send_worker_cycle gz now IoOk c in
      let '(c2, evs2) := send_cycles gz nows' c1 in
      (c2, evs1 ++ evs2)
  end.

(** Whether an alert is younger than the cutoff; an alert whose
    timestamp cannot be read counts as not. *)
Definition is_recent (fromisoformat : string -> option Z) (cutoff_time : Z)
    (alert : pyval) : bool :=
  match alert_instant fromisoformat alert with
  | Some t => t >? cutoff_time
  | None => false
  end.

Definition readable (fromisoformat : string -> option Z) (alert : pyval) : bool :=
  match alert_instant fromisoformat alert with
  | Some _ => true
  | None => false
  end.

(** * Properties *)

Section RawSend.

Variable gz : list byte -> list byte.

Lemma collect_spec (n : nat) (queue messages : list DashboardMessage) :
  collect n queue messages = (messages ++ take n queue, drop n queue).
Proof.
  revert queue messages.
  induction n as [|n IH]; intros queue messages; simpl.
  - by rewrite app_nil_r.
  - destruct queue as [|m queue]; simpl.
    + by rewrite app_nil_r.
    + rewrite IH. by rewrite <- app_assoc.
Qed.

(** C10.  A call of [_send_raw_message] on a client that is not
    connected, or that holds no socket, returns [False], writes nothing
    and leaves the whole state (hence [messages_sent], [messages_failed]
    and [bytes_sent]) as it was; a pong or a heartbeat produced in that
    state is dropped without being counted as a failure. *)
Theorem send_raw_message_disconnected (m : DashboardMessage) (io : io_result)
    (c : Client) :
  is_connected c = false \/ websocket c = None ->
  _send_raw_message gz m io c = (false, c, [])
  /\ (forall now, _send_pong gz now io c = (false, c, []))
  /\ (forall now_iso now t0 t1,
        let r := send_heartbeat gz now_iso now t0 t1 io c in
        r.1.1 = false /\ r.2 = [] /\ stats r.1.2 = stats c
        /\ message_queue r.1.2 = message_queue c).
Proof.
  intros Hdis.
  assert (Hraw : forall m' c', is_connected c' = is_connected c ->
            websocket c' = websocket c ->
            _send_raw_message gz m' io c' = (false, c', [])).
  { intros m' c' Hc Hw. unfold _send_raw_message. rewrite Hc, Hw.
    destruct Hdis as [-> | ->]; [done | by destruct (is_connected c)]. }
  split; [by apply Hraw|]. split.
  - intros now. unfold _send_pong. by apply Hraw.
  - intros now_iso now t0 t1. unfold send_heartbeat, _get_next_sequence_id.
    cbv zeta. rewrite Hraw by (by destruct c). by destruct c.
Qed.

Lemma send_raw_message_connected (m : DashboardMessage) (io : io_result)
    (c : Client) (h : handle) :
  is_connected c = true -> websocket c = Some h ->
  let r := _send_raw_message gz m io c in
  sent_envelopes r.2 = [m] /\ forallb (fun e => negb (is_queued e)) r.2 = true
  /\ message_queue r.1.2 = message_queue c
  /\ sequence_id r.1.2 = sequence_id c
  /\ send_interval r.1.2 = send_interval c.
Proof.
  intros Hc Hw. unfold _send_raw_message. rewrite Hc, Hw.
  by destruct io.
Qed.

(** C6.  When the guarded part of [_send_raw_message] raises on a
    connected client, [messages_failed] grows by exactly one,
    [is_connected] becomes false, the call returns [False] and the
    outbound queue is left as it was; in the send worker, the envelopes
    taken for the failed send are gone from the queue and nothing is
    queued again. *)
Theorem send_failure_not_requeued (m : DashboardMessage) (c : Client)
    (h : handle) :
  is_connected c = true -> websocket c = Some h ->
  (let r := _send_raw_message gz m IoError c in
   r.1.1 = false
   /\ messages_failed (stats r.1.2) = messages_failed (stats c) + 1
   /\ messages_sent (stats r.1.2) = messages_sent (stats c)
   /\ bytes_sent (stats r.1.2) = bytes_sent (stats c)
   /\ is_connected r.1.2 = false
   /\ message_queue r.1.2 = message_queue c
   /\ r.2 = [EvWriteError h m])
  /\ (forall now,
        let r := send_worker_cycle gz now IoError c in
        message_queue r.1 = drop (Z.to_nat (batch_size c)) (message_queue c)
        /\ forallb (fun e => negb (is_queued e)) r.2 = true
        /\ (message_queue c <> [] -> 1 <= batch_size c ->
            is_connected r.1 = false
            /\ messages_failed (stats r.1) = messages_failed (stats c) + 1)).
Proof.
  intros Hc Hw. split.
  - unfold _send_raw_message. by rewrite Hc, Hw.
  - intros now. unfold send_worker_cycle. rewrite Hc. cbn [andb].
    destruct (message_queue c) as [|m0 q] eqn:Hq.
    { cbn. rewrite drop_nil. split_and!; [done | done | congruence]. }
    cbn [queue_empty negb]. rewrite collect_spec. cbn [app].
    destruct (Z.to_nat (batch_size c)) as [|n] eqn:Hn.
    { cbn. split_and!; [done | done | lia]. }
    cbn [take drop].
    destruct (take n q) as [|m1 rest] eqn:Ht.
    + unfold _send_raw_message. cbn. rewrite Hc, Hw. cbn. done.
    + unfold _send_batch, _get_next_sequence_id, _send_raw_message.
      cbn. rewrite Hc, Hw. cbn. done.
Qed.

End RawSend.

Lemma send_raw_message_disconnected_witness :
  (is_connected Sample.fresh = false \/ websocket Sample.fresh = None)
  /\ _send_raw_message Sample.stored
       (Msg.mk "pong" "t" (Data PyNone) "nexus" 0) IoOk Sample.fresh
     = (false, Sample.fresh, []).
Proof.
  split; [left; reflexivity|].
  apply (send_raw_message_disconnected Sample.stored
           (Msg.mk "pong" "t" (Data PyNone) "nexus" 0) IoOk Sample.fresh).
  left; reflexivity.
Defined.

Lemma send_failure_not_requeued_witness :
  is_connected Sample.online = true /\ websocket Sample.online = Some 7%nat
  /\ let r := _send_raw_message Sample.stored
               (Msg.mk "pong" "t" (Data PyNone) "nexus" 0) IoError Sample.online in
     messages_failed (stats r.1.2) = messages_failed (stats Sample.online) + 1
     /\ message_queue r.1.2 = message_queue Sample.online.
Proof.
  split; [reflexivity|]. split; [reflexivity|].
  pose proof (send_failure_not_requeued Sample.stored
                (Msg.mk "pong" "t" (Data PyNone) "nexus" 0) Sample.online 7%nat
                eq_refl eq_refl) as [H _].
  cbv zeta in *. tauto.
Defined.

Section SendWorker.

Variable gz : list byte -> list byte.

(** The batch envelope [_send_batch] builds for [messages]. *)
Lemma send_batch_envelope (messages : list DashboardMessage) (now : datetime)
    (io : io_result) (c : Client) (h : handle) :
  is_connected c = true -> websocket c = Some h ->
  let r := _send_batch gz messages now io c in
  sent_envelopes r.2 =
    [ Msg.mk "batch" (dt_isoformat now)
        (Data (PyDict [("messages", PyList (map (asdict c) messages))]))
        (system_id c) (sequence_id c + 1) ]
  /\ message_queue r.1.2 = message_queue c
  /\ sequence_id r.1.2 = sequence_id c + 1
  /\ send_interval r.1.2 = send_interval c.
Proof.
  intros Hc Hw. unfold _send_batch, _get_next_sequence_id, _send_raw_message.
  cbn. rewrite Hc, Hw. by destruct io.
Qed.

(** C4, as the code has it.  In a cycle of the send worker on a
    connected client with a non-empty queue, the envelopes taken are the
    first [batch_size] of the queue (all of it when it holds fewer), in
    queue order, and the rest stays queued in order.  One envelope taken
    is handed to the socket as it is; two or more are wrapped, in order,
    in one [batch] envelope that carries the next sequence id; none
    taken (a [batch_size] below one) sends nothing.  With a [batch_size]
    of at least one, at least one envelope is taken. *)
Theorem send_worker_cycle_batches (now : datetime) (io : io_result)
    (c : Client) (h : handle) :
  is_connected c = true -> websocket c = Some h -> message_queue c <> [] ->
  let n := Z.to_nat (batch_size c) in
  let messages := take n (message_queue c) in
  let r := send_worker_cycle gz now io c in
  message_queue r.1 = drop n (message_queue c)
  /\ messages ++ message_queue r.1 = message_queue c
  /\ length messages = (n `min` length (message_queue c))%nat
  /\ (1 <= batch_size c -> messages <> [])
  /\ match messages with
     | [] => sent_envelopes r.2 = [] /\ sequence_id r.1 = sequence_id c
     | [m] => sent_envelopes r.2 = [m] /\ sequence_id r.1 = sequence_id c
     | _ =>
         sent_envelopes r.2 =
           [ Msg.mk "batch" (dt_isoformat now)
               (Data (PyDict
                  [("messages",
                    PyList (map (asdict (set_message_queue
                                           (drop n (message_queue c)) c))
                                messages))]))
               (system_id c) (sequence_id c + 1) ]
         /\ sequence_id r.1 = sequence_id c + 1
     end.
Proof.
  intros Hc Hw Hq. cbv zeta.
  set (n := Z.to_nat (batch_size c)).
  unfold send_worker_cycle. rewrite Hc. cbn [andb].
  destruct (message_queue c) as [|m0 q] eqn:Hq0; [done|].
  cbn [queue_empty negb]. rewrite collect_spec. cbn [app]. fold n.
  pose proof (take_drop n (m0 :: q)) as Htd.
  pose proof (length_take (m0 :: q) n) as Hlen.
  assert (Hne : 1 <= batch_size c -> take n (m0 :: q) <> []).
  { intros Hb Hnil. rewrite Hnil in Hlen. cbn in Hlen. lia. }
  set (c1 := set_message_queue (drop n (m0 :: q)) c).
  assert (Hc1 : is_connected c1 = true) by done.
  assert (Hw1 : websocket c1 = Some h) by done.
  destruct (take n (m0 :: q)) as [|m1 [|m2 rest]] eqn:Hm.
  - cbn. done.
  - pose proof (send_raw_message_connected gz m1 io c1 h Hc1 Hw1) as H.
    cbv zeta in H. destruct (_send_raw_message gz m1 io c1) as [[b c2] evs].
    cbn in H |- *. destruct H as (Hs & _ & Hq2 & Hid & _).
    unfold sent_envelopes in *. rewrite omap_app. cbn. rewrite app_nil_r.
    rewrite Hq2. done.
  - pose proof (send_batch_envelope (m1 :: m2 :: rest) now io c1 h Hc1 Hw1) as H.
    cbv zeta in H.
    destruct (_send_batch gz (m1 :: m2 :: rest) now io c1) as [[b c2] evs].
    cbn in H |- *. destruct H as (Hs & Hq2 & Hid & _).
    unfold sent_envelopes in *. rewrite omap_app. cbn. rewrite app_nil_r.
    rewrite Hq2. done.
Qed.

End SendWorker.

Section Reconnect.

Variable gz : list byte -> list byte.

Lemma backoff_5_300 (a : nat) :
  Z.min (5 * 2 ^ (Z.of_nat (S a) - 1)) 300 = nth a [5; 10; 20; 40; 80; 160] 300.
Proof.
  replace (Z.of_nat (S a) - 1) with (Z.of_nat a) by lia.
  do 6 (destruct a as [|a]; [reflexivity|]).
  cbn [nth].
  replace (Z.of_nat (S (S (S (S (S (S a))))))) with (6 + Z.of_nat a) by lia.
  rewrite Z.pow_add_r by lia.
  assert (0 < 2 ^ Z.of_nat a) by (apply Z.pow_pos_nonneg; lia).
  change (2 ^ 6) with 64. destruct a; lia.
Qed.

(** The connection manager leaves its loop only when [is_running] is
    false. *)
Lemma cm_done_only_when_stopped (pc : cm_pc) (inp : input) (c c' : Client)
    (evs : list event) :
  pc <> CmDone ->
  cm_resume gz pc inp c = Some (CmDone, c', evs) -> is_running c = false.
Proof.
  intros Hpc H. unfold cm_resume, cm_loop_head in H.
  destruct pc, inp; try done;
    repeat (match type of H with
            | context [let '(_, _) := ?x in _] => destruct x as [? ?] eqn:?
            | context [if ?b then _ else _] => destruct b eqn:?
            end; try done).
  all: first [ by destruct (reconnect_wait _) as [[? ?] ?]
             | by destruct (on_frame gz _ _ _ _) as [[? ?]|] ].
Qed.

(** C3.  [_handle_reconnect]: while the attempt counter is below
    [max_reconnect_attempts] it is incremented first and the wait is
    [min(reconnect_delay * 2^(attempt-1), max_reconnect_delay)], which
    for a base delay of 5 and a maximum of 300 is 5, 10, 20, 40, 80, 160
    for attempts 1 to 6 and 300 from then on; once the budget is used up
    the wait is [max_reconnect_delay] and the counter goes back to 0.
    The call never clears [is_running], and a running connection
    manager whose connect failed is back at a connect two wake-ups
    later: it never gives up. *)
Theorem handle_reconnect_backoff (c : Client) :
  let a := reconnect_attempts c in
  (Z.of_nat a < max_reconnect_attempts c ->
     _handle_reconnect c =
       (set_reconnect_attempts (S a) c,
        Z.min (reconnect_delay c * 2 ^ (Z.of_nat (S a) - 1)) (max_reconnect_delay c))
     /\ (reconnect_delay c = 5 -> max_reconnect_delay c = 300 ->
         (_handle_reconnect c).2 = nth a [5; 10; 20; 40; 80; 160] 300))
  /\ (max_reconnect_attempts c <= Z.of_nat a ->
        _handle_reconnect c = (set_reconnect_attempts 0%nat c, max_reconnect_delay c))
  /\ is_running (_handle_reconnect c).1 = is_running c
  /\ (is_running c = true ->
      forall w w',
        exists reset c1,
          cm_resume gz CmConnecting ConnectFailed c
            = Some (CmBackoff reset, c1,
                    [EvSleep (PyInt (_handle_reconnect (set_is_connected false c)).2)])
          /\ cm_resume gz (CmBackoff reset) (Wake w) c1
             = Some (CmPause, (_handle_reconnect (set_is_connected false c)).1,
                     [EvSleep one_second])
          /\ cm_resume gz CmPause (Wake w')
               (_handle_reconnect (set_is_connected false c)).1
             = Some (CmConnecting,
                     (_handle_reconnect (set_is_connected false c)).1, [])).
Proof.
  intros a. subst a. unfold _handle_reconnect, reconnect_wait.
  split_and!.
  - intros Hlt. apply Z.ltb_lt in Hlt. rewrite Hlt. cbn.
    split; [done|]. intros -> ->. apply backoff_5_300.
  - intros Hge. apply Z.ltb_ge in Hge. by rewrite Hge.
  - by destruct (_ <? _).
  - intros Hrun w w'. unfold cm_resume, cm_loop_head, reconnect_wait.
    cbn [is_running set_is_connected].
    rewrite Hrun. cbn [reconnect_attempts max_reconnect_attempts].
    destruct (_ <? _); cbn; rewrite Hrun; eauto.
Qed.

End Reconnect.

Lemma handle_reconnect_backoff_witness :
  Z.of_nat (reconnect_attempts Sample.fresh) < max_reconnect_attempts Sample.fresh
  /\ _handle_reconnect Sample.fresh
     = (set_reconnect_attempts 1%nat Sample.fresh, 5).
Proof.
  split; [reflexivity|].
  exact (proj1 (proj1 (handle_reconnect_backoff Sample.stored Sample.fresh) eq_refl)).
Defined.

Section Counter.

Variable gz : list byte -> list byte.

Lemma counts_refl (c : Client) : counts c c [].
Proof. intros Hwf. split; [done|]. exists 0%nat. split; [lia | done]. Qed.

Lemma counts_trans (c c1 c2 : Client) (evs1 evs2 : list event) :
  counts c c1 evs1 -> counts c1 c2 evs2 -> counts c c2 (evs1 ++ evs2).
Proof.
  intros H1 H2 Hwf.
  destruct (H1 Hwf) as (Hwf1 & n1 & Hs1 & Hi1).
  destruct (H2 Hwf1) as (Hwf2 & n2 & Hs2 & Hi2).
  split; [done|]. exists (n1 + n2)%nat. split; [lia|].
  unfold consumed_ids in *. rewrite omap_app, Hi1, Hi2, Hs1.
  rewrite Nat2Z.inj_add, seqZ_app by lia.
  f_equal. f_equal. lia.
Qed.

(** A step that leaves the counter alone and sends no numbered
    envelope. *)
Lemma counts_none (c c' : Client) (evs : list event) :
  sequence_id c' = sequence_id c ->
  (well_formed c -> well_formed c') ->
  (well_formed c -> consumed_ids evs = []) -> counts c c' evs.
Proof.
  intros Hs Hwf Hi H. split; [auto|]. exists 0%nat.
  split; [lia | by rewrite Hi].
Qed.

(** A step that takes exactly the next id. *)
Lemma counts_one (c c' : Client) (evs : list event) :
  sequence_id c' = sequence_id c + 1 ->
  (well_formed c -> well_formed c') ->
  (well_formed c -> consumed_ids evs = [sequence_id c + 1]) ->
  counts c c' evs.
Proof.
  intros Hs Hwf Hi H. split; [auto|]. exists 1%nat.
  split; [lia | by rewrite Hi].
Qed.

Lemma counts_sleep (c c' : Client) (evs : list event) (d : pyval) :
  counts c c' evs -> counts c c' (evs ++ [EvSleep d]).
Proof.
  intros H. apply (counts_trans c c' c' evs [EvSleep d] H).
  by apply counts_none.
Qed.

Lemma raw_send_effect (m : DashboardMessage) (io : io_result) (c : Client) :
  let r := _send_raw_message gz m io c in
  sequence_id r.1.2 = sequence_id c
  /\ websocket r.1.2 = websocket c
  /\ message_queue r.1.2 = message_queue c
  /\ (is_connected r.1.2 = true -> is_connected c = true)
  /\ consumed_ids r.2 =
       match is_connected c, websocket c with
       | true, Some _ => if takes_id m then [Msg.sequence_id m] else []
       | _, _ => []
       end.
Proof.
  unfold _send_raw_message.
  destruct (is_connected c) eqn:Hc, (websocket c) eqn:Hw; cbn;
    try (split_and!; congruence).
  destruct io; cbn; unfold consumed_ids; cbn; by destruct (takes_id m).
Qed.

Lemma raw_send_well_formed (m : DashboardMessage) (io : io_result) (c : Client) :
  well_formed c -> well_formed (_send_raw_message gz m io c).1.2.
Proof.
  destruct (raw_send_effect m io c) as (_ & Hw & Hq & Hc & _).
  intros [H1 H2]. split; [rewrite Hw; auto | by rewrite Hq].
Qed.

Lemma counts_raw (m : DashboardMessage) (io : io_result) (c : Client) :
  takes_id m = false ->
  counts c (_send_raw_message gz m io c).1.2 (_send_raw_message gz m io c).2.
Proof.
  intros Hm.
  destruct (raw_send_effect m io c) as (Hs & Hw & Hq & Hc & Hi).
  apply counts_none; [done | apply raw_send_well_formed | ].
  intros _. rewrite Hi, Hm. by destruct (is_connected c), (websocket c).
Qed.

(** An envelope that takes the next id and goes straight to the socket
    of a connected client. *)
Lemma counts_raw_numbered (m : DashboardMessage) (io : io_result) (c : Client) :
  takes_id m = true -> Msg.sequence_id m = sequence_id c + 1 ->
  is_connected c = true ->
  let c1 := set_sequence_id (sequence_id c + 1) c in
  counts c (_send_raw_message gz m io c1).1.2 (_send_raw_message gz m io c1).2.
Proof.
  intros Hm Hid Hc c1.
  destruct (raw_send_effect m io c1) as (Hs & Hw & Hq & Hc' & Hi).
  apply counts_one.
  - by rewrite Hs.
  - intros Hwf. apply raw_send_well_formed. by destruct c.
  - intros [Hwf _]. rewrite Hi, Hm, Hid. cbn. rewrite Hc.
    destruct (websocket c) eqn:E; [done|]. by destruct (Hwf Hc).
Qed.

Lemma counts_send_queued (mtype : string) (now : datetime) (d : msgdata)
    (c : Client) :
  (String.eqb mtype "batch" || String.eqb mtype "heartbeat") = false ->
  counts c (send_queued mtype now d c).1 (send_queued mtype now d c).2.
Proof.
  intros Hm. apply counts_one; [by destruct c | | by destruct c].
  intros [H1 H2]. split; [by destruct c|].
  unfold send_queued, enqueue, _get_next_sequence_id. cbn.
  apply Forall_app. split; [done|]. by apply Forall_singleton.
Qed.

Lemma counts_send_batch (messages : list DashboardMessage) (now : datetime)
    (io : io_result) (c : Client) :
  is_connected c = true ->
  counts c (_send_batch gz messages now io c).1.2
           (_send_batch gz messages now io c).2.
Proof.
  intros Hc. unfold _send_batch, _get_next_sequence_id. cbv zeta.
  by apply counts_raw_numbered.
Qed.

Lemma counts_send_heartbeat (now_iso now : datetime) (t0 t1 : Z)
    (io : io_result) (c : Client) :
  is_connected c = true ->
  counts c (send_heartbeat gz now_iso now t0 t1 io c).1.2
           (send_heartbeat gz now_iso now t0 t1 io c).2.
Proof.
  intros Hc. unfold send_heartbeat, _get_next_sequence_id. cbv zeta.
  by apply counts_raw_numbered.
Qed.

Lemma counts_send_worker_cycle (now : datetime) (io : io_result) (c : Client) :
  counts c (send_worker_cycle gz now io c).1 (send_worker_cycle gz now io c).2.
Proof.
  unfold send_worker_cycle.
  destruct (is_connected c) eqn:Hc; cbn [andb];
    [|apply counts_sleep, counts_refl].
  destruct (queue_empty (message_queue c)); cbn [negb];
    [apply counts_sleep, counts_refl|].
  rewrite collect_spec. cbn [app].
  set (n := Z.to_nat (batch_size c)).
  set (c1 := set_message_queue (drop n (message_queue c)) c).
  assert (Hwf1 : well_formed c -> well_formed c1).
  { intros [H1 H2]. split; [done|]. cbn. by apply Forall_drop. }
  assert (H1 : counts c c1 []) by (by apply counts_none).
  destruct (take n (message_queue c)) as [|m1 [|m2 rest]] eqn:Ht.
  - by apply counts_sleep.
  - destruct (_send_raw_message gz m1 io c1) as [[b c2] evs] eqn:E.
    cbn. apply counts_sleep. intros Hwf.
    assert (Hm1 : takes_id m1 = false).
    { destruct Hwf as [_ Hq]. apply (Forall_take _ n) in Hq.
      rewrite Ht in Hq. by inversion Hq. }
    pose proof (counts_raw m1 io c1 Hm1) as H2. rewrite E in H2. cbn in H2.
    apply (counts_trans c c1 c2 [] evs H1 H2 Hwf).
  - pose proof (counts_send_batch (m1 :: m2 :: rest) now io c1 Hc) as H2.
    destruct (_send_batch gz (m1 :: m2 :: rest) now io c1) as [[b c2] evs].
    cbn in *. apply counts_sleep.
    apply (counts_trans c c1 c2 [] evs H1 H2).
Qed.

Lemma counts_heartbeat_worker_cycle (now_iso now now' : datetime) (t0 t1 : Z)
    (io : io_result) (c : Client) :
  counts c (heartbeat_worker_cycle gz now_iso now now' t0 t1 io c).1
           (heartbeat_worker_cycle gz now_iso now now' t0 t1 io c).2.
Proof.
  unfold heartbeat_worker_cycle.
  destruct (is_connected c) eqn:Hc; [|apply counts_sleep, counts_refl].
  pose proof (counts_send_heartbeat now_iso now t0 t1 io c Hc) as H.
  destruct (send_heartbeat gz now_iso now t0 t1 io c) as [[b c1] evs].
  cbn in *. apply counts_sleep.
  rewrite <- (app_nil_r evs).
  apply (counts_trans c c1 _ evs [] H). by apply counts_none.
Qed.

Lemma handle_config_update_frame (update : list (string * pyval)) (c : Client) :
  _handle_config_update update c
  = set_config (config (_handle_config_update update c)) c.
Proof.
  unfold _handle_config_update. revert c.
  induction update as [|[k v] update IH]; intros c; cbn [fold_left].
  - by destruct c.
  - rewrite IH. destruct (dict_mem _ _); cbn; by destruct c.
Qed.

Lemma counts_on_frame (message : string) (now : datetime) (io : io_result)
    (c : Client) (r : Client * list event) :
  on_frame gz message now io c = Some r -> counts c r.1 r.2.
Proof.
  unfold on_frame.
  destruct (Json.loads message) as [data| |]; intros [= <-];
    [|apply counts_refl].
  unfold _handle_incoming_message.
  destruct data as [| | | | |?|kvs|]; try apply counts_refl.
  cbv zeta.
  destruct (py_eq_str _ "ping").
  { pose proof (counts_raw
      (Msg.mk "pong" (dt_isoformat now) (Data (PyDict [("status", PyStr "ok")]))
         (system_id c) 0) io c eq_refl) as H.
    unfold _send_pong. by destruct (_send_raw_message _ _ _ _) as [[? ?] ?]. }
  destruct (py_eq_str _ "config_update").
  { destruct (default _ (dict_get "config" kvs)); try apply counts_refl.
    cbn. rewrite handle_config_update_frame.
    apply counts_none; [done | by intros [? ?] | done]. }
  destruct (py_eq_str _ "command"); [|apply counts_refl].
  unfold _handle_command.
  destruct (default _ (dict_get "command" kvs)) as [| | | | |?|cmd|];
    try apply counts_refl.
  cbv zeta. destruct (py_eq_str _ "get_status"); [|apply counts_refl].
  cbn. by apply counts_send_queued.
Qed.

Lemma counts_connected (h : handle) (now_info now : datetime) (io : io_result)
    (c : Client) :
  counts c (connected gz h now_info now io c).1
           (connected gz h now_info now io c).2.
Proof.
  unfold connected, _send_handshake. cbv zeta.
  match goal with
  | |- context [_send_raw_message gz ?m io ?c3] =>
      pose proof (counts_raw m io c3 eq_refl) as H;
      destruct (_send_raw_message gz m io c3) as [[b c4] evs];
      set (c' := c3) in *
  end.
  cbn [fst snd] in *.
  apply (counts_trans c c' c4 [] evs); [|done].
  apply counts_none; [done | | done].
  intros [_ Hq]. split; [done | by destruct c].
Qed.

Lemma counts_reconnect_wait (c : Client) :
  counts c (reconnect_wait c).1.1 [].
Proof.
  unfold reconnect_wait. destruct (_ <? _); [|apply counts_refl].
  apply counts_none; [done | by intros [? ?] | done].
Qed.

Lemma counts_cm_resume (pc pc' : cm_pc) (inp : input) (c c' : Client)
    (evs : list event) :
  cm_resume gz pc inp c = Some (pc', c', evs) -> counts c c' evs.
Proof.
  unfold cm_resume, cm_loop_head.
  destruct pc, inp; try done; intros H.
  - destruct (is_running c); inversion H; subst; apply counts_refl.
  - pose proof (counts_connected h (now_a w) (now_b w) (io w) c) as Hc.
    destruct (connected gz h (now_a w) (now_b w) (io w) c) as [c1 evs1].
    cbn [fst snd] in Hc.
    destruct (is_connected c1); inversion H; subst.
    + rewrite <- (app_nil_r evs).
      apply (counts_trans c c1 _ evs [] Hc).
      apply counts_none; [done | by intros [? ?] | done].
    + by apply counts_sleep.
  - cbn [is_running set_is_connected] in H.
    assert (H0 : counts c (set_is_connected false c) []).
    { apply counts_none; [done | | done]. intros [_ ?]. by split. }
    destruct (is_running c).
    + pose proof (counts_reconnect_wait (set_is_connected false c)) as H1.
      destruct (reconnect_wait (set_is_connected false c)) as [[c2 delay] reset].
      inversion H; subst. cbn [fst] in H1.
      apply (counts_trans c _ c' [] [EvSleep (PyInt delay)] H0).
      apply (counts_trans _ c' c' [] [EvSleep (PyInt delay)] H1).
      by apply counts_none.
    + inversion H; subst.
      apply (counts_trans c _ _ [] [EvSleep one_second] H0).
      by apply counts_none.
  - destruct (on_frame gz message (now_a w) (io w) c) as [r|] eqn:Ef; [|done].
    cbn in H. inversion H; subst. by eapply counts_on_frame.
  - inversion H; subst. by apply counts_none.
  - inversion H; subst. apply counts_none; [done | | done].
    intros [_ ?]. by split.
  - inversion H; subst. apply counts_none; [done | | done].
    intros [_ ?]. by split.
  - inversion H; subst.
    destruct reset; (apply counts_none; [done | by intros [? ?] | done]).
  - destruct (is_running c); inversion H; subst; apply counts_refl.
Qed.

Lemma counts_worker_resume (cycle : world -> Client -> Client * list event)
    (cancelled : bool) (pc pc' : worker_pc) (inp : input) (c c' : Client)
    (evs : list event) :
  (forall w c0, counts c0 (cycle w c0).1 (cycle w c0).2) ->
  worker_resume cycle cancelled pc inp c = Some (pc', c', evs) ->
  counts c c' evs.
Proof.
  intros Hcycle. unfold worker_resume.
  destruct pc, inp; try done; intros H;
    (destruct cancelled; [inversion H; subst; apply counts_refl|]);
    (destruct (is_running c); [|inversion H; subst; apply counts_refl]);
    specialize (Hcycle w c); destruct (cycle w c) as [c1 evs1];
    by inversion H; subst.
Qed.

Lemma counts_task_resume (t t' : task) (inp : input) (c c' : Client)
    (evs : list event) :
  task_resume gz t inp c = Some (t', c', evs) -> counts c c' evs.
Proof.
  unfold task_resume. destruct (body t) as [pc|pc|pc]; intros H.
  - destruct (cm_resume gz pc inp c) as [[[pc1 c1] evs1]|] eqn:E; [|done].
    cbn in H. inversion H; subst. by eapply counts_cm_resume.
  - destruct (worker_resume _ _ pc inp c) as [[[pc1 c1] evs1]|] eqn:E; [|done].
    cbn in H. inversion H; subst.
    eapply counts_worker_resume; [|exact E].
    intros w c0. unfold send_cycle. apply counts_send_worker_cycle.
  - destruct (worker_resume _ _ pc inp c) as [[[pc1 c1] evs1]|] eqn:E; [|done].
    cbn in H. inversion H; subst.
    eapply counts_worker_resume; [|exact E].
    intros w c0. unfold heartbeat_cycle. apply counts_heartbeat_worker_cycle.
Qed.

Lemma counts_on_client (f : Client -> Client * list event) (s s' : System)
    (evs : list event) :
  counts (client s) (f (client s)).1 (f (client s)).2 ->
  Some (on_client f s) = Some (s', evs) -> counts (client s) (client s') evs.
Proof.
  unfold on_client. destruct (f (client s)) as [c1 evs1].
  intros H E. by inversion E; subst.
Qed.

Lemma counts_step (a : action) (s s' : System) (evs : list event) :
  step gz a s = Some (s', evs) -> counts (client s) (client s') evs.
Proof.
  destruct a; cbn [step]; intros H.
  - unfold start in H. destruct (is_running (client s)); inversion H; subst.
    + apply counts_refl.
    + cbn. apply counts_none; [done | by intros [? ?] | done].
  - unfold stop in H. cbn in H.
    destruct (websocket (client s)); inversion H; subst; cbn;
      (apply counts_none; [done | by intros [? ?] | done]).
  - unfold stop_resume in H. destruct (closing s); inversion H; subst. cbn.
    apply counts_none; [done | | done]. intros [_ ?]. by split.
  - eapply counts_on_client; [|exact H]. by apply counts_send_queued.
  - eapply counts_on_client; [|exact H]. by apply counts_send_queued.
  - eapply counts_on_client; [|exact H]. by apply counts_send_queued.
  - eapply counts_on_client; [|exact H]. by apply counts_send_queued.
  - destruct (tasks s !! i) as [t|]; [|done]. cbn in H.
    destruct (task_resume gz t inp (client s)) as [[[t' c'] evs']|] eqn:E; [|done].
    cbn in H. inversion H; subst. cbn. by eapply counts_task_resume.
Qed.

Lemma counts_run (acts : list action) (s s' : System) (evs : list event) :
  run gz acts s = Some (s', evs) -> counts (client s) (client s') evs.
Proof.
  revert s s' evs. induction acts as [|a acts IH]; intros s s' evs H.
  - inversion H; subst. apply counts_refl.
  - cbn [run] in H.
    destruct (step gz a s) as [[s1 evs1]|] eqn:E1; [|done]. cbn in H.
    destruct (run gz acts s1) as [[s2 evs2]|] eqn:E2; [|done]. cbn in H.
    inversion H; subst.
    eapply counts_trans; [by eapply counts_step | by eapply IH].
Qed.

Lemma assigned_sublist (evs : list event) :
  assigned_ids evs `sublist_of` consumed_ids evs.
Proof.
  induction evs as [|e evs IH]; [constructor|].
  unfold assigned_ids, consumed_ids in *. cbn [omap list_omap].
  destruct e as [m|h m f|h m| |]; cbn; try done.
  - by constructor.
  - unfold takes_id. destruct (String.eqb (Msg.message_type m) "batch"); cbn.
    + by constructor.
    + destruct (String.eqb _ "heartbeat"); [by constructor | done].
  - unfold takes_id. destruct (String.eqb (Msg.message_type m) "batch"); cbn.
    + by constructor.
    + destruct (String.eqb _ "heartbeat"); [by constructor | done].
Qed.

Lemma assigned_without_heartbeat (evs : list event) :
  forallb (fun e => negb (is_heartbeat e)) evs = true ->
  assigned_ids evs = consumed_ids evs.
Proof.
  induction evs as [|e evs IH]; [done|].
  cbn [forallb]. intros [He Hevs]%andb_prop. specialize (IH Hevs).
  unfold assigned_ids, consumed_ids in *. cbn [omap list_omap]. rewrite IH.
  destruct e as [m|h m f|h m| |]; cbn in *; try done;
    unfold takes_id; destruct (String.eqb (Msg.message_type m) "heartbeat");
    try done; by rewrite orb_false_r.
Qed.

Lemma seqZ_increasing (m : Z) (n : nat) :
  StronglySorted Z.lt (seqZ m (Z.of_nat n)).
Proof.
  revert m. induction n as [|n IH]; intros m.
  - rewrite seqZ_nil by lia. constructor.
  - rewrite seqZ_cons by lia. constructor.
    + replace (Z.pred (Z.of_nat (S n))) with (Z.of_nat n) by lia. apply IH.
    + apply Forall_seqZ. intros k Hk. lia.
Qed.

Lemma sublist_increasing (l1 l2 : list Z) :
  l1 `sublist_of` l2 -> StronglySorted Z.lt l2 -> StronglySorted Z.lt l1.
Proof.
  induction 1 as [|x l1 l2 Hsub IH|x l1 l2 Hsub IH]; intros Hs.
  - constructor.
  - inversion Hs as [|? ? Hs' Hall]; subst. constructor; [auto|].
    rewrite Forall_forall in Hall |- *. intros y Hy. apply Hall.
    by eapply elem_of_sublist.
  - inversion Hs; subst. auto.
Qed.

Lemma consumed_assigned_or_heartbeat (evs : list event) (id : Z) :
  id ∈ consumed_ids evs -> id ∈ assigned_ids evs \/ id ∈ heartbeat_ids evs.
Proof.
  unfold consumed_ids, assigned_ids, heartbeat_ids.
  induction evs as [|e evs IH]; [by intros ?%elem_of_nil|].
  cbn [omap list_omap].
  assert (Hcase : consumed_id e = None
                  \/ (exists i, consumed_id e = Some i
                                /\ (assigned_id e = Some i \/ heartbeat_id e = Some i))).
  { destruct e as [m|h m f|h m| |]; cbn; eauto;
      unfold takes_id, heartbeat_id; cbn;
      destruct (String.eqb (Msg.message_type m) "batch"); cbn; eauto;
      destruct (String.eqb (Msg.message_type m) "heartbeat"); cbn; eauto. }
  destruct Hcase as [->|(i & -> & Hi)].
  - intros H. destruct (IH H) as [H1|H1]; [left|right].
    + destruct (assigned_id e); [by apply list_elem_of_further | done].
    + destruct (heartbeat_id e); [by apply list_elem_of_further | done].
  - intros [->|H]%elem_of_cons.
    + destruct Hi as [->| ->]; [left|right]; apply elem_of_cons; by left.
    + destruct (IH H) as [H1|H1]; [left|right].
      * destruct (assigned_id e); [by apply list_elem_of_further | done].
      * destruct (heartbeat_id e); [by apply list_elem_of_further | done].
Qed.

(** C1, as the code has it.  Along every run of the client (publishing
    calls, worker and connection-manager steps, connections lost and
    made again, stop and start), the sequence ids given to queued and
    to batch envelopes are strictly increasing and pairwise distinct,
    and the counter never goes back: it ends where it started plus the
    ids taken.  They need not be consecutive: a heartbeat takes its id
    from the same counter.  The ids taken by queued, batch and
    heartbeat envelopes together are consecutive, each exactly one
    more than the one before, so an id missing between two queued or
    batched envelopes is the id of a heartbeat.  When no heartbeat is
    sent in the run, each id of a queued or batch envelope is exactly
    one more than the one before. *)
Theorem sequence_ids_strictly_increasing (acts : list action) (s s' : System)
    (evs : list event) :
  well_formed (client s) ->
  run gz acts s = Some (s', evs) ->
  let ids := assigned_ids evs in
  let first := sequence_id (client s) + 1 in
  StronglySorted Z.lt ids
  /\ NoDup ids
  /\ Forall (fun id => first <= id <= sequence_id (client s')) ids
  /\ sequence_id (client s) <= sequence_id (client s')
  /\ consumed_ids evs = seqZ first (Z.of_nat (length (consumed_ids evs)))
  /\ sequence_id (client s')
     = sequence_id (client s) + Z.of_nat (length (consumed_ids evs))
  /\ ids `sublist_of` consumed_ids evs
  /\ (forall id, id ∈ consumed_ids evs -> id ∈ ids \/ id ∈ heartbeat_ids evs)
  /\ (forallb (fun e => negb (is_heartbeat e)) evs = true ->
      ids = seqZ first (Z.of_nat (length ids))
      /\ sequence_id (client s') = sequence_id (client s) + Z.of_nat (length ids)).
Proof.
  intros Hwf Hrun ids first.
  destruct (counts_run acts s s' evs Hrun Hwf) as (_ & n & Hs & Hi).
  pose proof (assigned_sublist evs) as Hsub. fold ids in Hsub.
  assert (Hn : length (consumed_ids evs) = n)
    by (rewrite Hi, length_seqZ; lia).
  rewrite Hi in Hsub. fold first in Hsub, Hi.
  split_and!.
  - eapply sublist_increasing; [exact Hsub | apply seqZ_increasing].
  - eapply sublist_NoDup; [apply NoDup_seqZ | exact Hsub].
  - apply Forall_forall. intros id Hid.
    eapply elem_of_sublist in Hid; [|exact Hsub].
    apply elem_of_seqZ in Hid. subst first. lia.
  - lia.
  - by rewrite Hn.
  - rewrite Hn. exact Hs.
  - subst ids. apply assigned_sublist.
  - intros id. apply consumed_assigned_or_heartbeat.
  - intros Hhb. subst ids. rewrite (assigned_without_heartbeat evs Hhb), Hi.
    rewrite length_seqZ, Nat2Z.id. split; [done | lia].
Qed.

End Counter.

Lemma sequence_ids_strictly_increasing_witness :
  well_formed (client Sample.idle)
  /\ exists s' evs,
       run Sample.stored Sample.session Sample.idle = Some (s', evs)
       /\ assigned_ids evs = [1; 2; 3; 4; 5]
       /\ StronglySorted Z.lt (assigned_ids evs).
Proof.
  assert (Hwf : well_formed (client Sample.idle)).
  { split; [discriminate | constructor]. }
  split; [exact Hwf|].
  destruct (run Sample.stored Sample.session Sample.idle) as [[s' evs]|] eqn:E;
    [|vm_compute in E; discriminate].
  exists s', evs. split; [reflexivity|]. split.
  - vm_compute in E. inversion E. reflexivity.
  - exact (proj1 (sequence_ids_strictly_increasing Sample.stored Sample.session
                    Sample.idle s' evs Hwf E)).
Defined.

(** C1 as claimed does not hold: on a running, connected client, one
    turn of the heartbeat worker between two publishing calls takes id
    2, and the two queued envelopes carry the ids 1 and 3. *)
Lemma sequence_ids_gap_counterexample :
  let observe (r : System * list event) :=
    (is_running (client r.1), is_connected (client r.1),
     assigned_ids r.2, heartbeat_ids r.2) in
  observe <$> run Sample.stored
                (Sample.connecting
                 ++ [ Resume 0 (ConnectOk 7%nat Sample.world_ok);
                      Portfolio (Sample.portfolio 100) Sample.noon;
                      Resume 2 (Wake Sample.world_ok);
                      Signal (PyDict [("side", PyStr "buy")]) Sample.noon ])
                Sample.idle
  = Some (true, true, [1; 3], [2]).
Proof. by vm_compute. Qed.

Section Exempt.

Variable gz : list byte -> list byte.

Lemma raw_send_envelopes (m : DashboardMessage) (io : io_result) (c : Client) :
  Forall (fun m' => m' = m) (sent_envelopes (_send_raw_message gz m io c).2)
  /\ sequence_id (_send_raw_message gz m io c).1.2 = sequence_id c.
Proof.
  unfold _send_raw_message.
  destruct (is_connected c), (websocket c), io; cbn;
    split; try done; by repeat constructor.
Qed.

(** C2, as the code has it.  [_send_handshake] leaves the sequence
    counter alone and its envelope carries the sequence id 0;
    [send_heartbeat] takes the next id from the counter shared with the
    queued and batch envelopes, on every call, and its envelope carries
    that id. *)
Theorem handshake_exempt_heartbeat_numbered (c : Client) (io : io_result)
    (now_a now_b : datetime) (t0 t1 : Z) :
  (let r := _send_handshake gz now_a now_b io c in
   sequence_id r.1.2 = sequence_id c
   /\ Forall (fun m => Msg.message_type m = "handshake" /\ Msg.sequence_id m = 0)
        (sent_envelopes r.2))
  /\ (let r := send_heartbeat gz now_a now_b t0 t1 io c in
      sequence_id r.1.2 = sequence_id c + 1
      /\ Forall (fun m => Msg.message_type m = "heartbeat"
                          /\ Msg.sequence_id m = sequence_id c + 1)
           (sent_envelopes r.2)).
Proof.
  split; cbv zeta.
  - unfold _send_handshake.
    match goal with
    | |- context [_send_raw_message gz ?m io c] =>
        destruct (raw_send_envelopes m io c) as [Hall Hs]
    end.
    split; [done|]. eapply Forall_impl; [exact Hall|]. by intros ? ->.
  - unfold send_heartbeat, _get_next_sequence_id. cbv zeta.
    match goal with
    | |- context [_send_raw_message gz ?m io ?c1] =>
        destruct (raw_send_envelopes m io c1) as [Hall Hs]
    end.
    split; [by rewrite Hs|]. eapply Forall_impl; [exact Hall|]. by intros ? ->.
Qed.

End Exempt.

(** C2 as claimed does not hold: a heartbeat moves the shared counter. *)
Lemma heartbeat_bypass_counterexample :
  sequence_id
    (send_heartbeat Sample.stored Sample.noon Sample.noon 1000 1000 IoOk
       Sample.online).1.2
  <> sequence_id Sample.online.
Proof. by vm_compute. Qed.

Section ConfigUpdate.

Variable gz : list byte -> list byte.

Lemma dict_get_set_eq {A} (k : string) (v : A) (d : list (string * A)) :
  dict_get k (dict_set k v d) = Some v.
Proof.
  induction d as [|[k' v'] d IH]; cbn.
  - by rewrite String.eqb_refl.
  - destruct (String.eqb k k') eqn:E; cbn; rewrite E; [done | exact IH].
Qed.

Lemma dict_get_set_ne {A} (k k' : string) (v : A) (d : list (string * A)) :
  k <> k' -> dict_get k' (dict_set k v d) = dict_get k' d.
Proof.
  intros Hne. induction d as [|[k0 v0] d IH]; cbn.
  - apply String.eqb_neq in Hne. rewrite String.eqb_sym in Hne. by rewrite Hne.
  - destruct (String.eqb k k0) eqn:E; cbn.
    + apply String.eqb_eq in E as <-.
      assert (String.eqb k' k = false) as ->; [|done].
      apply String.eqb_neq. congruence.
    + by rewrite IH.
Qed.

Lemma dict_set_keys {A} (k : string) (v : A) (d : list (string * A)) :
  dict_mem k d = true -> map fst (dict_set k v d) = map fst d.
Proof.
  unfold dict_mem. induction d as [|[k0 v0] d IH]; cbn; [done|].
  destruct (String.eqb k k0) eqn:E; cbn; [done|].
  intros H. by rewrite IH.
Qed.

Lemma dict_get_absent {A} (k : string) (d : list (string * A)) :
  k ∉ map fst d -> dict_get k d = None.
Proof.
  induction d as [|[k0 v0] d IH]; cbn; [done|].
  intros Hk. apply not_elem_of_cons in Hk as [Hne Hk].
  apply String.eqb_neq in Hne. rewrite Hne. auto.
Qed.

(** C8.  A [config_update] sets exactly the keys that the live
    configuration already has and the update names, to the incoming
    values; a key the configuration does not have is not added; every
    other entry keeps its value and its place; nothing else in the
    client changes.  This is what the dispatcher does with a message of
    type [config_update]. *)
Theorem config_update_merges_known_keys (update : list (string * pyval))
    (c : Client) :
  NoDup (map fst update) ->
  let c' := _handle_config_update update c in
  (forall k,
     dict_get k (config c') =
       match dict_get k (config c) with
       | None => None
       | Some old => Some (default old (dict_get k update))
       end)
  /\ map fst (config c') = map fst (config c)
  /\ c' = set_config (config c') c
  /\ (forall message now io,
        dict_get "type" message = Some (PyStr "config_update") ->
        dict_get "config" message = Some (PyDict update) ->
        _handle_incoming_message gz (PyDict message) now io c = Some (c', [])).
Proof.
  intros Hnd. cbv zeta.
  split; [|split; [|split; [apply handle_config_update_frame|]]];
    [| |intros message now io Ht Hu; unfold _handle_incoming_message;
        by rewrite Ht, Hu].
  - revert c Hnd. unfold _handle_config_update.
    induction update as [|[k0 v0] update IH]; intros c Hnd k; cbn [fold_left].
    + cbn. by destruct (dict_get k (config c)).
    + cbn [map fst] in Hnd. apply NoDup_cons in Hnd as [Hk0 Hnd].
      rewrite IH by done. cbn [fst snd dict_get].
      destruct (String.eqb k k0) eqn:E.
      * apply String.eqb_eq in E as ->.
        rewrite (dict_get_absent k0 update Hk0).
        unfold dict_mem. destruct (dict_get k0 (config c)) eqn:Hg; cbn.
        -- by rewrite dict_get_set_eq.
        -- by rewrite Hg.
      * apply String.eqb_neq in E.
        destruct (dict_mem k0 (config c)); cbn; [|done].
        by rewrite dict_get_set_ne.
  - clear Hnd. revert c. unfold _handle_config_update.
    induction update as [|[k0 v0] update IH]; intros c; cbn [fold_left]; [done|].
    rewrite IH. cbn [fst snd].
    destruct (dict_mem k0 (config c)) eqn:E; cbn; [|done].
    by apply dict_set_keys.
Qed.

End ConfigUpdate.

Lemma config_update_merges_known_keys_witness :
  let update := [("batch_size", PyInt 5); ("colour", PyStr "red")] in
  let c := set_config (("batch_size", PyInt 10) :: Sample.cfg) Sample.fresh in
  NoDup (map fst update)
  /\ dict_get "batch_size" (config (_handle_config_update update c)) = Some (PyInt 5)
  /\ dict_get "colour" (config (_handle_config_update update c)) = None
  /\ dict_get "api_key" (config (_handle_config_update update c))
     = Some (PyStr "dev_key_123").
Proof.
  cbv zeta.
  assert (Hnd : NoDup (map fst [("batch_size", PyInt 5); ("colour", PyStr "red")])).
  { cbn. constructor; [|apply NoDup_singleton].
    rewrite list_elem_of_singleton. discriminate. }
  split; [exact Hnd|].
  pose proof (proj1 (config_update_merges_known_keys Sample.stored
                       [("batch_size", PyInt 5); ("colour", PyStr "red")]
                       (set_config (("batch_size", PyInt 10) :: Sample.cfg)
                          Sample.fresh) Hnd)) as H.
  split_and!; rewrite H; reflexivity.
Defined.

Section Heartbeat.

Variable gz : list byte -> list byte.

(** What a heartbeat carries and where it goes: its payload holds the
    difference of the two clock readings taken while it is built and
    the length of the queue; it is handed to the socket, never queued;
    the worker then sleeps 30, whatever [send_interval] is. *)
Lemma heartbeat_payload (now_iso now now' : datetime) (t0 t1 : Z)
    (io : io_result) (c : Client) :
  let hb :=
    Msg.mk "heartbeat" (dt_isoformat now)
      (Data (PyDict
         [ ("timestamp", PyStr (dt_isoformat now_iso));
           ("uptime", float_of_Z (t0 - t1));
           ("queue_size", PyInt (Z.of_nat (length (message_queue c)))) ]))
      (system_id c) (sequence_id c + 1) in
  let r := send_heartbeat gz now_iso now t0 t1 io c in
  let w := heartbeat_worker_cycle gz now_iso now now' t0 t1 io c in
  Forall (fun m => m = hb) (sent_envelopes r.2)
  /\ message_queue r.1.2 = message_queue c
  /\ forallb (fun e => negb (is_queued e)) r.2 = true
  /\ last w.2 = Some (EvSleep (PyInt 30))
  /\ (is_connected c = true -> websocket c <> None ->
      sent_envelopes w.2 = [hb]).
Proof.
  cbv zeta. unfold heartbeat_worker_cycle, send_heartbeat, _get_next_sequence_id.
  cbv zeta. cbn [dict_get stats_items String.eqb Ascii.eqb Bool.eqb].
  match goal with
  | |- context [_send_raw_message gz ?m io ?c1] =>
      pose proof (raw_send_envelopes gz m io c1) as [Hall Hs];
      pose proof (raw_send_effect gz m io c1) as (_ & _ & Hq & _ & _);
      set (hb := m) in *; set (c' := c1) in *
  end.
  split_and!.
  - exact Hall.
  - by rewrite Hq.
  - unfold _send_raw_message.
    by destruct (is_connected c'), (websocket c'), io.
  - destruct (is_connected c); [|done].
    destruct (_send_raw_message gz hb io c') as [[b c2] evs]. cbn.
    by rewrite last_snoc.
  - intros Hc Hw. rewrite Hc.
    unfold _send_raw_message. subst c'. cbn. rewrite Hc.
    destruct (websocket c); [|done]. by destruct io.
Qed.

End Heartbeat.

(** C9.  The heartbeat of a connected client, built when the clock
    reads 1000 seconds: the uptime it carries is 0.0, not the time the
    process has been up, because [self.stats] never holds a
    ['start_time'] and the default, a second clock reading, is
    subtracted instead.  The queue depth (2) is right, the heartbeat is
    written to the socket and not queued, and the worker sleeps 30. *)
Lemma heartbeat_uptime_failing_input :
  let c := Sample.publish 2 Sample.online in
  let w := heartbeat_worker_cycle Sample.stored Sample.noon Sample.noon
             Sample.noon 1000 1000 IoOk c in
  map Msg.data (sent_envelopes w.2)
  = [ Data (PyDict [ ("timestamp", PyStr "2025-01-01T12:00:00");
                     ("uptime", PyFloat "0.0");
                     ("queue_size", PyInt 2) ]) ]
  /\ message_queue w.1 = message_queue c
  /\ last w.2 = Some (EvSleep (PyInt 30)).
Proof. by vm_compute. Qed.

(** The 25 queued envelopes of the specification's scenario, with the
    default batch size of 10: one cycle writes one [batch] envelope of
    10 members and leaves 15 queued. *)
Lemma send_worker_cycle_25_10 :
  let c := Sample.publish 25 Sample.online in
  let r := send_worker_cycle Sample.stored Sample.noon IoOk c in
  batch_size c = 10
  /\ length (message_queue c) = 25%nat
  /\ length (message_queue r.1) = 15%nat
  /\ map (fun m =>
            (Msg.message_type m,
             match Msg.data m with
             | Data (PyDict [(_, PyList members)]) => length members
             | _ => 0%nat
             end, Msg.sequence_id m))
       (sent_envelopes r.2) = [("batch", 10%nat, 26)].
Proof. by vm_compute. Qed.

(** C4 as claimed does not hold for a [batch_size] below one: the client
    is connected, two envelopes are queued, nothing is taken from the
    queue and nothing is written, neither an envelope alone nor a batch. *)
Lemma send_worker_cycle_batches_counterexample :
  let c := Sample.batch0 in
  let r := send_worker_cycle Sample.stored Sample.noon IoOk c in
  is_connected c = true /\ websocket c = Some 7%nat
  /\ length (message_queue c) = 2%nat /\ batch_size c = 0
  /\ sent_envelopes r.2 = []
  /\ message_queue r.1 = message_queue c
  /\ sequence_id r.1 = sequence_id c.
Proof. by vm_compute. Qed.

Lemma send_worker_cycle_batches_witness :
  let c := Sample.publish 25 Sample.online in
  is_connected c = true /\ websocket c = Some 7%nat /\ message_queue c <> []
  /\ message_queue (send_worker_cycle Sample.stored Sample.noon IoOk c).1
     = drop 10 (message_queue c).
Proof.
  cbv zeta.
  assert (Hq : message_queue (Sample.publish 25 Sample.online) <> [])
    by (vm_compute; discriminate).
  split; [reflexivity|]. split; [reflexivity|]. split; [exact Hq|].
  exact (proj1 (send_worker_cycle_batches Sample.stored Sample.noon IoOk
                  (Sample.publish 25 Sample.online) 7%nat eq_refl eq_refl Hq)).
Defined.

Section Stop.

Variable gz : list byte -> list byte.

Lemma cancel_idem (t : task) : cancel (cancel t) = cancel t.
Proof.
  unfold cancel. destruct (task_done t) eqn:E; [by rewrite E|].
  unfold task_done in *. cbn. by rewrite E.
Qed.

Lemma cancel_stopping (t : task) : stopping (cancel t) = true.
Proof.
  unfold stopping, cancel. destruct (task_done t) eqn:E; cbn; [|done].
  rewrite E. apply orb_true_r.
Qed.

Lemma cancel_task_lookup (ref : option nat) (ts : list task) (i : nat) :
  cancel_task ref ts !! i
  = (if decide (ref = Some i) then cancel else id) <$> ts !! i.
Proof.
  destruct ref as [j|]; cbn.
  - rewrite list_lookup_alter. destruct (decide (j = i)) as [->|Hne].
    + by rewrite decide_True.
    + rewrite decide_False by congruence. by destruct (ts !! i).
  - by destruct (ts !! i).
Qed.

Lemma cancel_workers_idem (a b : option nat) (ts : list task) :
  cancel_task a (cancel_task b (cancel_task a (cancel_task b ts)))
  = cancel_task a (cancel_task b ts).
Proof.
  apply list_eq. intros i. rewrite !cancel_task_lookup.
  destruct (ts !! i) as [t|]; [|done]. cbn.
  destruct (decide (a = Some i)), (decide (b = Some i)); cbn;
    by rewrite ?cancel_idem.
Qed.

(** A worker whose cancellation was requested ends the next time the
    loop resumes it. *)
Lemma cancelled_worker_ends (t : task) (w : world) (c : Client) :
  cancel_requested t = true -> task_done t = false ->
  (exists pc, body t = SendWorker pc \/ body t = HeartbeatWorker pc) ->
  exists t', task_resume gz t (Wake w) c = Some (t', c, [])
             /\ task_done t' = true.
Proof.
  intros Hc Hd [pc [Hb|Hb]]; unfold task_resume, task_done in *;
    rewrite Hb in *; rewrite Hc; destruct pc; try done; cbn; eauto.
Qed.

(** C7, as the code has it.  [stop()] clears [is_running], calls
    [cancel()] on the send worker and on the heartbeat worker without
    waiting for them (a cancelled worker ends the next time the loop
    resumes it), and closes the socket if one is held, after which the
    handle is dropped and [is_connected] is false.  So when [stop()]
    returns, [is_connected] is false and no socket is held, and a
    second [stop()] changes nothing. *)
Theorem stop_effects (s : System) :
  well_formed (client s) ->
  let r := stop s in
  is_running (client r.1) = false
  /\ (forall i t, (send_task (client s) = Some i \/ heartbeat_task (client s) = Some i) ->
        tasks r.1 !! i = Some t -> stopping t = true)
  /\ length (tasks r.1) = length (tasks s)
  /\ (websocket (client s) = None ->
        r.2 = [] /\ closing r.1 = closing s
        /\ is_connected (client r.1) = false /\ websocket (client r.1) = None
        /\ stop r.1 = (r.1, []))
  /\ (forall h, websocket (client s) = Some h ->
        r.2 = [EvClose h]
        /\ exists s2, stop_resume r.1 = Some (s2, [])
             /\ is_running (client s2) = false
             /\ is_connected (client s2) = false /\ websocket (client s2) = None
             /\ closing s2 = closing s
             /\ stop s2 = (s2, []))
  /\ (forall i t w c',
        (send_task (client s) = Some i \/ heartbeat_task (client s) = Some i) ->
        tasks r.1 !! i = Some t -> task_done t = false ->
        (exists pc, body t = SendWorker pc \/ body t = HeartbeatWorker pc) ->
        exists t', task_resume gz t (Wake w) c' = Some (t', c', [])
                   /\ task_done t' = true).
Proof.
  intros [Hwf _]. cbv zeta.
  assert (Hstopping : forall i t,
            (send_task (client s) = Some i \/ heartbeat_task (client s) = Some i) ->
            tasks (stop s).1 !! i = Some t -> stopping t = true);
    [|unfold stop in *;
      cbn [is_running set_is_running send_task heartbeat_task websocket] in *;
      split_and!; [| exact Hstopping | | | |]].
  - unfold stop.
    cbn [is_running set_is_running send_task heartbeat_task websocket].
    intros i t Hi Ht.
    assert (Hl : cancel_task (heartbeat_task (client s))
                   (cancel_task (send_task (client s)) (tasks s)) !! i = Some t).
    { by destruct (websocket (client s)). }
    rewrite !cancel_task_lookup in Hl.
    destruct (tasks s !! i) as [t0|]; [|done]. cbn in Hl.
    destruct (decide (heartbeat_task (client s) = Some i)),
             (decide (send_task (client s) = Some i)); cbn in Hl;
      inversion Hl; subst; rewrite ?cancel_idem; try apply cancel_stopping.
    by destruct Hi.
  - by destruct (websocket (client s)).
  - destruct (websocket (client s)); cbn;
      destruct (heartbeat_task (client s)), (send_task (client s)); cbn;
      by rewrite ?length_alter.
  - intros Hw. rewrite Hw. cbn.
    split_and!; try done.
    + destruct (is_connected (client s)) eqn:Hc; [|done]. by destruct (Hwf eq_refl).
    + rewrite Hw. by rewrite cancel_workers_idem.
  - intros h Hw. rewrite Hw. cbn. split; [done|].
    eexists. split; [reflexivity|]. cbn.
    split_and!; try done. unfold stop. cbn.
    by rewrite cancel_workers_idem.
  - intros i t w c' Hi Ht Hd Hb.
    apply cancelled_worker_ends; [|done|done].
    specialize (Hstopping i t Hi Ht). unfold stopping in Hstopping.
    rewrite Hd, orb_false_r in Hstopping. done.
Qed.

End Stop.

Lemma stop_effects_witness :
  well_formed (client Sample.live)
  /\ (stop Sample.live).2 = [EvClose 8%nat]
  /\ is_running (client (stop Sample.live).1) = false.
Proof.
  assert (Hwf : well_formed (client Sample.live)).
  { split; [intros _; vm_compute; discriminate | vm_compute; constructor]. }
  split; [exact Hwf|].
  destruct (stop_effects Sample.stored Sample.live Hwf)
    as (Hrun & _ & _ & _ & Hclose & _).
  split; [exact (proj1 (Hclose 8%nat eq_refl)) | exact Hrun].
Defined.

(** C7 as claimed does not hold.  [start()] has run and the connection
    manager is waiting for [websockets.connect]; [stop()] then runs to
    its end at once (there is no socket to close, nothing is awaited).
    When it returns the three tasks are still alive; the connect then
    succeeds, and the connection manager stores the new handle, sets
    [is_connected] and writes the handshake on it, after [stop()] has
    completed. *)
Lemma stop_counterexample :
  let observe (r : System * list event) :=
    (is_running (client r.1), closing r.1, running_tasks r.1,
     is_connected (client r.1), websocket (client r.1),
     map Msg.message_type (sent_envelopes r.2)) in
  observe <$> run Sample.stored (Sample.connecting ++ [Stop]) Sample.idle
  = Some (false, 0%nat, [true; true; true], false, None, [])
  /\ observe <$> run Sample.stored
                   (Sample.connecting
                    ++ [Stop; Resume 0 (ConnectOk 7%nat Sample.world_ok)])
                   Sample.idle
     = Some (false, 0%nat, [true; true; true], true, Some 7%nat, ["handshake"]).
Proof. by vm_compute. Qed.

Section Codec.

Variable gz : list byte -> list byte.

Lemma plain_b64_char (i : N) : plain_char (Bytes.b64_char i) = true.
Proof.
  unfold Bytes.b64_char, plain_char.
  destruct (i <? 26)%N eqn:E1; [|destruct (i <? 52)%N eqn:E2;
    [|destruct (i <? 62)%N eqn:E3; [|destruct (i =? 62)%N; [done|done]]]].
  - apply N.ltb_lt in E1. rewrite N_ascii_embedding by lia.
    repeat (apply andb_true_intro; split); try apply negb_true_iff;
      first [apply N.leb_le | apply N.eqb_neq]; lia.
  - apply N.ltb_ge in E1. apply N.ltb_lt in E2.
    rewrite N_ascii_embedding by lia.
    repeat (apply andb_true_intro; split); try apply negb_true_iff;
      first [apply N.leb_le | apply N.eqb_neq]; lia.
  - apply N.ltb_ge in E2. apply N.ltb_lt in E3.
    rewrite N_ascii_embedding by lia.
    repeat (apply andb_true_intro; split); try apply negb_true_iff;
      first [apply N.leb_le | apply N.eqb_neq]; lia.
Qed.

Lemma plain_b64encode (bs : list byte) : plain_string (Bytes.b64encode bs) = true.
Proof.
  assert (H : forall n bs, (length bs <= n)%nat ->
                plain_string (Bytes.b64encode bs) = true).
  { clear bs. induction n as [n IH] using lt_wf_ind. intros bs Hn.
    destruct bs as [|a [|b [|c rest]]]; cbn [Bytes.b64encode plain_string];
      rewrite ?plain_b64_char; try done.
    cbn [andb]. apply (IH (length rest)); cbn in Hn; lia. }
  by apply (H (length bs)).
Qed.

Lemma escape_plain (s : string) :
  plain_string s = true -> Json.escape_string s = s.
Proof.
  induction s as [|c s IH]; [done|]. cbn [plain_string Json.escape_string].
  intros [Hc Hs]%andb_prop. rewrite (IH Hs).
  unfold plain_char in Hc. unfold Json.escape_char.
  apply andb_prop in Hc as [[[H1 H2]%andb_prop H3%negb_true_iff]%andb_prop
                              H4%negb_true_iff].
  apply N.leb_le in H1, H2. rewrite H3, H4.
  destruct (N.eqb_spec (N_of_ascii c) 10); [lia|].
  destruct (N.eqb_spec (N_of_ascii c) 13); [lia|].
  destruct (N.eqb_spec (N_of_ascii c) 9); [lia|].
  destruct (N.eqb_spec (N_of_ascii c) 8); [lia|].
  destruct (N.eqb_spec (N_of_ascii c) 12); [lia|].
  destruct (N.ltb_spec (N_of_ascii c) 32); [lia|].
  destruct (N.ltb_spec 126 (N_of_ascii c)); [lia|]. done.
Qed.

Lemma scan_plain_string (s rest : string) :
  plain_string s = true ->
  Json.scan_string (s ++ String Json.dquote rest) = Json.Value (s, rest).
Proof.
  induction s as [|c s IH]; [done|]. cbn [plain_string].
  intros [Hc Hs]%andb_prop.
  change (String c s ++ String Json.dquote rest)%string
    with (String c (s ++ String Json.dquote rest)).
  cbn [Json.scan_string]. rewrite (IH Hs).
  unfold plain_char in Hc.
  apply andb_prop in Hc as [[[H1 H2]%andb_prop H3%negb_true_iff]%andb_prop
                              H4%negb_true_iff].
  apply N.leb_le in H1. rewrite H3, H4.
  destruct (N.ltb_spec (N_of_ascii c) 32); [lia|]. done.
Qed.

Lemma string_app_assoc (a b c : string) :
  ((a ++ b) ++ c = a ++ (b ++ c))%string.
Proof. induction a; cbn; congruence. Qed.

Lemma dumps_marker (encoded : string) :
  plain_string encoded = true ->
  Json.dumps (marker_object encoded) = marker_text encoded.
Proof.
  intros Hp. unfold marker_object. cbn [Json.dumps]. unfold Json.dumps_str.
  rewrite (escape_plain encoded Hp).
  change (Json.escape_string "compressed") with "compressed".
  change (Json.escape_string "data") with "data".
  unfold marker_text. cbn [append]. rewrite string_app_assoc. reflexivity.
Qed.

(** One step of the decoder, on an object, a string and a member. *)
Lemma scan_value_object (fuel depth : nat) (s1 : string) :
  Json.scan_value (S fuel) (S depth) (String "{" (String Json.dquote s1))
  = r ← Json.scan_members fuel depth (String Json.dquote s1) [];
    Json.Value (PyDict r.1, r.2).
Proof. reflexivity. Qed.

Lemma scan_value_string (fuel depth : nat) (s1 : string) :
  Json.scan_value (S fuel) depth (String Json.dquote s1)
  = r ← Json.scan_string s1; Json.Value (PyStr r.1, r.2).
Proof. reflexivity. Qed.

Lemma scan_members_key (fuel depth : nat) (s1 : string)
    (acc : list (string * pyval)) :
  Json.scan_members (S fuel) depth (String Json.dquote s1) acc
  = k ← Json.scan_string s1;
    match Json.skip_ws k.2 with
    | String ":" s2 =>
        v ← Json.scan_value fuel depth (Json.skip_ws s2);
        let acc' := dict_set k.1 v.1 acc in
        match Json.skip_ws v.2 with
        | String "}" s3 => Json.Value (acc', s3)
        | String "," s3 => Json.scan_members fuel depth (Json.skip_ws s3) acc'
        | _ => Json.DecodeError
        end
    | _ => Json.DecodeError
    end.
Proof. reflexivity. Qed.

Lemma scan_marker (fuel depth : nat) (encoded : string) :
  plain_string encoded = true ->
  Json.scan_value (S (S (S (S fuel)))) (S depth) (marker_text encoded)
  = Json.Value (marker_object encoded, EmptyString).
Proof.
  intros Hp. unfold marker_text.
  set (value2 := String Json.dquote (encoded ++ _)).
  set (member2 := String Json.dquote ("data" ++ _)).
  rewrite scan_value_object, scan_members_key.
  rewrite (scan_plain_string "compressed" _ eq_refl).
  cbn [fst snd mbind Json.decoded_mbind Json.decoded_bind append].
  change (Json.skip_ws (String ":" ?x)) with (String ":" x).
  cbv iota beta.
  change (Json.skip_ws (String " " (String "t" ?x))) with (String "t" x).
  change (Json.scan_value (S (S fuel)) depth
            (String "t" (String "r" (String "u" (String "e" ?x)))))
    with (Json.Value (PyBool true, x)).
  cbn [fst snd mbind Json.decoded_mbind Json.decoded_bind dict_set].
  change (Json.skip_ws (String "," ?x)) with (String "," x).
  cbv iota beta.
  change (Json.skip_ws (String " " member2)) with member2.
  subst member2. rewrite scan_members_key.
  rewrite (scan_plain_string "data" _ eq_refl).
  cbn [fst snd mbind Json.decoded_mbind Json.decoded_bind append].
  change (Json.skip_ws (String ":" ?x)) with (String ":" x).
  cbv iota beta.
  change (Json.skip_ws (String " " value2)) with value2.
  subst value2. rewrite scan_value_string.
  rewrite (scan_plain_string encoded _ Hp).
  cbn [fst snd mbind Json.decoded_mbind Json.decoded_bind].
  reflexivity.
Qed.

(** The client's own decoder, [json.loads], gives back the marker object
    of a compressed frame. *)
Lemma loads_marker (encoded : string) :
  plain_string encoded = true ->
  Json.loads (Json.dumps (marker_object encoded))
  = Json.Value (marker_object encoded).
Proof.
  intros Hp. rewrite (dumps_marker encoded Hp). unfold Json.loads.
  assert (exists n, String.length (marker_text encoded) = S (S (S n))) as [n ->].
  { unfold marker_text. cbn [String.length]. eauto. }
  change (Json.skip_ws (marker_text encoded)) with (marker_text encoded).
  change Json.max_depth with (S 99).
  rewrite (scan_marker n 99 encoded Hp). reflexivity.
Qed.

(** C5, as the code has it.  With compression on, [_send_raw_message]
    writes the JSON text of the marker object
    [{compressed: true, data: b64(gzip(utf8(json)))}].  The decoder of
    this client, [_listen_for_messages], is [json.loads] followed by the
    dispatch on ['type']; it does not look for the marker: applied to
    such a frame it yields the marker object itself, which is not the
    envelope, and the dispatcher ignores it as a message of unknown
    type. *)
Theorem compressed_frame_decodes_to_marker (c : Client) (m : DashboardMessage)
    (h : handle) :
  is_connected c = true -> websocket c = Some h -> compress_data c = true ->
  let message_json := Json.dumps (asdict c m) in
  let encoded := Bytes.b64encode (gz (Bytes.encode_utf8 message_json)) in
  let frame := Json.dumps (marker_object encoded) in
  (_send_raw_message gz m IoOk c).2 = [EvWrite h m frame]
  /\ Json.loads frame = Json.Value (marker_object encoded)
  /\ Json.loads frame <> Json.Value (asdict c m)
  /\ (forall now io c', on_frame gz frame now io c' = Some (c', [])).
Proof.
  intros Hc Hw Hz. cbv zeta.
  pose proof (loads_marker _ (plain_b64encode
    (gz (Bytes.encode_utf8 (Json.dumps (asdict c m)))))) as Hl.
  split_and!.
  - unfold _send_raw_message, wire_frame. by rewrite Hc, Hw, Hz.
  - exact Hl.
  - rewrite Hl. unfold marker_object, asdict. congruence.
  - intros now io c'. unfold on_frame. by rewrite Hl.
Qed.

End Codec.

Lemma compressed_frame_decodes_to_marker_witness :
  is_connected Sample.online = true /\ websocket Sample.online = Some 7%nat
  /\ compress_data Sample.online = true
  /\ map (fun e => match e with
                   | EvWrite _ _ frame => Json.loads frame
                   | _ => Json.DecodeError
                   end)
       (_send_raw_message Sample.stored Sample.envelope IoOk Sample.online).2
     = [ Json.Value (marker_object
                 (Bytes.b64encode
                    (Sample.stored
                       (Bytes.encode_utf8
                          (Json.dumps (asdict Sample.online Sample.envelope)))))) ].
Proof.
  split; [reflexivity|]. split; [reflexivity|]. split; [reflexivity|].
  destruct (compressed_frame_decodes_to_marker Sample.stored Sample.online
              Sample.envelope 7%nat eq_refl eq_refl eq_refl) as (Hs & Hl & _).
  cbv zeta in Hs, Hl. rewrite Hs. cbn [map]. by rewrite Hl.
Defined.

(** C5 as claimed does not hold: decoding the compressed encoding of an
    envelope (nested objects, a non-ASCII string) with the decoder of
    [_listen_for_messages] gives the marker object, not the envelope,
    and the frame is dropped as a message of unknown type. *)
Lemma compressed_roundtrip_counterexample :
  let c := Sample.online in
  let frame := wire_frame Sample.stored true (Json.dumps (asdict c Sample.envelope)) in
  Json.loads frame <> Json.Value (asdict c Sample.envelope)
  /\ (exists encoded, Json.loads frame = Json.Value (marker_object encoded))
  /\ on_frame Sample.stored frame Sample.noon IoOk c = Some (c, []).
Proof.
  cbv zeta. split; [|split].
  - vm_compute. discriminate.
  - eexists. vm_compute. reflexivity.
  - vm_compute. reflexivity.
Qed.

(** * Further properties of the client *)

Section Moves.

Variable gz : list byte -> list byte.

Lemma moves_one (c c' : Client) (evs : list event) :
  move gz c c' evs -> moves gz c c' evs.
Proof.
  intros H. rewrite <- (app_nil_r evs). eapply moves_cons; [exact H | constructor].
Qed.

Lemma moves_app (c c1 c2 : Client) (evs1 evs2 : list event) :
  moves gz c c1 evs1 -> moves gz c1 c2 evs2 -> moves gz c c2 (evs1 ++ evs2).
Proof.
  induction 1 as [|c c1' c1 e1 e2 Hm Hms IH]; intros H2; [done|].
  rewrite <- app_assoc. eapply moves_cons; [exact Hm | by apply IH].
Qed.

Lemma moves_silent (c c' : Client) (evs : list event) (e : event) :
  silent e = true -> moves gz c c' evs -> moves gz c c' (evs ++ [e]).
Proof.
  intros He H. eapply moves_app; [exact H|]. by apply moves_one, MvSilent.
Qed.

Lemma moves_raw (m : DashboardMessage) (io : io_result) (c : Client) :
  moves gz c (_send_raw_message gz m io c).1.2 (_send_raw_message gz m io c).2.
Proof. apply moves_one, MvRaw. Qed.

Lemma moves_numbered (m : Z -> DashboardMessage) (io : io_result) (c : Client) :
  let c1 := set_sequence_id (sequence_id c + 1) c in
  moves gz c (_send_raw_message gz (m (sequence_id c1)) io c1).1.2
             (_send_raw_message gz (m (sequence_id c1)) io c1).2.
Proof.
  intros c1. change (_send_raw_message gz (m (sequence_id c1)) io c1).2
    with ([] ++ (_send_raw_message gz (m (sequence_id c1)) io c1).2).
  eapply moves_cons; [apply MvTakeId | apply moves_raw].
Qed.

Lemma moves_send_batch (messages : list DashboardMessage) (now : datetime)
    (io : io_result) (c : Client) :
  moves gz c (_send_batch gz messages now io c).1.2
             (_send_batch gz messages now io c).2.
Proof.
  unfold _send_batch, _get_next_sequence_id. cbv zeta.
  exact (moves_numbered
    (fun id => Msg.mk "batch" (dt_isoformat now)
       (Data (PyDict [("messages", PyList (map (asdict c) messages))]))
       (system_id c) id) io c).
Qed.

Lemma moves_send_heartbeat (now_iso now : datetime) (t0 t1 : Z)
    (io : io_result) (c : Client) :
  moves gz c (send_heartbeat gz now_iso now t0 t1 io c).1.2
             (send_heartbeat gz now_iso now t0 t1 io c).2.
Proof.
  unfold send_heartbeat, _get_next_sequence_id. cbv zeta.
  match goal with
  | |- context [Msg.mk "heartbeat" ?ts ?d ?sid _] =>
      exact (moves_numbered (fun id => Msg.mk "heartbeat" ts d sid id) io c)
  end.
Qed.

Lemma moves_send_worker_cycle (now : datetime) (io : io_result) (c : Client) :
  moves gz c (send_worker_cycle gz now io c).1 (send_worker_cycle gz now io c).2.
Proof.
  unfold send_worker_cycle.
  destruct (is_connected c && negb (queue_empty (message_queue c)));
    [|by apply (moves_silent c c []); [|constructor]].
  rewrite collect_spec. cbn [app].
  set (n := Z.to_nat (batch_size c)).
  set (c1 := set_message_queue (drop n (message_queue c)) c).
  assert (H1 : moves gz c c1 []) by apply moves_one, MvDequeue.
  destruct (take n (message_queue c)) as [|m1 [|m2 rest]].
  - by apply moves_silent.
  - pose proof (moves_raw m1 io c1) as H2.
    destruct (_send_raw_message gz m1 io c1) as [[b c2] evs]. cbn in *.
    apply moves_silent; [done|]. apply (moves_app c c1 c2 [] evs H1 H2).
  - pose proof (moves_send_batch (m1 :: m2 :: rest) now io c1) as H2.
    destruct (_send_batch gz (m1 :: m2 :: rest) now io c1) as [[b c2] evs].
    cbn in *. apply moves_silent; [done|].
    apply (moves_app c c1 c2 [] evs H1 H2).
Qed.

Lemma moves_heartbeat_worker_cycle (now_iso now now' : datetime) (t0 t1 : Z)
    (io : io_result) (c : Client) :
  moves gz c (heartbeat_worker_cycle gz now_iso now now' t0 t1 io c).1
             (heartbeat_worker_cycle gz now_iso now now' t0 t1 io c).2.
Proof.
  unfold heartbeat_worker_cycle.
  destruct (is_connected c); [|by apply (moves_silent c c []); [|constructor]].
  pose proof (moves_send_heartbeat now_iso now t0 t1 io c) as H.
  destruct (send_heartbeat gz now_iso now t0 t1 io c) as [[b c1] evs].
  cbn in *. apply moves_silent; [done|].
  rewrite <- (app_nil_r evs). eapply moves_app; [exact H|].
  apply moves_one, MvHeartbeatAt.
Qed.

Lemma moves_on_frame (message : string) (now : datetime) (io : io_result)
    (c : Client) (res : Client * list event) :
  on_frame gz message now io c = Some res -> moves gz c res.1 res.2.
Proof.
  unfold on_frame.
  destruct (Json.loads message) as [data| |]; intros [= <-]; [|constructor].
  unfold _handle_incoming_message.
  destruct data as [| | | | |?|kvs|]; try constructor.
  cbv zeta.
  destruct (py_eq_str _ "ping").
  { unfold _send_pong.
    match goal with
    | |- context [_send_raw_message gz ?m io c] => pose proof (moves_raw m io c) as H
    end.
    by destruct (_send_raw_message _ _ _ _) as [[? ?] ?]. }
  destruct (py_eq_str _ "config_update").
  { destruct (default _ (dict_get "config" kvs)); try constructor.
    cbn. apply moves_one, MvConfig. }
  destruct (py_eq_str _ "command"); [|constructor].
  unfold _handle_command.
  destruct (default _ (dict_get "command" kvs)) as [| | | | |?|cmd|];
    try constructor.
  cbv zeta. destruct (py_eq_str _ "get_status"); [|constructor].
  cbn. apply moves_one, MvPublish.
Qed.

Lemma moves_connected (h : handle) (now_info now : datetime) (io : io_result)
    (c : Client) :
  moves gz c (connected gz h now_info now io c).1
             (connected gz h now_info now io c).2.
Proof.
  unfold connected, _send_handshake. cbv zeta.
  match goal with
  | |- context [_send_raw_message gz ?m io ?c3] =>
      pose proof (moves_raw m io c3) as H;
      destruct (_send_raw_message gz m io c3) as [[b c4] evs]
  end.
  cbn [fst snd] in *.
  change evs with ([] ++ [] ++ [] ++ evs).
  eapply moves_cons; [apply (MvSocket gz (Some h))|].
  eapply moves_cons; [apply (MvConnected gz true)|].
  eapply moves_cons; [apply MvReconnected|]. exact H.
Qed.

Lemma moves_cm_resume (pc pc' : cm_pc) (inp : input) (c c' : Client)
    (evs : list event) :
  cm_resume gz pc inp c = Some (pc', c', evs) -> moves gz c c' evs.
Proof.
  unfold cm_resume, cm_loop_head.
  destruct pc, inp; try done; intros H.
  - destruct (is_running c); inversion H; subst; constructor.
  - pose proof (moves_connected h (now_a w) (now_b w) (io w) c) as Hc.
    destruct (connected gz h (now_a w) (now_b w) (io w) c) as [c1 evs1].
    cbn [fst snd] in Hc.
    destruct (is_connected c1); inversion H; subst.
    + rewrite <- (app_nil_r evs). eapply moves_app; [exact Hc|].
      apply moves_one, MvAttemptsReset.
    + by apply moves_silent.
  - cbn [is_running set_is_connected] in H.
    assert (H0 : moves gz c (set_is_connected false c) [])
      by apply moves_one, MvConnected.
    destruct (is_running c).
    + unfold reconnect_wait in H.
      destruct (_ <? _) eqn:E; inversion H; subst.
      * apply Z.ltb_lt in E.
        change [EvSleep (PyInt ?d)] with ([] ++ [] ++ [EvSleep (PyInt d)]).
        eapply moves_cons; [apply (MvConnected gz false)|].
        eapply moves_cons; [by apply MvAttempt|].
        by apply moves_one, MvSilent.
      * by apply (moves_silent _ _ []).
    + inversion H; subst. by apply (moves_silent _ _ []).
  - destruct (on_frame gz message (now_a w) (io w) c) as [res|] eqn:Ef; [|done].
    cbn in H. inversion H; subst. by eapply moves_on_frame.
  - inversion H; subst. by apply moves_one, MvSilent.
  - inversion H; subst. apply (moves_silent _ _ []); [done|].
    apply moves_one, MvConnected.
  - inversion H; subst. apply (moves_silent _ _ []); [done|].
    apply moves_one, MvConnected.
  - inversion H; subst. apply (moves_silent _ _ []); [done|].
    destruct reset; [apply moves_one, MvAttemptsReset | constructor].
  - destruct (is_running c); inversion H; subst; constructor.
Qed.

Lemma moves_task_resume (t t' : task) (inp : input) (c c' : Client)
    (evs : list event) :
  task_resume gz t inp c = Some (t', c', evs) -> moves gz c c' evs.
Proof.
  assert (Hw : forall cycle cancelled pc pc1 c1 evs1,
    (forall w c0, moves gz c0 (cycle w c0).1 (cycle w c0).2) ->
    worker_resume cycle cancelled pc inp c = Some (pc1, c1, evs1) ->
    moves gz c c1 evs1).
  { intros cycle cancelled pc pc1 c1 evs1 Hcycle. unfold worker_resume.
    destruct pc, inp; try done; intros H;
      (destruct cancelled; [inversion H; subst; constructor|]);
      (destruct (is_running c); [|inversion H; subst; constructor]);
      specialize (Hcycle w c); destruct (cycle w c) as [c2 evs2];
      by inversion H; subst. }
  unfold task_resume. destruct (body t) as [pc|pc|pc]; intros H.
  - destruct (cm_resume gz pc inp c) as [[[pc1 c1] evs1]|] eqn:E; [|done].
    cbn in H. inversion H; subst. by eapply moves_cm_resume.
  - destruct (worker_resume _ _ pc inp c) as [[[pc1 c1] evs1]|] eqn:E; [|done].
    cbn in H. inversion H; subst. eapply Hw; [|exact E].
    intros w c0. unfold send_cycle. apply moves_send_worker_cycle.
  - destruct (worker_resume _ _ pc inp c) as [[[pc1 c1] evs1]|] eqn:E; [|done].
    cbn in H. inversion H; subst. eapply Hw; [|exact E].
    intros w c0. unfold heartbeat_cycle. apply moves_heartbeat_worker_cycle.
Qed.

Lemma moves_on_client (f : Client -> Client * list event) (s s' : System)
    (evs : list event) :
  moves gz (client s) (f (client s)).1 (f (client s)).2 ->
  Some (on_client f s) = Some (s', evs) -> moves gz (client s) (client s') evs.
Proof.
  unfold on_client. destruct (f (client s)) as [c1 evs1].
  intros H E. by inversion E; subst.
Qed.

Lemma moves_step (a : action) (s s' : System) (evs : list event) :
  step gz a s = Some (s', evs) -> moves gz (client s) (client s') evs.
Proof.
  destruct a; cbn [step]; intros H.
  - unfold start in H. destruct (is_running (client s)); inversion H; subst.
    + constructor.
    + cbn [client]. change [EvSleep (PyInt 2)] with ([] ++ [] ++ [] ++ [EvSleep (PyInt 2)]).
      eapply moves_cons; [apply (MvRunning gz true)|].
      eapply moves_cons; [apply (MvSendTask gz (Some (S (length (tasks s)))))|].
      eapply moves_cons; [apply (MvHeartbeatTask gz (Some (S (S (length (tasks s))))))|].
      by apply moves_one, MvSilent.
  - unfold stop in H. cbn in H.
    destruct (websocket (client s)); inversion H; subst; cbn [client].
    + change [EvClose h] with ([] ++ [EvClose h]).
      eapply moves_cons; [apply (MvRunning gz false)|].
      by apply moves_one, MvSilent.
    + apply moves_one, MvRunning.
  - unfold stop_resume in H. destruct (closing s); inversion H; subst.
    cbn [client]. change (@nil event) with (@nil event ++ []).
    eapply moves_cons; [apply (MvSocket gz None)|].
    apply moves_one, MvConnected.
  - eapply moves_on_client; [|exact H]. apply moves_one, MvPublish.
  - eapply moves_on_client; [|exact H]. apply moves_one, MvPublish.
  - eapply moves_on_client; [|exact H]. apply moves_one, MvPublish.
  - eapply moves_on_client; [|exact H]. apply moves_one, MvPublish.
  - destruct (tasks s !! i) as [t|]; [|done]. cbn in H.
    destruct (task_resume gz t inp (client s)) as [[[t' c'] evs']|] eqn:E; [|done].
    cbn in H. inversion H; subst. cbn. by eapply moves_task_resume.
Qed.

(** Every run is a sequence of moves. *)
Lemma moves_run (acts : list action) (s s' : System) (evs : list event) :
  run gz acts s = Some (s', evs) -> moves gz (client s) (client s') evs.
Proof.
  revert s s' evs. induction acts as [|a acts IH]; intros s s' evs H.
  - inversion H; subst. constructor.
  - cbn [run] in H.
    destruct (step gz a s) as [[s1 evs1]|] eqn:E1; [|done]. cbn in H.
    destruct (run gz acts s1) as [[s2 evs2]|] eqn:E2; [|done]. cbn in H.
    inversion H; subst.
    eapply moves_app; [by eapply moves_step | by eapply IH].
Qed.

End Moves.

Section RunInvariants.

Variable gz : list byte -> list byte.

(** The three ways a call of [_send_raw_message] can go. *)
Lemma raw_send_cases (m : DashboardMessage) (r : io_result) (c : Client) :
  _send_raw_message gz m r c = (false, c, [])
  \/ (exists h frame,
        _send_raw_message gz m r c
        = (true,
           set_stats (stats_sent (Z.of_nat (String.length frame)) (stats c)) c,
           [EvWrite h m frame]))
  \/ (exists h,
        _send_raw_message gz m r c
        = (false, set_is_connected false (set_stats (stats_failed (stats c)) c),
           [EvWriteError h m])).
Proof.
  unfold _send_raw_message.
  destruct (is_connected c), (websocket c), r; eauto.
Qed.

Ltac move_cases H :=
  destruct H as [m r c|mtype now d c|c|n c|b c|o c|b c|c Hlt|c|c|d c|update c
                |o c|o c|e c He];
  [ destruct (raw_send_cases m r c) as [E|[(h & frame & E)|(h & E)]]; rewrite E
  | | | | | | | | | | | rewrite handle_config_update_frame | | | ].

Lemma same_settings_refl (c : Client) : same_settings c c.
Proof. by repeat split. Qed.

Lemma same_settings_trans (c c1 c2 : Client) :
  same_settings c c1 -> same_settings c1 c2 -> same_settings c c2.
Proof.
  unfold same_settings. intros (?&?&?&?&?&?&?&?&?) (?&?&?&?&?&?&?&?&?).
  repeat split; congruence.
Qed.

Lemma move_same_settings (c c' : Client) (evs : list event) :
  move gz c c' evs -> same_settings c c'.
Proof. intros H. move_cases H; by repeat split. Qed.

Lemma moves_same_settings (c c' : Client) (evs : list event) :
  moves gz c c' evs -> same_settings c c'.
Proof.
  induction 1 as [|c c1 c2 e1 e2 Hm _ IH]; [apply same_settings_refl|].
  eapply same_settings_trans; [by eapply move_same_settings | exact IH].
Qed.

(** X1.  The settings that [__init__] copies out of the configuration
    ([batch_size], [send_interval], [compress_data], the reconnect
    settings, the url, key and system id) never change afterwards: no
    run changes them, and a [config_update] that names one of them
    alters the [config] dictionary only. *)
Theorem settings_frozen (acts : list action) (s s' : System) (evs : list event) :
  run gz acts s = Some (s', evs) ->
  same_settings (client s) (client s')
  /\ (forall update, same_settings (client s)
                       (_handle_config_update update (client s))).
Proof.
  intros H. split.
  - by eapply moves_same_settings, moves_run.
  - intros update. eapply move_same_settings, MvConfig.
Qed.

Lemma count_events_app (p : event -> bool) (evs1 evs2 : list event) :
  count_events p (evs1 ++ evs2) = count_events p evs1 + count_events p evs2.
Proof. induction evs1 as [|e evs1 IH]; cbn; [done | rewrite IH; lia]. Qed.

Lemma written_length_app (evs1 evs2 : list event) :
  written_length (evs1 ++ evs2) = written_length evs1 + written_length evs2.
Proof.
  unfold written_length. induction evs1 as [|e evs1 IH]; cbn; [done|].
  cbn in IH. rewrite IH. lia.
Qed.

Lemma move_accounted (c c' : Client) (evs : list event) :
  move gz c c' evs -> accounted c c' evs.
Proof.
  intros H. unfold accounted.
  move_cases H; try (destruct e; try done);
    cbn; unfold written_length; cbn; split_and!; lia.
Qed.

Lemma moves_accounted (c c' : Client) (evs : list event) :
  moves gz c c' evs -> accounted c c' evs.
Proof.
  induction 1 as [c|c c1 c2 e1 e2 Hm _ IH].
  - unfold accounted, written_length. cbn. split_and!; lia.
  - apply move_accounted in Hm. unfold accounted in *.
    rewrite !count_events_app, written_length_app.
    destruct Hm as (?&?&?&?&?), IH as (?&?&?&?&?). split_and!; lia.
Qed.

(** X2.  Along every run, [messages_sent] grows by the number of frames
    written, [messages_failed] by the number of writes that raised and
    [bytes_sent] by the total length of the frames written: every write
    attempt is counted once, as a success or as a failure.
    [reconnections] never decreases and [connection_uptime] is never
    updated. *)
Theorem stats_account_for_writes (acts : list action) (s s' : System)
    (evs : list event) :
  run gz acts s = Some (s', evs) ->
  messages_sent (stats (client s'))
    = messages_sent (stats (client s)) + count_events is_write evs
  /\ messages_failed (stats (client s'))
     = messages_failed (stats (client s)) + count_events is_write_error evs
  /\ bytes_sent (stats (client s'))
     = bytes_sent (stats (client s)) + written_length evs
  /\ connection_uptime (stats (client s')) = connection_uptime (stats (client s))
  /\ reconnections (stats (client s)) <= reconnections (stats (client s')).
Proof. intros H. by eapply moves_accounted, moves_run. Qed.

Lemma move_queue (c c' : Client) (evs : list event) :
  move gz c c' evs ->
  exists taken,
    message_queue c ++ queued_envelopes evs = taken ++ message_queue c'.
Proof.
  intros H. move_cases H;
    try (exists []; try (destruct e; try done); cbn; by rewrite ?app_nil_r).
  exists (take n (message_queue c)). cbn. by rewrite app_nil_r, take_drop.
Qed.

(** X3.  The outbound queue is first in, first out along every run: what
    it held at the start followed by everything queued since is what
    was taken out of it, in that order, followed by what it holds at
    the end.  Nothing is reordered, duplicated or put back. *)
Theorem queue_is_fifo (acts : list action) (s s' : System) (evs : list event) :
  run gz acts s = Some (s', evs) ->
  exists taken,
    message_queue (client s) ++ queued_envelopes evs
    = taken ++ message_queue (client s').
Proof.
  intros H. apply moves_run in H.
  induction H as [c|c c1 c2 e1 e2 Hm _ [t2 IH]].
  - exists []. cbn. by rewrite app_nil_r.
  - destruct (move_queue _ _ _ Hm) as [t1 H1]. exists (t1 ++ t2).
    unfold queued_envelopes in *. rewrite omap_app, app_assoc, H1.
    rewrite <- !app_assoc. by rewrite IH.
Qed.

Lemma move_attempts (c c' : Client) (evs : list event) (bound : Z) :
  move gz c c' evs ->
  max_reconnect_attempts c <= bound -> Z.of_nat (reconnect_attempts c) <= bound ->
  Z.of_nat (reconnect_attempts c') <= bound.
Proof. intros H Hmax Hb. move_cases H; cbn; lia. Qed.

(** X4.  The attempt counter never passes [max_reconnect_attempts]: in
    every state reached by a run it is at most that maximum, or at most
    what it was at the start if that was more (and never above 0 when
    the maximum is not positive and it started at 0). *)
Theorem reconnect_attempts_bounded (acts : list action) (s s' : System)
    (evs : list event) :
  run gz acts s = Some (s', evs) ->
  Z.of_nat (reconnect_attempts (client s'))
  <= Z.max (Z.of_nat (reconnect_attempts (client s)))
           (max_reconnect_attempts (client s)).
Proof.
  intros H. apply moves_run in H.
  set (bound := Z.max _ _).
  assert (Hmax : max_reconnect_attempts (client s) <= bound) by lia.
  assert (Hb : Z.of_nat (reconnect_attempts (client s)) <= bound) by lia.
  clearbody bound. induction H as [c|c c1 c2 e1 e2 Hm _ IH]; [done|].
  apply IH.
  - apply move_same_settings in Hm as (-> & _). done.
  - by eapply move_attempts.
Qed.

End RunInvariants.

Lemma settings_frozen_witness :
  exists s' evs,
    run Sample.stored Demo.session Demo.idle = Some (s', evs)
    /\ dict_get "batch_size" (config (client s')) = Some (PyInt 1)
    /\ batch_size (client s') = 10.
Proof.
  destruct (run Sample.stored Demo.session Demo.idle) as [[s' evs]|] eqn:E;
    [|vm_compute in E; discriminate].
  exists s', evs. split; [reflexivity|]. split.
  - vm_compute in E. inversion E. reflexivity.
  - pose proof (proj1 (settings_frozen Sample.stored Demo.session Demo.idle
                         s' evs E)) as (_ & _ & _ & _ & _ & _ & _ & -> & _).
    reflexivity.
Defined.

Lemma stats_account_for_writes_witness :
  exists s' evs,
    run Sample.stored Demo.session Demo.idle = Some (s', evs)
    /\ count_events is_write evs = 1 /\ count_events is_write_error evs = 1
    /\ messages_sent (stats (client s')) = 1
    /\ messages_failed (stats (client s')) = 1.
Proof.
  destruct (run Sample.stored Demo.session Demo.idle) as [[s' evs]|] eqn:E;
    [|vm_compute in E; discriminate].
  exists s', evs.
  destruct (stats_account_for_writes Sample.stored Demo.session Demo.idle
              s' evs E) as (Hs & Hf & _).
  assert (Hw : count_events is_write evs = 1
               /\ count_events is_write_error evs = 1).
  { vm_compute in E. inversion E. split; reflexivity. }
  destruct Hw as [Hw1 Hw2]. rewrite Hs, Hf, Hw1, Hw2.
  repeat split; reflexivity.
Defined.

Lemma queue_is_fifo_witness :
  exists s' evs,
    run Sample.stored Demo.session Demo.idle = Some (s', evs)
    /\ exists taken,
         message_queue (client Demo.idle) ++ queued_envelopes evs
         = taken ++ message_queue (client s').
Proof.
  destruct (run Sample.stored Demo.session Demo.idle) as [[s' evs]|] eqn:E;
    [|vm_compute in E; discriminate].
  exists s', evs. split; [reflexivity|].
  exact (queue_is_fifo Sample.stored Demo.session Demo.idle s' evs E).
Defined.

Lemma reconnect_attempts_bounded_witness :
  exists s' evs,
    run Sample.stored Demo.session Demo.idle = Some (s', evs)
    /\ Z.of_nat (reconnect_attempts (client s')) <= 3.
Proof.
  destruct (run Sample.stored Demo.session Demo.idle) as [[s' evs]|] eqn:E;
    [|vm_compute in E; discriminate].
  exists s', evs. split; [reflexivity|].
  exact (reconnect_attempts_bounded Sample.stored Demo.session Demo.idle s' evs E).
Defined.

Section Construction.

Variable gz : list byte -> list byte.

Lemma get_int_default (k : string) (d : Z) (cfg : list (string * pyval)) :
  dict_get k cfg = None -> get_int k d cfg = Some d.
Proof. unfold get_int. by intros ->. Qed.

Lemma init_succeeds_fresh (cfg : list (string * pyval)) (c : Client) :
  init cfg = InitOk c ->
  is_connected c = false /\ is_running c = false /\ websocket c = None
  /\ message_queue c = [] /\ sequence_id c = 0
  /\ reconnect_attempts c = 0%nat /\ stats c = no_stats
  /\ config c = cfg
  /\ dict_get "dashboard_url" cfg = Some (PyStr (dashboard_url c))
  /\ (dict_get "max_reconnect_attempts" cfg = None ->
      max_reconnect_attempts c = 10)
  /\ (dict_get "reconnect_delay" cfg = None -> reconnect_delay c = 5)
  /\ (dict_get "max_reconnect_delay" cfg = None ->
      max_reconnect_delay c = 300)
  /\ (dict_get "batch_size" cfg = None -> batch_size c = 10)
  /\ (dict_get "compress_data" cfg = None -> compress_data c = true)
  /\ well_formed c.
Proof.
  unfold init.
  destruct (dict_get "dashboard_url" cfg) as [[| | | |u| | |]|] eqn:Eu;
    cbv zeta; try done;
    destruct (get_int "max_reconnect_attempts" 10 cfg) as [n1|] eqn:Ea;
    cbn [mbind option_bind]; try done;
    destruct (get_int "reconnect_delay" 5 cfg) as [n2|] eqn:Ed;
    cbn [mbind option_bind]; try done;
    destruct (get_int "max_reconnect_delay" 300 cfg) as [n3|] eqn:Em;
    cbn [mbind option_bind]; try done.
  destruct (get_str "api_key" EmptyString cfg) as [k|];
    cbn [mbind option_bind]; [|done].
  destruct (get_str "system_id" "nexus_ai_local" cfg) as [sid|];
    cbn [mbind option_bind]; [|done].
  destruct (get_bool "compress_data" true cfg) as [z|] eqn:Ez;
    cbn [mbind option_bind]; [|done].
  destruct (get_int "batch_size" 10 cfg) as [b|] eqn:Eb;
    cbn [mbind option_bind]; [|done].
  intros [= <-]. cbn.
  split_and!; try done;
    try (intros H;
         first [ rewrite (get_int_default _ _ _ H) in Ea
               | rewrite (get_int_default _ _ _ H) in Ed
               | rewrite (get_int_default _ _ _ H) in Em
               | rewrite (get_int_default _ _ _ H) in Eb
               | unfold get_bool in Ez; rewrite H in Ez ];
         congruence).
Qed.

Lemma get_int_kept (k : string) (d : Z) (cfg : list (string * pyval)) :
  is_Some (get_int k d cfg) <-> absent_or is_int k cfg = true.
Proof.
  unfold get_int, absent_or.
  destruct (dict_get k cfg) as [[]|]; cbn; split; try done;
    intros H; try (by eexists); by destruct H.
Qed.

Lemma get_str_kept (k d : string) (cfg : list (string * pyval)) :
  is_Some (get_str k d cfg) <-> absent_or is_str k cfg = true.
Proof.
  unfold get_str, absent_or.
  destruct (dict_get k cfg) as [[]|]; cbn; split; try done;
    intros H; try (by eexists); by destruct H.
Qed.

Lemma get_bool_kept (k : string) (d : bool) (cfg : list (string * pyval)) :
  is_Some (get_bool k d cfg) <-> absent_or is_bool k cfg = true.
Proof.
  unfold get_bool, absent_or.
  destruct (dict_get k cfg) as [[]|]; cbn; split; try done;
    intros H; try (by eexists); by destruct H.
Qed.

(** The constructor is modelled exactly for the configurations whose
    settings have the types the record keeps. *)
Lemma init_beyond (cfg : list (string * pyval)) :
  init cfg = InitBeyond
  <-> dict_get "dashboard_url" cfg <> None /\ settings_kept cfg = false.
Proof.
  unfold init, settings_kept.
  pose proof (get_int_kept "max_reconnect_attempts" 10 cfg) as K1.
  pose proof (get_int_kept "reconnect_delay" 5 cfg) as K2.
  pose proof (get_int_kept "max_reconnect_delay" 300 cfg) as K3.
  pose proof (get_str_kept "api_key" EmptyString cfg) as K4.
  pose proof (get_str_kept "system_id" "nexus_ai_local" cfg) as K5.
  pose proof (get_bool_kept "compress_data" true cfg) as K6.
  pose proof (get_int_kept "batch_size" 10 cfg) as K7.
  assert (Hs : forall (A : Type) (o : option A) (b : bool),
            (is_Some o <-> b = true) ->
            (o = None /\ b = false) \/ (exists a, o = Some a /\ b = true)).
  { intros A o b [H1 H2]. destruct o as [a|].
    - right. exists a. split; [done|]. apply H1. by eexists.
    - left. split; [done|]. destruct b; [|done]. by destruct (H2 eq_refl). }
  unfold absent_or at 4.
  destruct (dict_get "dashboard_url" cfg) as [url|] eqn:Eu.
  2: { split; [done|]. by intros [? _]. }
  cbv zeta.
  destruct (Hs _ _ _ K1) as [[-> ->]|(a & -> & ->)];
    cbn [mbind option_bind andb]; [by split|].
  destruct (Hs _ _ _ K2) as [[-> ->]|(d & -> & ->)];
    cbn [mbind option_bind andb]; [by split|].
  destruct (Hs _ _ _ K3) as [[-> ->]|(m & -> & ->)];
    cbn [mbind option_bind andb]; [by split|].
  destruct url; cbn [mbind option_bind andb is_str]; try (by split).
  destruct (Hs _ _ _ K4) as [[-> ->]|(k & -> & ->)];
    cbn [mbind option_bind andb]; [by split|].
  destruct (Hs _ _ _ K5) as [[-> ->]|(sid & -> & ->)];
    cbn [mbind option_bind andb]; [by split|].
  destruct (Hs _ _ _ K6) as [[-> ->]|(z & -> & ->)];
    cbn [mbind option_bind andb]; [by split|].
  destruct (Hs _ _ _ K7) as [[-> ->]|(b & -> & ->)];
    cbn [mbind option_bind andb]; [by split|].
  split; [done|]. by intros [_ ?].
Qed.

(** X5.  [__init__] raises [KeyError] exactly when the configuration
    has no ['dashboard_url'], whatever the other settings are.  When
    every setting present has the type the model keeps it in (integers
    for the reconnect settings and the batch size, strings for the url,
    the key and the system id, a boolean for the compression switch),
    the client built is disconnected, not running, holds no socket,
    has an empty queue, a zero sequence counter, a zero attempt counter
    and zero statistics, keeps the configuration as given, and every
    setting missing from the configuration has its default: 10
    attempts, delays 5 and 300, batches of 10, compression on.  The
    constructor also accepts settings of other types (a float delay,
    for one); those configurations, and only those, are marked as
    beyond the model. *)
Theorem init_fresh_client (cfg : list (string * pyval)) :
  (init cfg = InitKeyError <-> dict_get "dashboard_url" cfg = None)
  /\ (init cfg = InitBeyond
      <-> dict_get "dashboard_url" cfg <> None /\ settings_kept cfg = false)
  /\ (dict_get "dashboard_url" cfg <> None -> settings_kept cfg = true ->
      exists c, init cfg = InitOk c)
  /\ (forall c, init cfg = InitOk c ->
        is_connected c = false /\ is_running c = false /\ websocket c = None
        /\ message_queue c = [] /\ sequence_id c = 0
        /\ reconnect_attempts c = 0%nat /\ stats c = no_stats
        /\ config c = cfg
        /\ dict_get "dashboard_url" cfg = Some (PyStr (dashboard_url c))
        /\ (dict_get "max_reconnect_attempts" cfg = None ->
            max_reconnect_attempts c = 10)
        /\ (dict_get "reconnect_delay" cfg = None -> reconnect_delay c = 5)
        /\ (dict_get "max_reconnect_delay" cfg = None ->
            max_reconnect_delay c = 300)
        /\ (dict_get "batch_size" cfg = None -> batch_size c = 10)
        /\ (dict_get "compress_data" cfg = None -> compress_data c = true)
        /\ well_formed c).
Proof.
  assert (Hkey : init cfg = InitKeyError <-> dict_get "dashboard_url" cfg = None).
  { unfold init. destruct (dict_get "dashboard_url" cfg) as [url|]; [|done].
    cbv zeta. split; [|done].
    by match goal with |- context [match ?b with Some _ => _ | None => _ end] =>
         destruct b end. }
  split_and!.
  - exact Hkey.
  - apply init_beyond.
  - intros Hurl Hk. destruct (init cfg) as [c| |] eqn:E.
    + by exists c.
    + by destruct (Hurl (proj1 Hkey eq_refl)).
    + apply init_beyond in E as [_ E]. congruence.
  - intros c. apply init_succeeds_fresh.
Qed.


End Construction.

Lemma init_fresh_client_witness :
  dict_get "dashboard_url" Demo.cfg <> None
  /\ settings_kept Demo.cfg = true
  /\ init Demo.cfg = InitOk Demo.fresh
  /\ max_reconnect_delay Demo.fresh = 300
  /\ init [("api_key", PyStr "k")] = InitKeyError
  /\ init [("dashboard_url", PyStr "ws://localhost:8080/ws/trading");
           ("reconnect_delay", PyFloat "5.0")] = InitBeyond.
Proof.
  assert (Hurl : dict_get "dashboard_url" Demo.cfg <> None) by discriminate.
  split; [exact Hurl|]. split; [reflexivity|].
  destruct (init_fresh_client Demo.cfg) as (_ & _ & Hok & Hfresh).
  destruct (Hok Hurl eq_refl) as [c Hc].
  assert (Hd : init Demo.cfg = InitOk Demo.fresh) by reflexivity.
  assert (c = Demo.fresh) as -> by (rewrite Hd in Hc; by inversion Hc).
  split; [exact Hc|]. split.
  - destruct (Hfresh Demo.fresh Hc) as (_&_&_&_&_&_&_&_&_&_&_&H&_).
    exact (H eq_refl).
  - split; reflexivity.
Defined.


Section Inbound.

Variable gz : list byte -> list byte.

(** X7.  A [ping] received on a connected client is answered by exactly
    one [pong] envelope, written to the socket at once with sequence id
    0 and payload [{status: ok}]; nothing is queued, the queue and the
    sequence counter are left alone, so the pong goes out ahead of
    whatever is waiting in the queue. *)
Theorem ping_is_answered_by_one_pong (message : string)
    (kvs : list (string * pyval)) (now : datetime) (r : io_result)
    (c : Client) (h : handle) :
  Json.loads message = Json.Value (PyDict kvs) ->
  dict_get "type" kvs = Some (PyStr "ping") ->
  is_connected c = true -> websocket c = Some h ->
  exists res,
    on_frame gz message now r c = Some res
    /\ sent_envelopes res.2 = [pong_envelope now c]
    /\ queued_envelopes res.2 = []
    /\ message_queue res.1 = message_queue c
    /\ sequence_id res.1 = sequence_id c.
Proof.
  intros Hl Ht Hc Hw. unfold on_frame. rewrite Hl.
  unfold _handle_incoming_message. rewrite Ht. cbn [default py_eq_str String.eqb Ascii.eqb Bool.eqb].
  unfold _send_pong. fold (pong_envelope now c).
  pose proof (send_raw_message_connected gz (pong_envelope now c) r c h Hc Hw)
    as (Hs & Hq & Hm & Hi & _).
  destruct (_send_raw_message gz (pong_envelope now c) r c) as [[b c1] evs] eqn:E.
  eexists. split; [reflexivity|].
  cbn in *. split_and!; try done.
  clear -Hq. induction evs as [|e evs IH]; [done|].
  cbn in Hq. apply andb_prop in Hq as [He Hq]. destruct e; try done; by apply IH.
Qed.



(** X9.  A [command] of type [get_status] puts exactly one
    [system_status] envelope on the queue, with the next sequence id
    and the running and connection state of that moment; it is not
    written to the socket by the handler.  A command of any other type
    ([restart] included) changes nothing. *)
Theorem get_status_is_queued (message : string)
    (kvs cmd : list (string * pyval)) (now : datetime) (r : io_result)
    (c : Client) :
  Json.loads message = Json.Value (PyDict kvs) ->
  dict_get "type" kvs = Some (PyStr "command") ->
  dict_get "command" kvs = Some (PyDict cmd) ->
  exists res,
    on_frame gz message now r c = Some res
    /\ (dict_get "type" cmd = Some (PyStr "get_status") ->
         res.2 = [EvQueued (status_envelope now c)]
         /\ message_queue res.1 = message_queue c ++ [status_envelope now c]
         /\ sequence_id res.1 = sequence_id c + 1
         /\ stats res.1 = stats c)
    /\ (dict_get "type" cmd <> Some (PyStr "get_status") -> res = (c, [])).
Proof.
  intros Hl Ht Hcmd. unfold on_frame. rewrite Hl.
  eexists. split; [reflexivity|].
  unfold _handle_incoming_message. rewrite Ht, Hcmd.
  cbn -[send_system_status]. split.
  - intros ->. cbn. by destruct c.
  - intros Hne.
    destruct (dict_get "type" cmd) as [v|]; [|done].
    destruct v as [| | | |ty| | |]; try done. cbn -[send_system_status].
    destruct (String.eqb ty "get_status") eqn:E; [|done].
    apply String.eqb_eq in E. congruence.
Qed.

End Inbound.

Lemma ping_is_answered_by_one_pong_witness :
  Json.loads Demo.ping_frame = Json.Value (PyDict [("type", PyStr "ping")])
  /\ exists res,
       on_frame Sample.stored Demo.ping_frame Sample.noon IoOk
         (Sample.publish 2 Sample.online) = Some res
       /\ sent_envelopes res.2
          = [pong_envelope Sample.noon (Sample.publish 2 Sample.online)].
Proof.
  assert (Hl : Json.loads Demo.ping_frame
               = Json.Value (PyDict [("type", PyStr "ping")]))
    by (vm_compute; reflexivity).
  split; [exact Hl|].
  destruct (ping_is_answered_by_one_pong Sample.stored Demo.ping_frame
              [("type", PyStr "ping")] Sample.noon IoOk
              (Sample.publish 2 Sample.online) 7%nat Hl eq_refl
              eq_refl eq_refl) as (res & E & H & _).
  exists res. split; [exact E | exact H].
Defined.


Lemma get_status_is_queued_witness :
  Json.loads Demo.status_frame
  = Json.Value (PyDict [ ("type", PyStr "command");
                         ("command", PyDict [("type", PyStr "get_status")]) ])
  /\ exists res,
       on_frame Sample.stored Demo.status_frame Sample.noon IoOk Sample.online
       = Some res
       /\ res.2 = [EvQueued (status_envelope Sample.noon Sample.online)].
Proof.
  assert (Hl : Json.loads Demo.status_frame
               = Json.Value
                   (PyDict [ ("type", PyStr "command");
                             ("command", PyDict [("type", PyStr "get_status")]) ]))
    by (vm_compute; reflexivity).
  split; [exact Hl|].
  destruct (get_status_is_queued Sample.stored Demo.status_frame _
              [("type", PyStr "get_status")] Sample.noon IoOk
              Sample.online Hl eq_refl eq_refl) as (res & E & H & _).
  exists res. split; [exact E | exact (proj1 (H eq_refl))].
Defined.

Section Reconnecting.

Variable gz : list byte -> list byte.

Lemma pow2_le (a b : Z) : 0 <= a <= b -> 2 ^ a <= 2 ^ b.
Proof. intros H. apply Z.pow_le_mono_r; lia. Qed.

(** X10.  With a non-negative base delay, the waits of successive
    reconnect attempts never shrink and never pass
    [max_reconnect_delay]: a call of [_handle_reconnect] made below the
    attempt budget waits no longer than the call that follows it, and
    every wait is at most [max_reconnect_delay]. *)
Theorem backoff_grows_until_capped (c : Client) :
  0 <= reconnect_delay c ->
  Z.of_nat (reconnect_attempts c) < max_reconnect_attempts c ->
  let r1 := _handle_reconnect c in
  let r2 := _handle_reconnect r1.1 in
  r1.2 <= r2.2 /\ r1.2 <= max_reconnect_delay c /\ r2.2 <= max_reconnect_delay c
  /\ (0 <= max_reconnect_delay c -> 0 <= r1.2).
Proof.
  intros Hd Hlt. cbv zeta. unfold _handle_reconnect, reconnect_wait.
  apply Z.ltb_lt in Hlt. rewrite Hlt.
  cbn [fst snd reconnect_resume reconnect_attempts set_reconnect_attempts
       max_reconnect_attempts reconnect_delay max_reconnect_delay].
  set (a := reconnect_attempts c).
  replace (Z.of_nat (S a) - 1) with (Z.of_nat a) by lia.
  assert (Hp : 0 < 2 ^ Z.of_nat a) by (apply Z.pow_pos_nonneg; lia).
  destruct (Z.of_nat (S a) <? max_reconnect_attempts c) eqn:E;
    cbn [fst snd reconnect_resume reconnect_attempts set_reconnect_attempts
         max_reconnect_attempts reconnect_delay max_reconnect_delay].
  - replace (Z.of_nat (S (S a)) - 1) with (Z.of_nat a + 1) by lia.
    rewrite Z.pow_add_r by lia. change (2 ^ 1) with 2.
    split_and!; nia.
  - split_and!; nia.
Qed.

(** X11.  The exponential backoff is entered only when a connect fails
    while the client is running.  A connection that is lost while
    reading (a clean end of the stream, [ConnectionClosed], any other
    read error) is retried after the fixed one-second pause, without
    backoff and without touching the attempt counter; on a clean end of
    the stream nothing in the client changes, [is_connected] included. *)
Theorem backoff_only_after_failed_connect (pc pc' : cm_pc) (inp : input)
    (c c' : Client) (evs : list event) :
  cm_resume gz pc inp c = Some (pc', c', evs) ->
  ((exists reset, pc' = CmBackoff reset) ->
     pc = CmConnecting /\ inp = ConnectFailed /\ is_running c = true)
  /\ (is_stream_loss inp = true ->
        pc' = CmPause /\ evs = [EvSleep one_second]
        /\ reconnect_attempts c' = reconnect_attempts c
        /\ (inp = StreamEnd -> c' = c)
        /\ (inp <> StreamEnd -> c' = set_is_connected false c)).
Proof.
  unfold cm_resume, cm_loop_head. intros H. split.
  - intros [reset ->].
    destruct pc, inp; try done;
      repeat (match type of H with
              | context [let '(_, _) := ?x in _] => destruct x as [? ?] eqn:?
              | context [if ?b then _ else _] => destruct b eqn:?
              | context [on_frame gz ?m ?n ?i c] =>
                  destruct (on_frame gz m n i c) as [[? ?]|]
              end; try done).
  - intros Hl. destruct inp; try done; destruct pc; try done;
      inversion H; subst; split_and!; done.
Qed.

End Reconnecting.

Lemma backoff_grows_until_capped_witness :
  0 <= reconnect_delay Demo.fresh
  /\ Z.of_nat (reconnect_attempts Demo.fresh) < max_reconnect_attempts Demo.fresh
  /\ (_handle_reconnect Demo.fresh).2
     <= (_handle_reconnect (_handle_reconnect Demo.fresh).1).2.
Proof.
  assert (H0 : 0 <= reconnect_delay Demo.fresh) by (vm_compute; discriminate).
  split; [exact H0|]. split; [reflexivity|].
  exact (proj1 (backoff_grows_until_capped Demo.fresh H0 eq_refl)).
Defined.

Lemma backoff_only_after_failed_connect_witness :
  cm_resume Sample.stored CmListening StreamEnd Sample.online
  = Some (CmPause, Sample.online, [EvSleep one_second])
  /\ is_stream_loss StreamEnd = true
  /\ reconnect_attempts Sample.online = reconnect_attempts Sample.online.
Proof.
  split; [reflexivity|]. split; [reflexivity|].
  destruct (proj2 (backoff_only_after_failed_connect Sample.stored CmListening
                     CmPause StreamEnd Sample.online Sample.online
                     [EvSleep one_second] eq_refl) eq_refl) as (_ & _ & H & _).
  exact H.
Defined.

Section LifeCycle.

Variable gz : list byte -> list byte.

Lemma same_refs_refl (c : Client) : same_refs c c.
Proof. done. Qed.

Lemma same_refs_trans (c c1 c2 : Client) :
  same_refs c c1 -> same_refs c1 c2 -> same_refs c c2.
Proof. unfold same_refs. intros [? ?] [? ?]. split; congruence. Qed.

Lemma same_refs_raw (m : DashboardMessage) (r : io_result) (c : Client) :
  same_refs c (_send_raw_message gz m r c).1.2.
Proof.
  destruct (raw_send_cases gz m r c) as [E|[(h & frame & E)|(h & E)]];
    by rewrite E.
Qed.

Lemma same_refs_send_worker_cycle (now : datetime) (r : io_result) (c : Client) :
  same_refs c (send_worker_cycle gz now r c).1.
Proof.
  unfold send_worker_cycle.
  destruct (is_connected c && negb (queue_empty (message_queue c))); [|done].
  rewrite collect_spec. cbn [app].
  set (c1 := set_message_queue _ c).
  destruct (take _ (message_queue c)) as [|m1 [|m2 rest]]; [done| |].
  - pose proof (same_refs_raw m1 r c1) as H.
    by destruct (_send_raw_message gz m1 r c1) as [[b c2] evs].
  - unfold _send_batch, _get_next_sequence_id. cbv zeta.
    match goal with
    | |- context [_send_raw_message gz ?m r ?c2] =>
        pose proof (same_refs_raw m r c2) as H;
        by destruct (_send_raw_message gz m r c2) as [[b c3] evs]
    end.
Qed.

Lemma same_refs_heartbeat_worker_cycle (now_iso now now' : datetime)
    (t0 t1 : Z) (r : io_result) (c : Client) :
  same_refs c (heartbeat_worker_cycle gz now_iso now now' t0 t1 r c).1.
Proof.
  unfold heartbeat_worker_cycle. destruct (is_connected c); [|done].
  unfold send_heartbeat, _get_next_sequence_id. cbv zeta.
  match goal with
  | |- context [_send_raw_message gz ?m r ?c2] =>
      pose proof (same_refs_raw m r c2) as H;
      by destruct (_send_raw_message gz m r c2) as [[b c3] evs]
  end.
Qed.

Lemma same_refs_on_frame (message : string) (now : datetime) (r : io_result)
    (c : Client) (res : Client * list event) :
  on_frame gz message now r c = Some res -> same_refs c res.1.
Proof.
  unfold on_frame.
  destruct (Json.loads message) as [data| |]; intros [= <-]; [|done].
  unfold _handle_incoming_message.
  destruct data as [| | | | |?|kvs|]; try done.
  cbv zeta.
  destruct (py_eq_str _ "ping").
  { unfold _send_pong.
    match goal with
    | |- context [_send_raw_message gz ?m r c] =>
        pose proof (same_refs_raw m r c) as H
    end.
    by destruct (_send_raw_message _ _ _ _) as [[? ?] ?]. }
  destruct (py_eq_str _ "config_update").
  { destruct (default _ (dict_get "config" kvs)); try done.
    cbn. by rewrite handle_config_update_frame. }
  destruct (py_eq_str _ "command"); [|done].
  unfold _handle_command.
  destruct (default _ (dict_get "command" kvs)) as [| | | | |?|cmd|]; try done.
  cbv zeta. by destruct (py_eq_str _ "get_status").
Qed.

Lemma same_refs_cm_resume (pc pc' : cm_pc) (inp : input) (c c' : Client)
    (evs : list event) :
  cm_resume gz pc inp c = Some (pc', c', evs) -> same_refs c c'.
Proof.
  unfold cm_resume, cm_loop_head.
  destruct pc, inp; try done; intros H.
  - by destruct (is_running c); inversion H; subst.
  - unfold connected, _send_handshake in H. cbv zeta in H.
    match type of H with
    | context [_send_raw_message gz ?m ?r ?c3] =>
        pose proof (same_refs_raw m r c3) as Hc;
        destruct (_send_raw_message gz m r c3) as [[b c4] evs4]
    end.
    cbn [fst snd] in *.
    by destruct (is_connected c4); inversion H; subst.
  - cbn [is_running set_is_connected] in H.
    destruct (is_running c); [|by inversion H; subst].
    unfold reconnect_wait in H.
    by destruct (_ <? _); inversion H; subst.
  - destruct (on_frame gz message (now_a w) (io w) c) as [res|] eqn:Ef; [|done].
    cbn in H. inversion H; subst. by eapply same_refs_on_frame.
  - by inversion H; subst.
  - by inversion H; subst.
  - by inversion H; subst.
  - inversion H; subst. by destruct reset.
  - by destruct (is_running c); inversion H; subst.
Qed.

(** Resuming a task keeps its kind and the two task references. *)
Lemma task_resume_kind (t t' : task) (inp : input) (c c' : Client)
    (evs : list event) :
  task_resume gz t inp c = Some (t', c', evs) ->
  same_refs c c' /\ task_kind t' = task_kind t
  /\ cancel_requested t' = cancel_requested t.
Proof.
  assert (Hw : forall cycle cancelled pc pc1 c1 evs1,
    (forall w c0, same_refs c0 (cycle w c0).1) ->
    worker_resume cycle cancelled pc inp c = Some (pc1, c1, evs1) ->
    same_refs c c1).
  { intros cycle cancelled pc pc1 c1 evs1 Hcycle. unfold worker_resume.
    destruct pc, inp; try done; intros H;
      (destruct cancelled; [by inversion H; subst|]);
      (destruct (is_running c); [|by inversion H; subst]);
      specialize (Hcycle w c); destruct (cycle w c) as [c2 evs2];
      by inversion H; subst. }
  unfold task_resume, task_kind. destruct (body t) as [pc|pc|pc]; intros H.
  - destruct (cm_resume gz pc inp c) as [[[pc1 c1] evs1]|] eqn:E; [|done].
    cbn in H. inversion H; subst. split; [by eapply same_refs_cm_resume|done].
  - destruct (worker_resume _ _ pc inp c) as [[[pc1 c1] evs1]|] eqn:E; [|done].
    cbn in H. inversion H; subst. split; [|done]. eapply Hw; [|exact E].
    intros w c0. unfold send_cycle. apply same_refs_send_worker_cycle.
  - destruct (worker_resume _ _ pc inp c) as [[[pc1 c1] evs1]|] eqn:E; [|done].
    cbn in H. inversion H; subst. split; [|done]. eapply Hw; [|exact E].
    intros w c0. unfold heartbeat_cycle. apply same_refs_heartbeat_worker_cycle.
Qed.

Lemma kind_cancel (t : task) : task_kind (cancel t) = task_kind t.
Proof. unfold cancel. by destruct (task_done t). Qed.

Lemma kind_cancel_task (ref : option nat) (ts : list task) (i : nat) :
  task_kind <$> (cancel_task ref ts !! i) = task_kind <$> (ts !! i).
Proof.
  destruct ref as [j|]; [|done]. cbn.
  destruct (decide (j = i)) as [->|Hne].
  - rewrite list_lookup_alter_eq.
    destruct (ts !! i); cbn; [|done].
    by rewrite kind_cancel.
  - by rewrite list_lookup_alter_ne.
Qed.

Lemma cancel_requested_cm (ref : option nat) (ts : list task) (i : nat) (t : task) :
  (forall j u, ref = Some j -> ts !! j = Some u -> task_kind u <> KConnectionManager) ->
  cancel_task ref ts !! i = Some t -> task_kind t = KConnectionManager ->
  ts !! i = Some t.
Proof.
  intros Href Hi Hk. destruct ref as [j|]; [|done]. cbn in Hi.
  destruct (decide (j = i)) as [->|Hne].
  - rewrite list_lookup_alter_eq in Hi.
    destruct (ts !! i) as [u|] eqn:E; [|done]. cbn in Hi.
    inversion Hi; subst. rewrite kind_cancel in Hk.
    by destruct (Href i u eq_refl E).
  - by rewrite list_lookup_alter_ne in Hi.
Qed.

(** The task references of the client name workers, and no connection
    manager has been asked to stop: kept by every step. *)
Lemma step_tasks_tidy (a : action) (s s' : System) (evs : list event) :
  step gz a s = Some (s', evs) -> tasks_tidy s -> tasks_tidy s'.
Proof.
  unfold tasks_tidy. intros H (Hs & Hh & Hc).
  destruct a; cbn [step] in H.
  - unfold start in H. destruct (is_running (client s)); inversion H; subst.
    { done. }
    cbn. split_and!.
    + intros i t [= <-]. rewrite lookup_app_r by lia.
      replace (S (length (tasks s)) - length (tasks s))%nat with 1%nat by lia.
      by intros [= <-].
    + intros i t [= <-]. rewrite lookup_app_r by lia.
      replace (S (S (length (tasks s))) - length (tasks s))%nat with 2%nat by lia.
      by intros [= <-].
    + intros i t Hi Hk. apply lookup_app_Some in Hi as [Hi|[_ Hi]].
      * by eapply Hc.
      * destruct (i - length (tasks s))%nat as [|[|[|n]]]; cbn in Hi;
          inversion Hi; subst; done.
  - assert (Hs' : forall i t, send_task (client s) = Some i ->
              cancel_task (heartbeat_task (client s))
                (cancel_task (send_task (client s)) (tasks s)) !! i = Some t ->
              task_kind t = KSendWorker).
    { intros i t Hi Ht.
      pose proof (kind_cancel_task (heartbeat_task (client s))
                    (cancel_task (send_task (client s)) (tasks s)) i) as K1.
      pose proof (kind_cancel_task (send_task (client s)) (tasks s) i) as K2.
      rewrite Ht, K2 in K1. cbn in K1.
      destruct (tasks s !! i) as [u|] eqn:E; [|done]. cbn in K1.
      inversion K1 as [K]. rewrite K. by eapply Hs. }
    assert (Hh' : forall i t, heartbeat_task (client s) = Some i ->
              cancel_task (heartbeat_task (client s))
                (cancel_task (send_task (client s)) (tasks s)) !! i = Some t ->
              task_kind t = KHeartbeatWorker).
    { intros i t Hi Ht.
      pose proof (kind_cancel_task (heartbeat_task (client s))
                    (cancel_task (send_task (client s)) (tasks s)) i) as K1.
      pose proof (kind_cancel_task (send_task (client s)) (tasks s) i) as K2.
      rewrite Ht, K2 in K1. cbn in K1.
      destruct (tasks s !! i) as [u|] eqn:E; [|done]. cbn in K1.
      inversion K1 as [K]. rewrite K. by eapply Hh. }
    assert (Hc' : forall i t,
              cancel_task (heartbeat_task (client s))
                (cancel_task (send_task (client s)) (tasks s)) !! i = Some t ->
              task_kind t = KConnectionManager -> cancel_requested t = false).
    { intros i t Ht Hk. eapply (Hc i).
      - eapply cancel_requested_cm; [| |exact Hk].
        + intros j u Hj Hu. rewrite (Hs j u Hj Hu). done.
        + eapply cancel_requested_cm; [|exact Ht|exact Hk].
          intros j u Hj Hu.
          pose proof (kind_cancel_task (send_task (client s)) (tasks s) j) as K.
          rewrite Hu in K. cbn in K.
          destruct (tasks s !! j) as [u'|] eqn:E; [|done]. cbn in K.
          inversion K as [K']. rewrite K', (Hh j u' Hj E). done.
      - done. }
    unfold stop in H. cbn in H.
    destruct (websocket (client s)); inversion H; subst; cbn; done.
  - unfold stop_resume in H. destruct (closing s); inversion H; subst. done.
  - unfold on_client in H. cbn in H. inversion H; subst. done.
  - unfold on_client in H. cbn in H. inversion H; subst. done.
  - unfold on_client in H. cbn in H. inversion H; subst. done.
  - unfold on_client in H. cbn in H. inversion H; subst. done.
  - destruct (tasks s !! i) as [t|] eqn:Et; [|done]. cbn in H.
    destruct (task_resume gz t inp (client s)) as [[[t' c'] evs']|] eqn:E; [|done].
    cbn in H. inversion H; subst. cbn.
    apply task_resume_kind in E as ([Es Eh] & Ek & Ec).
    assert (L : forall j u, <[i:=t']> (tasks s) !! j = Some u ->
              exists u', tasks s !! j = Some u' /\ task_kind u = task_kind u'
                         /\ cancel_requested u = cancel_requested u').
    { intros j u Hj. destruct (decide (i = j)) as [->|Hne].
      - rewrite list_lookup_insert_eq in Hj by (by eapply lookup_lt_Some).
        inversion Hj; subst. by exists t.
      - rewrite list_lookup_insert_ne in Hj by done. by exists u. }
    split_and!.
    + intros j u Hj Hu. destruct (L j u Hu) as (u' & Hu' & -> & _).
      eapply Hs; [|exact Hu']. congruence.
    + intros j u Hj Hu. destruct (L j u Hu) as (u' & Hu' & -> & _).
      eapply Hh; [|exact Hu']. congruence.
    + intros j u Hu Hk. destruct (L j u Hu) as (u' & Hu' & K & ->).
      eapply Hc; [exact Hu'|congruence].
Qed.

Lemma run_tasks_tidy (acts : list action) (s s' : System) (evs : list event) :
  run gz acts s = Some (s', evs) -> tasks_tidy s -> tasks_tidy s'.
Proof.
  revert s s' evs. induction acts as [|a acts IH]; intros s s' evs H Hs.
  - by inversion H; subst.
  - cbn [run] in H.
    destruct (step gz a s) as [[s1 evs1]|] eqn:E1; [|done]. cbn in H.
    destruct (run gz acts s1) as [[s2 evs2]|] eqn:E2; [|done]. cbn in H.
    inversion H; subst. eapply IH; [exact E2|]. by eapply step_tasks_tidy.
Qed.

Lemma live_cancel (t : task) :
  live_connection_manager (cancel t) = live_connection_manager t.
Proof.
  unfold cancel, live_connection_manager. by destruct (task_done t).
Qed.

Lemma live_filter_alter (i : nat) (ts : list task) :
  length (List.filter live_connection_manager (alter cancel i ts))
  = length (List.filter live_connection_manager ts).
Proof.
  revert i. induction ts as [|t ts IH]; intros i; [by destruct i|].
  destruct i as [|i]; cbn.
  - rewrite live_cancel. by destruct (live_connection_manager t).
  - destruct (live_connection_manager t); cbn; by rewrite IH.
Qed.

Lemma live_cancel_task (ref : option nat) (ts : list task) :
  length (List.filter live_connection_manager (cancel_task ref ts))
  = length (List.filter live_connection_manager ts).
Proof. destruct ref as [i|]; [|done]. cbn. apply live_filter_alter. Qed.

(** X12.  In every state the client reaches from one with no tasks,
    [send_task] and [heartbeat_task] name workers and no connection
    manager has a cancellation pending: nothing ever asks a connection
    manager to stop, it ends on its own when it sees [is_running]
    false.  [start()] on a running client does nothing, so calling it
    twice starts the tasks once.  On a stopped client it adds three new
    tasks and points the two references at the new workers.  [stop()]
    ends no connection manager, so a [stop()] followed at once by a
    [start()] leaves one more live connection manager than before. *)
Theorem start_adds_a_connection_manager (acts : list action) (s0 s : System)
    (evs : list event) :
  tasks s0 = [] ->
  run gz acts s0 = Some (s, evs) ->
  tasks_tidy s
  /\ start (start s).1 = ((start s).1, [])
  /\ (is_running (client s) = true -> start s = (s, []))
  /\ (is_running (client s) = false ->
        tasks (start s).1
        = tasks s ++ [ mk_task (ConnectionManager CmCreated) false;
                       mk_task (SendWorker WkCreated) false;
                       mk_task (HeartbeatWorker WkCreated) false ]
        /\ send_task (client (start s).1) = Some (S (length (tasks s)))
        /\ heartbeat_task (client (start s).1)
           = Some (S (S (length (tasks s)))))
  /\ live_connection_managers (stop s).1 = live_connection_managers s
  /\ live_connection_managers (start (stop s).1).1
     = S (live_connection_managers s).
Proof.
  intros H0 Hrun. split_and!.
  - eapply run_tasks_tidy; [exact Hrun|].
    unfold tasks_tidy. rewrite H0. by split_and!.
  - unfold start. destruct (is_running (client s)) eqn:E; cbn; by rewrite ?E.
  - unfold start. by intros ->.
  - unfold start. by intros ->.
  - unfold live_connection_managers, stop. cbn.
    destruct (websocket (client s)); cbn; by rewrite !live_cancel_task.
  - unfold live_connection_managers, start, stop. cbn.
    destruct (websocket (client s)); cbn;
      rewrite List.filter_app, length_app, !live_cancel_task; cbn; lia.
Qed.

(** X13.  The heartbeat worker does nothing but sleep while the client
    is disconnected: no envelope, no sequence id taken.  While it is
    connected, [last_heartbeat] is set to the time of the attempt
    whether the write succeeded or raised; a write that raised also
    clears [is_connected] and counts one failure. *)
Theorem heartbeat_stamps_every_attempt (now_iso now now' : datetime)
    (t0 t1 : Z) (r : io_result) (c : Client) (h : handle) :
  (is_connected c = false ->
     heartbeat_worker_cycle gz now_iso now now' t0 t1 r c
     = (c, [EvSleep heartbeat_period]))
  /\ (is_connected c = true -> websocket c = Some h ->
      let res := heartbeat_worker_cycle gz now_iso now now' t0 t1 r c in
      last_heartbeat (stats res.1) = Some now'
      /\ sequence_id res.1 = sequence_id c + 1
      /\ (r = IoError ->
          is_connected res.1 = false
          /\ messages_failed (stats res.1) = messages_failed (stats c) + 1
          /\ messages_sent (stats res.1) = messages_sent (stats c))
      /\ (r = IoOk ->
          is_connected res.1 = true
          /\ messages_sent (stats res.1) = messages_sent (stats c) + 1)).
Proof.
  unfold heartbeat_worker_cycle. split.
  - by intros ->.
  - intros Hc Hw. rewrite Hc. cbv zeta.
    unfold send_heartbeat, _get_next_sequence_id, _send_raw_message. cbn.
    rewrite Hc, Hw. destruct r; cbn; split_and!; try done.
Qed.

(** X14.  When [websockets.connect] returns, the client keeps the new
    handle, counts one more reconnection and hands exactly one envelope
    to that socket, the handshake, before anything else.  If the
    handshake is written, the attempt counter goes back to 0 and the
    connection manager starts reading.  If the write raises, the client
    is disconnected again with one failure counted, the attempt counter
    is left as it was and the connection manager retries after the
    one-second pause, without backoff. *)
Theorem connect_sends_one_handshake (h : handle) (w : world) (c : Client) :
  exists pc' c' evs,
    cm_resume gz CmConnecting (ConnectOk h w) c = Some (pc', c', evs)
    /\ websocket c' = Some h
    /\ reconnections (stats c') = reconnections (stats c) + 1
    /\ map Msg.message_type (sent_envelopes evs) = ["handshake"]
    /\ map Msg.sequence_id (sent_envelopes evs) = [0]
    /\ sequence_id c' = sequence_id c
    /\ message_queue c' = message_queue c
    /\ (io w = IoOk ->
        pc' = CmListening /\ is_connected c' = true
        /\ reconnect_attempts c' = 0%nat)
    /\ (io w = IoError ->
        pc' = CmPause /\ is_connected c' = false
        /\ reconnect_attempts c' = reconnect_attempts c
        /\ messages_failed (stats c') = messages_failed (stats c) + 1).
Proof.
  unfold cm_resume, connected, _send_handshake, _send_raw_message. cbn.
  destruct (io w); cbn; do 3 eexists; (split; [reflexivity|]); cbn;
    split_and!; done.
Qed.

Lemma publish_step (a : action) (s : System) :
  is_publish a = true ->
  exists m,
    step gz a s
    = Some (mk_system
              (set_message_queue (message_queue (client s) ++ [m])
                 (set_sequence_id (sequence_id (client s) + 1) (client s)))
              (tasks s) (closing s),
            [EvQueued m])
    /\ Msg.sequence_id m = sequence_id (client s) + 1.
Proof.
  destruct a; try done; intros _; cbn; eexists; split; reflexivity.
Qed.

(** X15.  The four publishing calls never fail, never write to the
    socket and never drop anything, whether the client is connected,
    running or neither: a run of [n] such calls always goes through,
    puts exactly [n] envelopes at the end of the queue in call order,
    moves the sequence counter by [n] and leaves the connection state
    and the statistics alone.  The queue has no bound. *)
Theorem publishing_only_queues (acts : list action) (s : System) :
  forallb is_publish acts = true ->
  exists s' evs,
    run gz acts s = Some (s', evs)
    /\ message_queue (client s')
       = message_queue (client s) ++ queued_envelopes evs
    /\ length (queued_envelopes evs) = length acts
    /\ sequence_id (client s') = sequence_id (client s) + Z.of_nat (length acts)
    /\ sent_envelopes evs = []
    /\ is_connected (client s') = is_connected (client s)
    /\ websocket (client s') = websocket (client s)
    /\ stats (client s') = stats (client s)
    /\ tasks s' = tasks s.
Proof.
  revert s. induction acts as [|a acts IH]; intros s Hall.
  - exists s, []. cbn. rewrite app_nil_r. split_and!; try done. lia.
  - cbn [forallb] in Hall. apply andb_prop in Hall as [Ha Hall].
    destruct (publish_step a s Ha) as (m & Hstep & Hid).
    cbn [run]. rewrite Hstep. cbn [mbind option_bind fst snd].
    destruct (IH (mk_system
                    (set_message_queue (message_queue (client s) ++ [m])
                       (set_sequence_id (sequence_id (client s) + 1) (client s)))
                    (tasks s) (closing s)) Hall)
      as (s' & evs & -> & Hq & Hn & Hs & He & Hc & Hw & Hst & Ht).
    exists s', ([EvQueued m] ++ evs). cbn in *.
    split_and!; try done.
    + rewrite Hq. by rewrite <- app_assoc.
    + unfold queued_envelopes in Hn. by rewrite Hn.
    + rewrite Hs. lia.
Qed.

End LifeCycle.

Lemma start_adds_a_connection_manager_witness :
  tasks Demo.idle = []
  /\ (exists s evs,
        run Sample.stored [Start; Stop; Start] Demo.idle = Some (s, evs)
        /\ live_connection_managers s = 2%nat
        /\ tasks_tidy s
        /\ live_connection_managers (start (stop s).1).1 = 3%nat).
Proof.
  split; [reflexivity|].
  eexists _, _. split; [reflexivity|]. split; [reflexivity|].
  destruct (start_adds_a_connection_manager Sample.stored [Start; Stop; Start]
              Demo.idle _ _ eq_refl eq_refl) as (Ht & _ & _ & _ & _ & H2).
  split; [exact Ht | exact H2].
Defined.

Lemma heartbeat_stamps_every_attempt_witness :
  is_connected Sample.online = true /\ websocket Sample.online = Some 7%nat
  /\ last_heartbeat
       (stats (heartbeat_worker_cycle Sample.stored Sample.noon Sample.noon
                 Sample.noon 0 0 IoError Sample.online).1)
     = Some Sample.noon.
Proof.
  split; [reflexivity|]. split; [reflexivity|].
  exact (proj1 (proj2 (heartbeat_stamps_every_attempt Sample.stored Sample.noon
                         Sample.noon Sample.noon 0 0 IoError Sample.online 7%nat)
                  eq_refl eq_refl)).
Defined.

Lemma connect_sends_one_handshake_witness :
  io Sample.world_ok = IoOk
  /\ exists pc' c' evs,
       cm_resume Sample.stored CmConnecting (ConnectOk 7%nat Sample.world_ok)
         Demo.fresh = Some (pc', c', evs)
       /\ pc' = CmListening.
Proof.
  split; [reflexivity|].
  destruct (connect_sends_one_handshake Sample.stored 7%nat Sample.world_ok
              Demo.fresh) as (pc' & c' & evs & E & _ & _ & _ & _ & _ & _ & Hok & _).
  exists pc', c', evs. split; [exact E|]. exact (proj1 (Hok eq_refl)).
Defined.

Lemma publishing_only_queues_witness :
  let acts := [ Portfolio (Sample.portfolio 1) Sample.noon;
                Status Sample.noon;
                Risk (PyDict []) Sample.noon ] in
  forallb is_publish acts = true
  /\ exists s' evs,
       run Sample.stored acts Demo.idle = Some (s', evs)
       /\ length (message_queue (client s')) = 3%nat.
Proof.
  cbv zeta. split; [reflexivity|].
  destruct (publishing_only_queues Sample.stored
              [ Portfolio (Sample.portfolio 1) Sample.noon;
                Status Sample.noon;
                Risk (PyDict []) Sample.noon ] Demo.idle eq_refl)
    as (s' & evs & E & Hq & Hn & _).
  exists s', evs. split; [exact E|].
  rewrite Hq, length_app, Hn. reflexivity.
Defined.

Section FrameSize.

Variable gz : list byte -> list byte.

Lemma string_length_app (a b : string) :
  String.length (a ++ b) = (String.length a + String.length b)%nat.
Proof. induction a as [|x a IH]; cbn; [done | by rewrite IH]. Qed.

Lemma marker_text_length (encoded : string) :
  Z.of_nat (String.length (marker_text encoded))
  = 32 + Z.of_nat (String.length encoded).
Proof.
  unfold marker_text.
  cbn [String.length append]. rewrite string_length_app. cbn [String.length]. lia.
Qed.

Lemma b64encode_length (bs : list byte) :
  Z.of_nat (String.length (Bytes.b64encode bs))
  = 4 * ((Z.of_nat (length bs) + 2) / 3).
Proof.
  assert (H : forall n bs, (length bs <= n)%nat ->
    Z.of_nat (String.length (Bytes.b64encode bs))
    = 4 * ((Z.of_nat (length bs) + 2) / 3)).
  { clear bs. induction n as [n IH] using lt_wf_ind. intros bs Hn.
    destruct bs as [|a [|b [|c rest]]]; try reflexivity.
    cbn [Bytes.b64encode String.length length].
    rewrite !Nat2Z.inj_succ, (IH (length rest)) by (cbn in Hn; lia).
    replace (Z.succ (Z.succ (Z.succ (Z.of_nat (length rest)))) + 2)
      with (Z.of_nat (length rest) + 2 + 1 * 3) by lia.
    rewrite Z.div_add by lia. lia. }
  by apply (H (length bs)).
Qed.

(** X16.  [bytes_sent] counts the characters of the text handed to
    [websocket.send], not the bytes of the envelope.  With compression
    off that text is the JSON of the envelope.  With compression on it
    is the marker object around the base64 of the compressed bytes:
    for [n] compressed bytes the counter grows by
    [32 + 4 * ceil(n / 3)]: by 32 when the compressed text is empty,
    and never by less than [32 + 4 n / 3]. *)
Theorem bytes_sent_counts_frame_text (m : DashboardMessage) (c : Client)
    (h : handle) :
  is_connected c = true -> websocket c = Some h ->
  let text := Json.dumps (asdict c m) in
  let n := Z.of_nat (length (gz (Bytes.encode_utf8 text))) in
  let res := _send_raw_message gz m IoOk c in
  exists frame,
    res.2 = [EvWrite h m frame]
    /\ bytes_sent (stats res.1.2)
       = bytes_sent (stats c) + Z.of_nat (String.length frame)
    /\ (compress_data c = false -> frame = text)
    /\ (compress_data c = true ->
        frame = marker_text (Bytes.b64encode (gz (Bytes.encode_utf8 text)))
        /\ Z.of_nat (String.length frame) = 32 + 4 * ((n + 2) / 3)
        /\ 3 * (Z.of_nat (String.length frame) - 32) >= 4 * n).
Proof.
  intros Hc Hw text n res. subst res. unfold _send_raw_message.
  rewrite Hc, Hw. cbv zeta. eexists. split; [reflexivity|].
  split; [reflexivity|]. unfold wire_frame. split.
  - by intros ->.
  - intros ->. cbv zeta.
    change (PyDict [("compressed", PyBool true); ("data", PyStr ?e)])
      with (marker_object e).
    rewrite dumps_marker by apply plain_b64encode.
    split; [reflexivity|].
    rewrite marker_text_length, b64encode_length. fold text. fold n.
    split; [reflexivity|].
    pose proof (Z.div_mod (n + 2) 3 ltac:(lia)) as D.
    pose proof (Z.mod_pos_bound (n + 2) 3 ltac:(lia)) as B. lia.
Qed.

End FrameSize.

Lemma bytes_sent_counts_frame_text_witness :
  is_connected Sample.online = true /\ websocket Sample.online = Some 7%nat
  /\ exists frame,
       (_send_raw_message Sample.stored (Sample.envelope) IoOk Sample.online).2
       = [EvWrite 7%nat Sample.envelope frame].
Proof.
  split; [reflexivity|]. split; [reflexivity|].
  destruct (bytes_sent_counts_frame_text Sample.stored Sample.envelope
              Sample.online 7%nat eq_refl eq_refl) as (frame & E & _).
  exists frame. exact E.
Defined.

(** * The publisher *)

Section Slices.

Context {A : Type}.

Lemma py_slice_from_length (k : Z) (l : list A) :
  Z.of_nat (length (py_slice_from k l))
  = if k <? 0 then Z.min (Z.of_nat (length l)) (- k)
    else Z.max (Z.of_nat (length l) - k) 0.
Proof.
  unfold py_slice_from. rewrite length_drop.
  destruct (Z.ltb_spec k 0); lia.
Qed.

Lemma py_slice_from_zero (l : list A) : py_slice_from 0 l = l.
Proof. unfold py_slice_from. cbn. by rewrite Z.min_l by lia. Qed.

Lemma py_slice_from_suffix (k : Z) (l : list A) : py_slice_from k l `suffix_of` l.
Proof. unfold py_slice_from. apply suffix_drop. Qed.

(** A negative bound keeps the newest items. *)
Lemma py_slice_from_app (k : Z) (old recent : list A) :
  k < 0 -> Z.of_nat (length recent) = - k ->
  py_slice_from k (old ++ recent) = recent.
Proof.
  intros Hk Hr. unfold py_slice_from.
  destruct (Z.ltb_spec k 0); [|lia]. rewrite length_app.
  replace (Z.to_nat _) with (length old) by lia.
  by rewrite drop_app_length.
Qed.

Lemma py_slice_from_last (k : Z) (l : list A) (x : A) :
  k < 0 -> last (py_slice_from k (l ++ [x])) = Some x.
Proof.
  intros Hk. unfold py_slice_from.
  destruct (Z.ltb_spec k 0); [|lia].
  rewrite length_app. cbn [length].
  set (n := Z.to_nat _). assert (Hn : (n <= length l)%nat) by lia.
  rewrite drop_app_le by done. by rewrite last_snoc.
Qed.

End Slices.

Section SignalCache.

(** What one well-formed call does to the cache. *)
Lemma cleanup_cache (p : Pub.t) :
  Pub.signal_cache (_cleanup_signal_cache p)
  = (if Z.of_nat (length (Pub.signal_cache p))
        >? PublisherConfig.max_history_length (Pub.config p)
     then py_slice_from (- PublisherConfig.max_history_length (Pub.config p) / 2)
            (Pub.signal_cache p)
     else Pub.signal_cache p)
  /\ Pub.config (_cleanup_signal_cache p) = Pub.config p.
Proof. unfold _cleanup_signal_cache. cbv zeta. by destruct (_ >? _). Qed.

Lemma publish_trade_signal_malformed (d s : pyval) (now now_q : datetime)
    (p : Pub.t) (c : Client) :
  format_signal d s now = None ->
  publish_trade_signal d s now now_q p c = (p, c, []).
Proof. unfold publish_trade_signal. by intros ->. Qed.

Lemma publish_trade_signal_formed (d s f : pyval) (now now_q : datetime)
    (p : Pub.t) (c : Client) :
  format_signal d s now = Some f ->
  exists p' m,
    publish_trade_signal d s now now_q p c
    = (p', set_message_queue (message_queue c ++ [m])
             (set_sequence_id (sequence_id c + 1) c), [EvQueued m])
    /\ m = Msg.mk "trade_signal" (dt_isoformat now_q) (Data f) (system_id c)
             (sequence_id c + 1)
    /\ Pub.config p' = Pub.config p
    /\ Pub.signal_cache p'
       = (if PublisherConfig.batch_signals (Pub.config p) then
            Pub.signal_cache
              (_cleanup_signal_cache
                 (Pub.set_signal_cache (Pub.signal_cache p ++ [f]) p))
          else Pub.signal_cache p).
Proof.
  unfold publish_trade_signal. intros ->. cbn.
  eexists _, _. split; [reflexivity|]. split; [reflexivity|].
  destruct (PublisherConfig.batch_signals (Pub.config p)); [|done].
  split; [|done]. exact (proj2 (cleanup_cache _)).
Qed.

Lemma format_signal_is_dict (d s : pyval) (now : datetime) :
  format_signal d s now = None <-> is_dict d = false.
Proof. unfold format_signal. destruct d; cbn; split; done. Qed.

Lemma trim_suffix {A} (M : Z) (l : list A) :
  (if Z.of_nat (length l) >? M then py_slice_from (- M / 2) l else l)
  `suffix_of` l.
Proof. destruct (_ >? _); [apply py_slice_from_suffix | done]. Qed.

Lemma trim_last {A} (M : Z) (l : list A) (x : A) :
  1 <= M ->
  last (if Z.of_nat (length (l ++ [x])) >? M
        then py_slice_from (- M / 2) (l ++ [x]) else l ++ [x]) = Some x.
Proof.
  intros HM. destruct (_ >? _); [|by rewrite last_snoc].
  apply py_slice_from_last. apply Z.div_lt_upper_bound; lia.
Qed.

Lemma trim_length {A} (M : Z) (l : list A) :
  1 <= M ->
  Z.of_nat (length l) <= M + 1 ->
  Z.of_nat (length (if Z.of_nat (length l) >? M
                    then py_slice_from (- M / 2) l else l)) <= M.
Proof.
  intros HM Hl. destruct (Z.gtb_spec (Z.of_nat (length l)) M); [|done].
  rewrite py_slice_from_length.
  assert (Hneg : - M / 2 < 0) by (apply Z.div_lt_upper_bound; lia).
  destruct (Z.ltb_spec (- M / 2) 0); [|lia].
  pose proof (Z.div_mod (- M) 2 ltac:(lia)) as D.
  pose proof (Z.mod_pos_bound (- M) 2 ltac:(lia)) as B. lia.
Qed.

Lemma trim_none {A} (M : Z) (l : list A) :
  -1 <= M <= 0 ->
  (if Z.of_nat (length l) >? M then py_slice_from (- M / 2) l else l) = l.
Proof.
  intros HM. destruct (_ >? _); [|done].
  assert (- M / 2 = 0) as ->.
  { assert (M = 0 \/ M = -1) as [-> | ->] by lia; reflexivity. }
  apply py_slice_from_zero.
Qed.

(** X17.  A series of [publish_trade_signal] calls.  Each call whose
    signal is a dictionary queues one [trade_signal] envelope, in call
    order and with consecutive sequence ids; a call whose signal is
    anything else leaves no trace in the client or the publisher.
    With [batch_signals] the cache always holds the most recent
    well-formed signals, newest last.  For [max_history_length >= 1] it
    never holds more than that many and always ends with the newest
    one; for [max_history_length] 0 or -1 the test [len > max] passes
    but the slice then starts at 0, so the cache is never trimmed. *)
Theorem signal_cache_keeps_recent (calls : list signal_call) (p : Pub.t)
    (c : Client) :
  let M := PublisherConfig.max_history_length (Pub.config p) in
  let batch := PublisherConfig.batch_signals (Pub.config p) in
  let res := publish_signals calls p c in
  let goods := omap formatted calls in
  omap payload (queued_envelopes res.2) = goods
  /\ map Msg.sequence_id (queued_envelopes res.2)
     = map (fun i => sequence_id c + 1 + Z.of_nat i) (seq 0 (length goods))
  /\ message_queue res.1.2 = message_queue c ++ queued_envelopes res.2
  /\ Pub.config res.1.1 = Pub.config p
  /\ (batch = false -> Pub.signal_cache res.1.1 = Pub.signal_cache p)
  /\ (batch = true ->
        Pub.signal_cache res.1.1 `suffix_of` (Pub.signal_cache p ++ goods)
        /\ (1 <= M -> Z.of_nat (length (Pub.signal_cache p)) <= M ->
              Z.of_nat (length (Pub.signal_cache res.1.1)) <= M)
        /\ (1 <= M ->
              last (Pub.signal_cache res.1.1)
              = last (Pub.signal_cache p ++ goods))
        /\ (-1 <= M <= 0 ->
              Pub.signal_cache res.1.1 = Pub.signal_cache p ++ goods)).
Proof.
  revert p c. induction calls as [|k calls IH]; intros p c; cbv zeta.
  { cbn. rewrite !app_nil_r. by split_and!. }
  cbn [publish_signals omap list_omap].
  destruct (formatted k) as [f|] eqn:Ef; unfold formatted in Ef.
  - destruct (publish_trade_signal_formed _ _ f _ (call_now_q k) p c Ef)
      as (p1 & m & -> & Hm & Hcfg & Hcache).
    set (c1 := set_message_queue _ _).
    specialize (IH p1 c1). cbv zeta in IH.
    destruct (publish_signals calls p1 c1) as [[p2 c2] evs2].
    cbn [fst snd] in *.
    destruct IH as (I1 & I2 & I3 & I4 & I5 & I6).
    rewrite Hcfg in *.
    assert (Hpay : payload m = Some f) by (by rewrite Hm).
    assert (Hid : Msg.sequence_id m = sequence_id c + 1) by (by rewrite Hm).
    change (queued_envelopes ([EvQueued m] ++ evs2))
      with (m :: queued_envelopes evs2).
    split_and!.
    + cbn [omap list_omap]. rewrite Hpay. by rewrite <- I1.
    + cbn [map length seq]. rewrite Hid, I2. f_equal; [lia|].
      rewrite <- seq_shift, map_map. apply map_ext. intros i. subst c1. cbn. lia.
    + rewrite I3. subst c1. cbn [message_queue set_message_queue].
      by rewrite <- app_assoc.
    + done.
    + intros Hb. rewrite I5 by done. by rewrite Hcache, Hb.
    + intros Hb. rewrite Hb in Hcache.
      rewrite (proj1 (cleanup_cache _)) in Hcache.
      cbn [Pub.signal_cache Pub.config Pub.set_signal_cache] in Hcache.
      destruct (I6 Hb) as (J1 & J2 & J3 & J4).
      set (M := PublisherConfig.max_history_length (Pub.config p)) in *.
      change (f :: omap formatted calls) with ([f] ++ omap formatted calls).
      rewrite (app_assoc (Pub.signal_cache p) [f]).
      split_and!.
      * etrans; [exact J1|]. apply suffix_app. rewrite Hcache. apply trim_suffix.
      * intros HM Hp. apply J2; [done|]. rewrite Hcache.
        apply trim_length; [done|]. rewrite length_app. cbn. lia.
      * intros HM. rewrite J3 by done.
        rewrite (last_app (Pub.signal_cache p1)), (last_app (_ ++ [f])).
        destruct (last (omap formatted calls)); [done|].
        rewrite Hcache, last_snoc. by apply trim_last.
      * intros HM. rewrite J4 by done. f_equal. rewrite Hcache.
        by apply trim_none.
  - rewrite publish_trade_signal_malformed by done.
    specialize (IH p c). cbv zeta in IH.
    destruct (publish_signals calls p c) as [[p2 c2] evs2]. cbn [fst snd] in *.
    exact IH.
Qed.

End SignalCache.

Lemma signal_cache_keeps_recent_witness :
  PublisherConfig.batch_signals DemoPub.small = true
  /\ 1 <= PublisherConfig.max_history_length DemoPub.small
  /\ Z.of_nat (length (Pub.signal_cache
                         (publish_signals DemoPub.calls
                            (Pub.init (Some DemoPub.small)) Demo.fresh).1.1))
     <= 3.
Proof.
  split; [reflexivity|]. split; [cbn; lia|].
  destruct (signal_cache_keeps_recent DemoPub.calls
              (Pub.init (Some DemoPub.small)) Demo.fresh)
    as (_ & _ & _ & _ & _ & H).
  destruct (H eq_refl) as (_ & Hlen & _).
  apply Hlen; cbn; lia.
Defined.

Section PublisherCalls.

(** X18.  [publish_trade_signal] on one signal.  A signal that is not a
    dictionary raises inside the [try] and the call does nothing: no
    envelope, no sequence id taken, no cache entry.  Otherwise exactly
    one [trade_signal] envelope is queued; its payload has the nine
    keys in a fixed order, holds the signal itself under [signal] and,
    for each copied field, the value of the signal or the default.
    The strategy is the name given unless that name is falsy ([None],
    the empty string, 0, ...), in which case it is ['unknown']. *)
Theorem trade_signal_payload (d s : pyval) (now now_q : datetime)
    (p : Pub.t) (c : Client) :
  let res := publish_trade_signal d s now now_q p c in
  (is_dict d = false -> res = (p, c, []))
  /\ (is_dict d = true ->
      exists f m,
        res.2 = [EvQueued m]
        /\ Msg.message_type m = "trade_signal"
        /\ Msg.sequence_id m = sequence_id c + 1
        /\ Msg.timestamp m = dt_isoformat now_q
        /\ payload m = Some f
        /\ py_keys f = signal_keys
        /\ py_get f "timestamp" PyNone = Some (PyStr (dt_isoformat now))
        /\ py_get f "signal" PyNone = Some d
        /\ py_get f "strategy" PyNone
           = Some (if py_truthy s then s else PyStr "unknown")
        /\ (forall k dflt, (k, dflt) ∈ signal_defaults ->
              py_get f k PyNone = py_get d k dflt)).
Proof.
  cbv zeta. split.
  - intros Hd. apply publish_trade_signal_malformed.
    by apply format_signal_is_dict.
  - intros Hd. destruct d as [| | | | | |kvs|]; try done.
    unfold publish_trade_signal, format_signal, py_get. cbn [mbind option_bind].
    eexists _, _. cbn [snd]. split; [reflexivity|].
    cbn [Msg.message_type Msg.sequence_id Msg.timestamp payload Msg.data].
    split_and!; try reflexivity.
    intros k dflt Hk. unfold signal_defaults in Hk.
    repeat (apply elem_of_cons in Hk as [[= -> ->]|Hk]; [reflexivity|]).
    by apply elem_of_nil in Hk.
Qed.

Lemma history_add_facts (M : Z) (x : pyval) (old : list pyval) :
  history_add M x old `suffix_of` old ++ [x]
  /\ (1 <= M ->
        last (history_add M x old) = Some x
        /\ Z.of_nat (length (history_add M x old))
           = Z.min (Z.of_nat (length old) + 1) M)
  /\ (M = 0 -> history_add M x old = old ++ [x]).
Proof.
  unfold history_add. cbv zeta. split_and!.
  - destruct (_ >? _); [apply py_slice_from_suffix | done].
  - intros HM. split.
    + destruct (_ >? _); [|by rewrite last_snoc].
      apply py_slice_from_last. lia.
    + destruct (Z.gtb_spec (Z.of_nat (length (old ++ [x]))) M) as [H|H];
        rewrite ?py_slice_from_length; rewrite length_app in *; cbn in *.
      * destruct (Z.ltb_spec (- M) 0); lia.
      * lia.
  - intros ->. destruct (_ >? _); [|done]. apply py_slice_from_zero.
Qed.

(** X19.  [publish_model_performance].  Performance data that is not a
    dictionary: nothing happens.  Otherwise the entry is added to the
    history of that model only, and one envelope of type
    [portfolio_update] (there is no type of its own) is queued with the
    entry under [model_performance].  For [max_history_length >= 1] a
    history ends with the newest entry and holds at most that many:
    one entry is dropped at a time, where the signal cache is halved.
    For [max_history_length = 0] the slice [[-0:]] is the whole list
    and the history only grows. *)
Theorem model_history_bounded (model_name : string) (d : pyval)
    (now now_q : datetime) (p : Pub.t) (c : Client) :
  let M := PublisherConfig.max_history_length (Pub.config p) in
  let old := default [] (dict_get model_name (Pub.performance_history p)) in
  let res := publish_model_performance model_name d now now_q p c in
  (is_dict d = false -> res = (p, c, []))
  /\ (is_dict d = true ->
      exists perf m entries,
        format_model_performance model_name d now = Some perf
        /\ res.2 = [EvQueued m]
        /\ Msg.message_type m = "portfolio_update"
        /\ Msg.sequence_id m = sequence_id c + 1
        /\ payload m = Some (PyDict [("model_performance", perf)])
        /\ dict_get model_name (Pub.performance_history res.1.1) = Some entries
        /\ entries `suffix_of` old ++ [perf]
        /\ (1 <= M -> last entries = Some perf
                      /\ Z.of_nat (length entries)
                         = Z.min (Z.of_nat (length old) + 1) M)
        /\ (M = 0 -> entries = old ++ [perf])
        /\ (forall other, other <> model_name ->
              dict_get other (Pub.performance_history res.1.1)
              = dict_get other (Pub.performance_history p))
        /\ Pub.signal_cache res.1.1 = Pub.signal_cache p
        /\ Pub.config res.1.1 = Pub.config p).
Proof.
  cbv zeta. split.
  - intros Hd. unfold publish_model_performance, format_model_performance.
    by destruct d.
  - intros Hd. destruct d as [| | | | | |kvs|]; try done.
    unfold publish_model_performance.
    destruct (format_model_performance model_name (PyDict kvs) now)
      as [perf|] eqn:Ef; [|done].
    cbv zeta. cbn [send_portfolio_data send_queued _get_next_sequence_id enqueue
                   fst snd Pub.performance_history Pub.set_performance_history
                   Pub.signal_cache Pub.config].
    set (h := Pub.performance_history p).
    set (h1 := if dict_mem model_name h then h else dict_set model_name [] h).
    assert (H1 : default [] (dict_get model_name h1)
                 = default [] (dict_get model_name h)).
    { subst h1. unfold dict_mem.
      destruct (dict_get model_name h) eqn:E; cbv beta iota;
        [by rewrite E | by rewrite dict_get_set_eq]. }
    assert (H2 : forall other, other <> model_name ->
                   dict_get other h1 = dict_get other h).
    { intros other Hne. subst h1. destruct (dict_mem model_name h); [done|].
      by apply dict_get_set_ne. }
    eexists perf, _, _. split; [reflexivity|]. split; [reflexivity|].
    split; [reflexivity|]. split; [reflexivity|]. split; [reflexivity|].
    split; [apply dict_get_set_eq|]. rewrite H1.
    destruct (history_add_facts
                (PublisherConfig.max_history_length (Pub.config p)) perf
                (default [] (dict_get model_name h))) as (F1 & F2 & F3).
    split_and!; try done.
    intros other Hne. rewrite dict_get_set_ne by done. by apply H2.
Qed.

Lemma format_trade_idem (t t' : pyval) :
  format_trade t = Some t' ->
  format_trade t' = Some t' /\ py_keys t' = trade_keys.
Proof.
  destruct t; try done. unfold format_trade, py_get. cbn [mbind option_bind].
  intros [= <-]. split; reflexivity.
Qed.

Lemma format_all_length (f : pyval -> option pyval) (l l' : list pyval) :
  format_all f l = Some l' -> length l' = length l.
Proof.
  revert l'. induction l as [|x l IH]; intros l'; cbn; [by intros [= <-]|].
  destruct (f x); [|done]. cbn. destruct (format_all f l); [|done]. cbn.
  intros [= <-]. cbn. by rewrite (IH _ eq_refl).
Qed.

Lemma format_all_total (f : pyval -> option pyval) (l : list pyval) :
  (forall x, is_dict x = true -> is_Some (f x)) ->
  forallb is_dict l = true -> is_Some (format_all f l).
Proof.
  intros Hf. induction l as [|x l IH]; cbn; [by eexists|].
  intros [Hx Hl]%andb_prop. destruct (Hf x Hx) as [y ->]. cbn.
  destruct (IH Hl) as [r ->]. by eexists.
Qed.

Lemma format_all_fails (f : pyval -> option pyval) (l : list pyval) :
  (forall x, is_dict x = false -> f x = None) ->
  forallb is_dict l = false -> format_all f l = None.
Proof.
  intros Hf. induction l as [|x l IH]; cbn; [done|].
  destruct (is_dict x) eqn:Ex; cbn.
  - intros Hl. rewrite (IH Hl). by destruct (f x).
  - intros _. by rewrite (Hf x Ex).
Qed.

Lemma format_trade_dict (x : pyval) :
  (is_dict x = true -> is_Some (format_trade x))
  /\ (is_dict x = false -> format_trade x = None).
Proof. destruct x; cbn; split; try done; intros _; by eexists. Qed.

(** X20.  [_format_recent_trades] on a list.  If every trade is a
    dictionary the result has one entry per trade, in order, each with
    the same ten keys, and formatting the result again changes
    nothing.  One trade that is not a dictionary makes the whole call
    raise.  A dictionary passed in place of the list is iterated by
    its keys, which are strings: the call raises unless it is empty. *)
Theorem format_recent_trades_idempotent (l : list pyval) :
  (forallb is_dict l = true ->
     exists l',
       _format_recent_trades (PyList l) = Some l'
       /\ length l' = length l
       /\ Forall (fun t => py_keys t = trade_keys) l'
       /\ _format_recent_trades (PyList l') = Some l')
  /\ (forallb is_dict l = false -> _format_recent_trades (PyList l) = None)
  /\ _format_recent_trades (PyDict []) = Some []
  /\ (forall kv kvs, _format_recent_trades (PyDict (kv :: kvs)) = None).
Proof.
  split_and!.
  - intros Hl. unfold _format_recent_trades. cbn [py_iter mbind option_bind].
    destruct (format_all_total format_trade l
                (fun x => proj1 (format_trade_dict x)) Hl) as [l' E].
    exists l'. split; [exact E|]. split; [by eapply format_all_length|].
    clear Hl. revert l' E. induction l as [|x l IH]; intros l'; cbn.
    { by intros [= <-]. }
    destruct (format_trade x) as [y|] eqn:Ey; [|done]. cbn.
    destruct (format_all format_trade l) as [r|]; [|done]. cbn.
    intros [= <-]. destruct (IH r eq_refl) as [IH1 IH2].
    destruct (format_trade_idem x y Ey) as [Hy Hk].
    split; [by constructor|]. cbn. rewrite Hy. cbn. by rewrite IH2.
  - intros Hl. unfold _format_recent_trades. cbn [py_iter mbind option_bind].
    apply format_all_fails; [|done]. intros x. apply format_trade_dict.
  - reflexivity.
  - intros [k v] kvs. reflexivity.
Qed.

Lemma format_point_dict (x : pyval) :
  (is_dict x = true -> is_Some (format_point x))
  /\ (is_dict x = false -> format_point x = None).
Proof. destruct x; cbn; split; try done; intros _; by eexists. Qed.

(** X21.  [_get_equity_curve_data] never raises and never returns more
    than 100 points.  Only the last 100 points of the curve are looked
    at: whatever comes before them has no effect.  If these are all
    dictionaries, each gives one point; if one of them is not, or the
    curve is not a list, or the tracker raised, the result is the
    empty list. *)
Theorem equity_curve_last_hundred (l : list pyval) :
  (forall g, (length (_get_equity_curve_data g) <= 100)%nat)
  /\ _get_equity_curve_data None = []
  /\ (forall old recent, length recent = 100%nat ->
        _get_equity_curve_data (Some (PyList (old ++ recent)))
        = _get_equity_curve_data (Some (PyList recent)))
  /\ (forallb is_dict (py_slice_from (-100) l) = true ->
        Z.of_nat (length (_get_equity_curve_data (Some (PyList l))))
        = Z.min (Z.of_nat (length l)) 100)
  /\ (forallb is_dict (py_slice_from (-100) l) = false ->
        _get_equity_curve_data (Some (PyList l)) = []).
Proof.
  split_and!.
  - intros g. unfold _get_equity_curve_data.
    destruct g as [e|]; cbn; [|lia].
    destruct (last_hundred e) as [pts|] eqn:E; cbn; [|lia].
    assert (Hpts : (length pts <= 100)%nat).
    { destruct e; try done; cbn in E; inversion E; subst;
        rewrite ?length_map;
        match goal with
        | |- (length (py_slice_from ?k ?x) <= _)%nat =>
            pose proof (py_slice_from_length k x) as H
        end;
        cbn in H; lia. }
    destruct (format_all format_point pts) as [r|] eqn:Er; cbn; [|lia].
    by rewrite (format_all_length _ _ _ Er).
  - reflexivity.
  - intros old recent Hr. unfold _get_equity_curve_data.
    cbn [mbind option_bind last_hundred].
    rewrite (py_slice_from_app (-100) old recent) by lia.
    change recent with ([] ++ recent) at 2.
    by rewrite (py_slice_from_app (-100) [] recent) by lia.
  - intros Hl. unfold _get_equity_curve_data. cbn [mbind option_bind last_hundred].
    destruct (format_all_total format_point _
                (fun x => proj1 (format_point_dict x)) Hl) as [r E].
    rewrite E. cbn. rewrite (format_all_length _ _ _ E), py_slice_from_length.
    cbn. lia.
  - intros Hl. unfold _get_equity_curve_data. cbn [mbind option_bind last_hundred].
    rewrite format_all_fails; [done| |done]. intros x. apply format_point_dict.
Qed.

(** X22.  [_get_risk_metrics] gives either the empty dictionary, when a
    method of the adjuster raised, or the six metrics in a fixed
    order.  Four of the six are never computed: they are 0 whatever
    the adjuster is. *)
Theorem risk_metrics_all_or_nothing (ra : RiskAdjuster) :
  (_get_risk_metrics ra = PyDict []
   <-> calculate_var ra = Some None \/ get_portfolio_concentration ra = Some None)
  /\ (_get_risk_metrics ra <> PyDict [] ->
        py_keys (_get_risk_metrics ra) = risk_keys
        /\ (forall k, k ∈ fixed_risk_keys ->
              py_get (_get_risk_metrics ra) k PyNone = Some (PyInt 0))
        /\ py_get (_get_risk_metrics ra) "var_95" PyNone
           = Some (match calculate_var ra with
                   | Some (Some v) => v
                   | _ => PyInt 0
                   end)
        /\ py_get (_get_risk_metrics ra) "position_concentration" PyNone
           = Some (match get_portfolio_concentration ra with
                   | Some (Some v) => v
                   | _ => PyInt 0
                   end)).
Proof.
  destruct ra as [[[v|]|] [[w|]|]]; cbn; (split; [split|]); try done;
    try (intros [?|?]; done); try (by left); try (by right);
    intros _; split_and!; try reflexivity;
    intros k Hk; unfold fixed_risk_keys in Hk;
    repeat (apply elem_of_cons in Hk as [->|Hk]; [reflexivity|]);
    by apply elem_of_nil in Hk.
Qed.

End PublisherCalls.

Section Portfolio.

Lemma format_positions_length (i : nat) (clock : nat -> datetime)
    (items : list (string * pyval)) (l : list pyval) :
  format_positions_from i clock items = Some l -> length l = length items.
Proof.
  revert i l. induction items as [|[k v] items IH]; intros i l; cbn.
  { by intros [= <-]. }
  destruct (format_position k v (clock i)); [|done]. cbn.
  destruct (format_positions_from (S i) clock items) eqn:E; [|done]. cbn.
  intros [= <-]. cbn. by rewrite (IH _ _ E).
Qed.

Lemma format_positions_total (i : nat) (clock : nat -> datetime)
    (items : list (string * pyval)) :
  forallb (fun kv => is_dict kv.2) items = true ->
  is_Some (format_positions_from i clock items).
Proof.
  revert i. induction items as [|[k v] items IH]; intros i; cbn; [by eexists|].
  intros [Hv Hl]%andb_prop. destruct v; try done. cbn.
  destruct (IH (S i) Hl) as [r ->]. by eexists.
Qed.

(** The payload is the fixed part, with the risk metrics added last
    when an adjuster is given. *)
Lemma portfolio_payload_risk (e : TradingEngine) (ra : RiskAdjuster)
    (now : datetime) (clock : nat -> datetime) :
  portfolio_payload e (Some ra) now clock
  = match portfolio_payload e None now clock with
    | Some (PyDict kvs) => Some (PyDict (kvs ++ [("risk", _get_risk_metrics ra)]))
    | _ => None
    end.
Proof.
  unfold portfolio_payload.
  repeat (match goal with
          | |- context [mbind _ ?x] => destruct x; cbn [mbind option_bind]
          end; try reflexivity).
Qed.

Lemma portfolio_payload_inv (e : TradingEngine) (now : datetime)
    (clock : nat -> datetime) (d : pyval) :
  portfolio_payload e None now clock = Some d ->
  exists sm items fps trades fts,
    get_portfolio_summary e = Some (PyDict sm)
    /\ default (PyDict []) (dict_get "positions" sm) = PyDict items
    /\ format_positions_from 0 clock items = Some fps
    /\ get_recent_trades e = Some trades
    /\ _format_recent_trades trades = Some fts
    /\ py_keys d = [ "timestamp"; "portfolio"; "performance"; "positions";
                     "recent_trades"; "equity_curve" ]
    /\ py_get d "positions" PyNone = Some (PyList fps)
    /\ py_get d "recent_trades" PyNone = Some (PyList fts)
    /\ py_get d "equity_curve" PyNone
       = Some (PyList (_get_equity_curve_data (get_equity_curve e)))
    /\ position_count d = Some (PyInt (Z.of_nat (length items))).
Proof.
  unfold portfolio_payload.
  destruct (get_portfolio_summary e) as [[| | | | | |sm|]|];
    cbn [mbind option_bind py_get];
    try (by destruct (get_performance_summary e)).
  destruct (get_performance_summary e) as [[| | | | | |pm|]|];
    cbn [mbind option_bind py_get];
    try (by destruct (py_len (default (PyDict []) (dict_get "positions" sm)))).
  destruct (default (PyDict []) (dict_get "positions" sm))
    as [| | | | | |items|] eqn:Ep; try done;
    cbn [mbind option_bind py_len _format_positions]; try done.
  destruct (format_positions_from 0 clock items) as [fps|] eqn:Ef; [|done].
  cbn [mbind option_bind].
  destruct (get_recent_trades e) as [trades|]; [|done].
  cbn [mbind option_bind].
  destruct (_format_recent_trades trades) as [fts|] eqn:Et; [|done].
  cbn [mbind option_bind]. intros [= <-].
  exists sm, items, fps, trades, fts. split_and!; try done.
Qed.

(** X23.  [publish_portfolio_data] is all or nothing.  If anything
    raises while the payload is built, neither the client nor the
    publisher changes and [last_portfolio_update] keeps its value.
    Otherwise one [portfolio_update] envelope is queued and
    [last_portfolio_update] is set.  In the payload [position_count]
    is the number of entries under [positions].  The equity curve and
    the risk adjuster cannot make the call fail: a tracker that raises
    gives an empty curve, and the adjuster only adds a [risk] entry
    after the six others.  When both summaries are dictionaries, every
    position is one and the recent trades are a list of dictionaries,
    the call succeeds. *)
Theorem portfolio_publish_all_or_nothing (e : TradingEngine)
    (ra : option RiskAdjuster) (now : datetime) (clock : nat -> datetime)
    (now_q now_last : datetime) (p : Pub.t) (c : Client) :
  let res := publish_portfolio_data e ra now clock now_q now_last p c in
  (portfolio_payload e ra now clock = None -> res = (p, c, []))
  /\ (forall d, portfolio_payload e ra now clock = Some d ->
        exists m positions,
          res.2 = [EvQueued m]
          /\ Msg.message_type m = "portfolio_update"
          /\ Msg.sequence_id m = sequence_id c + 1
          /\ payload m = Some d
          /\ Pub.last_portfolio_update res.1.1 = Some now_last
          /\ Pub.signal_cache res.1.1 = Pub.signal_cache p
          /\ py_get d "positions" PyNone = Some (PyList positions)
          /\ position_count d = Some (PyInt (Z.of_nat (length positions))))
  /\ (portfolio_payload e ra now clock = None
      <-> portfolio_payload e None now clock = None)
  /\ portfolio_payload (with_equity_curve None e) ra now clock
     = portfolio_payload (with_equity_curve (Some (PyList [])) e) ra now clock
  /\ (engine_ok e = true -> is_Some (portfolio_payload e ra now clock)).
Proof.
  cbv zeta. split_and!.
  - unfold publish_portfolio_data. by intros ->.
  - intros d Hd. unfold publish_portfolio_data. rewrite Hd.
    cbn [send_portfolio_data send_queued _get_next_sequence_id enqueue fst snd].
    assert (Hpos : exists positions,
              py_get d "positions" PyNone = Some (PyList positions)
              /\ position_count d = Some (PyInt (Z.of_nat (length positions)))).
    { destruct ra as [ra|].
      - rewrite portfolio_payload_risk in Hd.
        destruct (portfolio_payload e None now clock) as [d0|] eqn:E0; [|done].
        destruct (portfolio_payload_inv e now clock d0 E0)
          as (sm & items & fps & trades & fts & _ & _ & Hf & _ & _ & Hk & H1 & _ & _ & H2).
        destruct d0 as [| | | | | |kvs|]; try done. inversion Hd; subst d.
        exists fps. rewrite (format_positions_length _ _ _ _ Hf).
        cbn [py_keys] in Hk.
        destruct kvs as [|[k1 v1] [|[k2 v2] [|[k3 v3] [|[k4 v4] [|[k5 v5]
                        [|[k6 v6] [|]]]]]]];
          first [ done
                | cbn in Hk; inversion Hk; subst; split; [exact H1 | exact H2] ].
      - destruct (portfolio_payload_inv e now clock d Hd)
          as (sm & items & fps & trades & fts & _ & _ & Hf & _ & _ & _ & H1 & _ & _ & H2).
        exists fps. by rewrite (format_positions_length _ _ _ _ Hf). }
    destruct Hpos as (positions & P1 & P2).
    eexists _, positions. split; [reflexivity|]. by split_and!.
  - destruct ra as [ra|]; [|done]. rewrite portfolio_payload_risk.
    split.
    + destruct (portfolio_payload e None now clock) as [d0|] eqn:E0; [|done].
      destruct (portfolio_payload_inv e now clock d0 E0)
        as (_ & _ & _ & _ & _ & _ & _ & _ & _ & _ & Hk & _).
      by destruct d0.
    + by intros ->.
  - reflexivity.
  - unfold engine_ok.
    destruct (get_portfolio_summary e) as [[| | | | | |sm|]|] eqn:E1; try done.
    destruct (get_performance_summary e) as [[| | | | | |pm|]|] eqn:E2; try done.
    destruct (get_recent_trades e) as [[| | | | |trades| |]|] eqn:E3; try done.
    destruct (default (PyDict []) (dict_get "positions" sm))
      as [| | | | | |items|] eqn:Ep; try done.
    intros [Hi Ht]%andb_prop.
    assert (H0 : is_Some (portfolio_payload e None now clock)).
    { unfold portfolio_payload. rewrite E1, E2, E3.
      cbn [mbind option_bind py_get]. rewrite Ep.
      cbn [mbind option_bind py_len _format_positions].
      destruct (format_positions_total 0 clock items Hi) as [fps ->].
      cbn [mbind option_bind].
      destruct (format_all_total format_trade trades
                  (fun x => proj1 (format_trade_dict x)) Ht) as [fts Hf].
      unfold _format_recent_trades. cbn [py_iter mbind option_bind].
      rewrite Hf. cbn [mbind option_bind]. by eexists. }
    destruct ra as [ra|]; [|done]. rewrite portfolio_payload_risk.
    destruct H0 as [d0 E0]. rewrite E0.
    destruct (portfolio_payload_inv e now clock d0 E0)
      as (_ & _ & _ & _ & _ & _ & _ & _ & _ & _ & Hk & _).
    by destruct d0.
Qed.

Lemma recent_alerts_spec (fromisoformat : string -> option Z) (cutoff : Z)
    (alerts : list pyval) :
  (forallb (readable fromisoformat) alerts = true ->
     recent_alerts fromisoformat cutoff alerts
     = Some (List.filter (is_recent fromisoformat cutoff) alerts))
  /\ (forallb (readable fromisoformat) alerts = false ->
        recent_alerts fromisoformat cutoff alerts = None).
Proof.
  induction alerts as [|a alerts [IH1 IH2]]; [by split|].
  cbn [forallb recent_alerts List.filter]. unfold readable at 1 3, is_recent.
  destruct (alert_instant fromisoformat a) as [t|]; cbn [andb mbind option_bind];
    [|by split].
  split.
  - intros H. rewrite (IH1 H). cbn. by destruct (t >? cutoff).
  - intros H. by rewrite (IH2 H).
Qed.

Lemma cleanup_risk_alerts_config (fromisoformat : string -> option Z)
    (now_us : Z) (p : Pub.t) :
  Pub.config (default p (_cleanup_risk_alerts fromisoformat now_us p))
  = Pub.config p.
Proof.
  unfold _cleanup_risk_alerts.
  by destruct (recent_alerts fromisoformat _ _).
Qed.

(** X24.  Seen from the client, each of the five [publish_*] methods
    of the publisher is either nothing or one of the client's own
    publishing calls: the trade
    signal goes through [send_trade_signal], the risk alert through
    [send_risk_alert], the portfolio and the model performance through
    [send_portfolio_data], the system metrics through
    [send_system_status].  So what holds for every run of the client
    holds when the publisher drives it.  A call never writes to the
    socket and queues at most one envelope; none changes the
    configuration of the publisher, and only [publish_risk_alert]
    changes [risk_alerts].  [publish_system_metrics] builds a
    dictionary from its argument and then sends a plain status: the
    envelope does not depend on the metrics, and the publisher is left
    as it was. *)
Theorem publisher_calls_are_client_actions (gz : list byte -> list byte)
    (fromisoformat : string -> option Z) (k : pub_call) (now_q : datetime)
    (p : Pub.t) (s : System) :
  let res := pub_step fromisoformat k now_q p (client s) in
  (res = (p, client s, [])
   \/ exists a,
        is_publish a = true
        /\ step gz a s = Some (mk_system res.1.2 (tasks s) (closing s), res.2)
        /\ (exists m, res.2 = [EvQueued m]
                      /\ Msg.message_type m ∈ publisher_types))
  /\ Pub.config res.1.1 = Pub.config p
  /\ (is_risk_alert_call k = false ->
      Pub.risk_alerts res.1.1 = Pub.risk_alerts p)
  /\ (forall metrics now metrics' now',
        k = CallMetrics metrics now ->
        res = pub_step fromisoformat (CallMetrics metrics' now') now_q p (client s)
        /\ res.1.1 = p
        /\ exists m status connection,
             res.2 = [EvQueued m]
             /\ Msg.data m = StatusData status connection).
Proof.
  cbv zeta.
  destruct k as [d sn now|t msg sv d now epoch now_us|name d now|d now
                |e ra now clock now_last];
    cbn [pub_step is_risk_alert_call].
  - split_and!; [| | |done].
    + unfold publish_trade_signal.
      destruct (format_signal d sn now) as [f|]; [|by left]. right.
      exists (Signal f now_q). split; [done|]. split; [reflexivity|].
      eexists. split; [reflexivity|]. unfold publisher_types. cbn.
      repeat (apply elem_of_cons; first [by left | right]).
    + unfold publish_trade_signal.
      destruct (format_signal d sn now) as [f|]; [|done]. cbn.
      destruct (PublisherConfig.batch_signals (Pub.config p)); [|done].
      exact (proj2 (cleanup_cache _)).
    + intros _. unfold publish_trade_signal.
      destruct (format_signal d sn now) as [f|]; [|done]. cbn.
      destruct (PublisherConfig.batch_signals (Pub.config p)); [|done].
      unfold _cleanup_signal_cache. cbv zeta. by destruct (_ >? _).
  - split_and!; [| |done|done].
    + unfold publish_risk_alert.
      destruct sv as [| | | |sev| | |]; try (by left). right.
      eexists (Risk _ now_q). split; [done|]. split; [reflexivity|].
      eexists. split; [reflexivity|]. unfold publisher_types. cbn.
      repeat (apply elem_of_cons; first [by left | right]).
    + unfold publish_risk_alert.
      destruct sv as [| | | |sev| | |]; try done.
      cbn [send_risk_alert send_queued _get_next_sequence_id enqueue fst snd].
      by rewrite cleanup_risk_alerts_config.
  - split_and!; [| | |done].
    + unfold publish_model_performance.
      destruct (format_model_performance name d now) as [f|]; [|by left]. right.
      exists (Portfolio (PyDict [("model_performance", f)]) now_q).
      split; [done|]. split; [reflexivity|].
      eexists. split; [reflexivity|]. unfold publisher_types. cbn.
      repeat (apply elem_of_cons; first [by left | right]).
    + unfold publish_model_performance.
      by destruct (format_model_performance name d now).
    + intros _. unfold publish_model_performance.
      by destruct (format_model_performance name d now).
  - split_and!; [| done | done |].
    + right. exists (Status now_q). split; [done|]. split; [reflexivity|].
      eexists. split; [reflexivity|]. unfold publisher_types. cbn.
      repeat (apply elem_of_cons; first [by left | right]).
    + intros metrics now0 metrics' now' _. split; [reflexivity|].
      split; [reflexivity|]. by eexists _, _, _.
  - split_and!; [| | |done].
    + unfold publish_portfolio_data.
      destruct (portfolio_payload e ra now clock) as [f|]; [|by left]. right.
      exists (Portfolio f now_q). split; [done|]. split; [reflexivity|].
      eexists. split; [reflexivity|]. unfold publisher_types. cbn.
      repeat (apply elem_of_cons; first [by left | right]).
    + unfold publish_portfolio_data.
      by destruct (portfolio_payload e ra now clock).
    + intros _. unfold publish_portfolio_data.
      by destruct (portfolio_payload e ra now clock).
Qed.

(** X28.  [publish_risk_alert].  A severity that is not a string
    raises inside the [try] and the call does nothing.  Otherwise
    exactly one [risk_alert] envelope is queued; its payload has six
    keys in a fixed order, the severity in lower case, an empty
    dictionary for falsy data and the alert id made of the type and the
    epoch second.  The alert is then cached and the cache cleaned: if
    the timestamp of every cached alert can be read, the cache keeps,
    in order, the alerts younger than 24 hours at the time of the
    cleanup, and the alert just published is among them only if its own
    timestamp is; if one timestamp cannot be read, the cleanup raises
    after the alert was sent and cached, and nothing is removed. *)
Theorem risk_alert_is_cached (fromisoformat : string -> option Z)
    (alert_type : string) (message severity data : pyval) (now : datetime)
    (epoch : Z) (now_q : datetime) (now_us : Z) (p : Pub.t) (c : Client) :
  let res := publish_risk_alert fromisoformat alert_type message severity data
               now epoch now_q now_us p c in
  (is_str severity = false -> res = (p, c, []))
  /\ (forall sev, severity = PyStr sev ->
      exists alert m,
        res.2 = [EvQueued m]
        /\ Msg.message_type m = "risk_alert"
        /\ Msg.sequence_id m = sequence_id c + 1
        /\ payload m = Some alert
        /\ py_keys alert = alert_keys
        /\ py_get alert "timestamp" PyNone = Some (PyStr (dt_isoformat now))
        /\ py_get alert "type" PyNone = Some (PyStr alert_type)
        /\ py_get alert "message" PyNone = Some message
        /\ py_get alert "severity" PyNone = Some (PyStr (py_lower sev))
        /\ py_get alert "data" PyNone
           = Some (if py_truthy data then data else PyDict [])
        /\ py_get alert "alert_id" PyNone
           = Some (PyStr (alert_type ++ "_" ++ Json.dumps_int epoch)%string)
        /\ (forallb (readable fromisoformat) (Pub.risk_alerts p ++ [alert]) = true ->
            Pub.risk_alerts res.1.1
            = List.filter (is_recent fromisoformat (now_us - one_day))
                (Pub.risk_alerts p ++ [alert]))
        /\ (forallb (readable fromisoformat) (Pub.risk_alerts p ++ [alert]) = false ->
            Pub.risk_alerts res.1.1 = Pub.risk_alerts p ++ [alert])
        /\ Pub.signal_cache res.1.1 = Pub.signal_cache p).
Proof.
  cbv zeta. split.
  - intros Hs. unfold publish_risk_alert. by destruct severity.
  - intros sev ->. unfold publish_risk_alert.
    cbn [send_risk_alert send_queued _get_next_sequence_id enqueue fst snd].
    eexists _, _. split; [reflexivity|].
    cbn [Msg.message_type Msg.sequence_id payload Msg.data].
    split; [reflexivity|]. split; [reflexivity|]. split; [reflexivity|].
    split; [reflexivity|]. split; [reflexivity|]. split; [reflexivity|].
    split; [reflexivity|]. split; [reflexivity|]. split; [reflexivity|].
    split; [reflexivity|].
    unfold _cleanup_risk_alerts.
    cbn [Pub.risk_alerts Pub.set_risk_alerts].
    match goal with
    | |- context [recent_alerts fromisoformat ?cut ?l] =>
        destruct (recent_alerts_spec fromisoformat cut l) as [R1 R2]
    end.
    split_and!.
    + intros H. by rewrite (R1 H).
    + intros H. by rewrite (R2 H).
    + by match goal with
         | |- context [recent_alerts fromisoformat ?cut ?l] =>
             destruct (recent_alerts fromisoformat cut l)
         end.
Qed.

End Portfolio.

Lemma trade_signal_payload_witness :
  is_dict (call_signal DemoPub.broken) = false
  /\ publish_trade_signal (call_signal DemoPub.broken) PyNone Sample.noon
       Sample.noon (Pub.init None) Demo.fresh
     = (Pub.init None, Demo.fresh, []).
Proof.
  split; [reflexivity|].
  exact (proj1 (trade_signal_payload (call_signal DemoPub.broken) PyNone
                  Sample.noon Sample.noon (Pub.init None) Demo.fresh) eq_refl).
Defined.

Lemma model_history_bounded_witness :
  is_dict (PyDict [("accuracy", PyFloat "0.9")]) = true
  /\ exists perf m entries,
       format_model_performance "lstm" (PyDict [("accuracy", PyFloat "0.9")])
         Sample.noon = Some perf
       /\ (publish_model_performance "lstm" (PyDict [("accuracy", PyFloat "0.9")])
             Sample.noon Sample.noon (Pub.init (Some DemoPub.small)) Demo.fresh).2
          = [EvQueued m]
       /\ Msg.message_type m = "portfolio_update"
       /\ entries `suffix_of` [] ++ [perf].
Proof.
  split; [reflexivity|].
  destruct (proj2 (model_history_bounded "lstm"
                     (PyDict [("accuracy", PyFloat "0.9")]) Sample.noon
                     Sample.noon (Pub.init (Some DemoPub.small)) Demo.fresh)
              eq_refl)
    as (perf & m & entries & H1 & H2 & H3 & _ & _ & _ & H4 & _).
  exists perf, m, entries. split; [exact H1|]. split; [exact H2|].
  split; [exact H3 | exact H4].
Defined.

Lemma format_recent_trades_idempotent_witness :
  forallb is_dict [DemoPub.trade 1; DemoPub.trade 2] = true
  /\ exists l',
       _format_recent_trades (PyList [DemoPub.trade 1; DemoPub.trade 2]) = Some l'
       /\ _format_recent_trades (PyList l') = Some l'.
Proof.
  split; [reflexivity|].
  destruct (proj1 (format_recent_trades_idempotent
                     [DemoPub.trade 1; DemoPub.trade 2]) eq_refl)
    as (l' & H1 & _ & _ & H2).
  exists l'. split; [exact H1 | exact H2].
Defined.

Lemma equity_curve_last_hundred_witness :
  forallb is_dict (py_slice_from (-100) [DemoPub.point 1; PyNone]) = false
  /\ _get_equity_curve_data (Some (PyList [DemoPub.point 1; PyNone])) = [].
Proof.
  split; [reflexivity|].
  destruct (equity_curve_last_hundred [DemoPub.point 1; PyNone])
    as (_ & _ & _ & _ & H).
  exact (H eq_refl).
Defined.

Lemma risk_metrics_all_or_nothing_witness :
  _get_risk_metrics DemoPub.adjuster <> PyDict []
  /\ py_keys (_get_risk_metrics DemoPub.adjuster) = risk_keys.
Proof.
  assert (H : _get_risk_metrics DemoPub.adjuster <> PyDict []) by discriminate.
  split; [exact H|].
  exact (proj1 (proj2 (risk_metrics_all_or_nothing DemoPub.adjuster) H)).
Defined.

Lemma portfolio_publish_all_or_nothing_witness :
  engine_ok DemoPub.engine = true
  /\ is_Some (portfolio_payload DemoPub.engine (Some DemoPub.adjuster)
                Sample.noon (fun _ => Sample.noon)).
Proof.
  split; [reflexivity|].
  destruct (portfolio_publish_all_or_nothing DemoPub.engine
              (Some DemoPub.adjuster) Sample.noon (fun _ => Sample.noon)
              Sample.noon Sample.noon (Pub.init None) Demo.fresh)
    as (_ & _ & _ & _ & H).
  exact (H eq_refl).
Defined.

Lemma publisher_calls_are_client_actions_witness :
  CallMetrics (PyInt 1) Sample.noon = CallMetrics (PyInt 1) Sample.noon
  /\ pub_step DemoPub.parse (CallMetrics (PyInt 1) Sample.noon) Sample.noon
       (Pub.init None) (client Demo.idle)
     = pub_step DemoPub.parse (CallMetrics (PyDict []) Sample.noon) Sample.noon
         (Pub.init None) (client Demo.idle).
Proof.
  split; [reflexivity|].
  destruct (publisher_calls_are_client_actions Sample.stored DemoPub.parse
              (CallMetrics (PyInt 1) Sample.noon) Sample.noon (Pub.init None)
              Demo.idle) as (_ & _ & _ & H).
  exact (proj1 (H (PyInt 1) Sample.noon (PyDict []) Sample.noon eq_refl)).
Defined.

Lemma risk_alert_is_cached_witness :
  is_str PyNone = false
  /\ publish_risk_alert DemoPub.parse "drawdown" (PyStr "limit hit") PyNone
       PyNone Sample.noon 1735732800 Sample.noon 1000 (Pub.init None) Demo.fresh
     = (Pub.init None, Demo.fresh, [])
  /\ exists alert m,
       (publish_risk_alert DemoPub.parse "drawdown" (PyStr "limit hit")
          (PyStr "HIGH") PyNone Sample.noon 1735732800 Sample.noon 1000
          (Pub.init None) Demo.fresh).2 = [EvQueued m]
       /\ payload m = Some alert
       /\ py_get alert "severity" PyNone = Some (PyStr (py_lower "HIGH")).
Proof.
  split; [reflexivity|]. split.
  - exact (proj1 (risk_alert_is_cached DemoPub.parse "drawdown"
                    (PyStr "limit hit") PyNone PyNone Sample.noon 1735732800
                    Sample.noon 1000 (Pub.init None) Demo.fresh) eq_refl).
  - destruct (proj2 (risk_alert_is_cached DemoPub.parse "drawdown"
                       (PyStr "limit hit") (PyStr "HIGH") PyNone Sample.noon
                       1735732800 Sample.noon 1000 (Pub.init None) Demo.fresh)
                "HIGH" eq_refl)
      as (alert & m & E & _ & _ & Hp & _ & _ & _ & _ & Hs & _).
    exists alert, m. split; [exact E|]. split; [exact Hp | exact Hs].
Defined.

(** * The configuration *)

Section Configuration.

(** X25.  [load_dashboard_config_from_dict] raises exactly when the
    [dashboard] entry, or one of the four sections under it, is there
    but is not a dictionary; no value is checked otherwise.  Loading
    the dictionary of [get_default_dashboard_config] gives the defaults
    of the dataclass.  Without a [dashboard] entry every field gets the
    dataclass default except the url, for which the loader has a
    default of its own.  The [enabled] key is never read: changing it
    changes nothing in the loaded configuration. *)
Theorem load_config_sections (top ds : list (string * pyval)) (v : pyval)
    (config_dict : pyval) :
  (load_dashboard_config_from_dict config_dict = None
   <-> sections_ok config_dict = false)
  /\ load_dashboard_config_from_dict get_default_dashboard_config
     = Some DashboardConfig.default
  /\ (dict_get "dashboard" top = None ->
        load_dashboard_config_from_dict (PyDict top)
        = Some (DashboardConfig.set_dashboard_url
                  (PyStr "wss://localhost:8080/ws/trading")
                  DashboardConfig.default))
  /\ load_dashboard_config_from_dict
       (PyDict (dict_set "dashboard" (PyDict (dict_set "enabled" v ds)) top))
     = load_dashboard_config_from_dict
         (PyDict (dict_set "dashboard" (PyDict ds) top)).
Proof.
  split_and!.
  - unfold load_dashboard_config_from_dict, sections_ok.
    destruct config_dict as [| | | | | |kvs|]; try done.
    cbn [py_get mbind option_bind].
    destruct (default (PyDict []) (dict_get "dashboard" kvs))
      as [| | | | | |sec|]; try done.
    cbn [py_get mbind option_bind section_names forallb].
    destruct (default (PyDict []) (dict_get "connection" sec));
      cbn [py_get mbind option_bind is_dict andb]; try done.
    destruct (default (PyDict []) (dict_get "publishing" sec));
      cbn [py_get mbind option_bind is_dict andb]; try done.
    destruct (default (PyDict []) (dict_get "data_types" sec));
      cbn [py_get mbind option_bind is_dict andb]; try done.
    destruct (default (PyDict []) (dict_get "logging" sec));
      cbn [py_get mbind option_bind is_dict andb]; done.
  - reflexivity.
  - intros H. unfold load_dashboard_config_from_dict.
    cbn [py_get mbind option_bind]. rewrite H. reflexivity.
  - unfold load_dashboard_config_from_dict. cbn [py_get mbind option_bind].
    rewrite !dict_get_set_eq. cbn -[dict_get dict_set].
    by rewrite !(dict_get_set_ne "enabled") by done.
Qed.

Lemma lower_char_idem (c : ascii) : lower_char (lower_char c) = lower_char c.
Proof. by destruct c as [[] [] [] [] [] [] [] []]. Qed.

Lemma py_lower_idem (s : string) : py_lower (py_lower s) = py_lower s.
Proof.
  induction s as [|c s IH]; [done|]. cbn. by rewrite lower_char_idem, IH.
Qed.

(** X26.  [get_config_for_environment] always returns one of the three
    dictionaries.  The name is compared after [lower()], so its case
    does not matter, and every name that is neither [production] nor
    [testing] gives the development configuration.  Each of the three
    loads without error; in all of them compression is on and the
    history length is 1000, and SSL verification is on in production
    only.  None of them can be handed to the client as it is: the
    client reads [config['dashboard_url']] at the top level, where
    these dictionaries only have [dashboard]. *)
Theorem environment_configs_load (environment : string) :
  get_config_for_environment environment ∈ environments
  /\ get_config_for_environment (py_lower environment)
     = get_config_for_environment environment
  /\ (get_config_for_environment environment = PRODUCTION_CONFIG
      <-> py_lower environment = "production")
  /\ (py_lower environment <> "production" ->
      py_lower environment <> "testing" ->
      get_config_for_environment environment = DEVELOPMENT_CONFIG)
  /\ (exists cfg,
        load_dashboard_config_from_dict (get_config_for_environment environment)
        = Some cfg
        /\ DashboardConfig.compress_data cfg = PyBool true
        /\ DashboardConfig.max_history_length cfg = PyInt 1000
        /\ (DashboardConfig.verify_ssl cfg = PyBool true
            <-> py_lower environment = "production"))
  /\ (exists kvs,
        get_config_for_environment environment = PyDict kvs
        /\ init kvs = InitKeyError).
Proof.
  unfold get_config_for_environment. rewrite py_lower_idem.
  destruct (String.eqb_spec (py_lower environment) "production") as [E1|E1];
    [|destruct (String.eqb_spec (py_lower environment) "testing") as [E2|E2]].
  - split_and!; try done.
    + unfold environments. repeat (apply elem_of_cons; first [by left | right]).
    + eexists. split; [reflexivity|]. by split_and!.
    + by eexists.
  - split_and!; try done.
    + unfold environments. repeat (apply elem_of_cons; first [by left | right]).
    + eexists. split; [reflexivity|]. by split_and!.
    + by eexists.
  - split_and!; try done.
    + unfold environments. repeat (apply elem_of_cons; first [by left | right]).
    + eexists. split; [reflexivity|]. by split_and!.
    + by eexists.
Qed.

End Configuration.

Lemma load_config_sections_witness :
  dict_get "dashboard" [("other", PyInt 1)] = None
  /\ load_dashboard_config_from_dict (PyDict [("other", PyInt 1)])
     = Some (DashboardConfig.set_dashboard_url
               (PyStr "wss://localhost:8080/ws/trading") DashboardConfig.default).
Proof.
  split; [reflexivity|].
  destruct (load_config_sections [("other", PyInt 1)] [] PyNone PyNone)
    as (_ & _ & H & _).
  exact (H eq_refl).
Defined.

Lemma environment_configs_load_witness :
  py_lower "Staging" <> "production" /\ py_lower "Staging" <> "testing"
  /\ get_config_for_environment "Staging" = DEVELOPMENT_CONFIG.
Proof.
  assert (H1 : py_lower "Staging" <> "production") by discriminate.
  assert (H2 : py_lower "Staging" <> "testing") by discriminate.
  split; [exact H1|]. split; [exact H2|].
  destruct (environment_configs_load "Staging") as (_ & _ & _ & H & _).
  exact (H H1 H2).
Defined.

(** * Draining the queue *)

Section Draining.

Variable gz : list byte -> list byte.

Lemma send_worker_cycle_ok (now : datetime) (c : Client) (h : handle) :
  is_connected c = true -> websocket c = Some h ->
  let res := send_worker_cycle gz now IoOk c in
  message_queue res.1 = drop (Z.to_nat (batch_size c)) (message_queue c)
  /\ is_connected res.1 = true
  /\ websocket res.1 = Some h
  /\ batch_size res.1 = batch_size c
  /\ (length (sent_envelopes res.2) <= 1)%nat
  /\ (batch_size c <= 0 -> sent_envelopes res.2 = []).
Proof.
  intros Hc Hw. unfold send_worker_cycle. rewrite Hc. cbn [andb].
  destruct (message_queue c) as [|m0 q] eqn:Eq; cbn [queue_empty negb].
  { cbn. rewrite Eq, drop_nil. split_and!; try done. lia. }
  rewrite collect_spec. cbn [app]. rewrite <- Eq.
  set (n := Z.to_nat (batch_size c)).
  assert (Hn : batch_size c <= 0 -> take n (message_queue c) = []).
  { intros Hb. subst n. by replace (Z.to_nat (batch_size c)) with 0%nat by lia. }
  destruct (take n (message_queue c)) as [|m1 [|m2 rest]] eqn:Et.
  - cbn. split_and!; try done. lia.
  - unfold _send_raw_message. cbn. rewrite Hc, Hw. cbn. by split_and!.
  - unfold _send_batch, _get_next_sequence_id, _send_raw_message. cbn.
    rewrite Hc, Hw. cbn. split_and!; try done.
    intros Hb. by specialize (Hn Hb).
Qed.

(** X27.  While the client stays connected and the socket accepts
    every write, each turn of the send worker takes [batch_size]
    envelopes off the queue and hands at most one frame to the socket.
    With [batch_size >= 1] a queue of [n] envelopes is empty after
    [ceil(n / batch_size)] turns, if nothing new is queued.  With
    [batch_size <= 0] nothing is ever taken off the queue or sent. *)
Theorem send_worker_drains (nows : list datetime) (c : Client) (h : handle) :
  is_connected c = true -> websocket c = Some h ->
  let b := Z.to_nat (batch_size c) in
  let res := send_cycles gz nows c in
  message_queue res.1 = drop (length nows * b) (message_queue c)
  /\ is_connected res.1 = true
  /\ (length (sent_envelopes res.2) <= length nows)%nat
  /\ (1 <= batch_size c ->
      Z.of_nat (length (message_queue c)) <= Z.of_nat (length nows) * batch_size c ->
      message_queue res.1 = [])
  /\ (batch_size c <= 0 ->
      message_queue res.1 = message_queue c /\ sent_envelopes res.2 = []).
Proof.
  intros Hc Hw. cbv zeta.
  assert (Hmain : message_queue (send_cycles gz nows c).1
                  = drop (length nows * Z.to_nat (batch_size c)) (message_queue c)
                  /\ is_connected (send_cycles gz nows c).1 = true
                  /\ (length (sent_envelopes (send_cycles gz nows c).2)
                      <= length nows)%nat
                  /\ (batch_size c <= 0 ->
                      sent_envelopes (send_cycles gz nows c).2 = [])).
  { revert c Hc Hw. induction nows as [|now nows IH]; intros c Hc Hw.
    { cbn. split_and!; try done. }
    cbn [send_cycles].
    destruct (send_worker_cycle_ok now c h Hc Hw) as (Q & C1 & W1 & B1 & S1 & Z1).
    destruct (send_worker_cycle gz now IoOk c) as [c1 evs1]. cbn [fst snd] in *.
    specialize (IH c1 C1 W1).
    destruct (send_cycles gz nows c1) as [c2 evs2]. cbn [fst snd] in *.
    destruct IH as (I1 & I2 & I3 & I4). rewrite B1 in *.
    split_and!.
    - rewrite I1, Q, drop_drop. f_equal; cbn [length]; lia.
    - done.
    - unfold sent_envelopes in *. rewrite omap_app, length_app. cbn [length]. lia.
    - intros Hb. unfold sent_envelopes in *.
      by rewrite omap_app, (Z1 Hb), (I4 Hb). }
  destruct Hmain as (M1 & M2 & M3 & M4). split_and!; try done.
  - intros Hb Hlen. rewrite M1. apply drop_ge. nia.
  - intros Hb. split; [|by apply M4]. rewrite M1.
    replace (Z.to_nat (batch_size c)) with 0%nat by lia.
    by rewrite Nat.mul_0_r.
Qed.

End Draining.

Lemma send_worker_drains_witness :
  let c := Sample.publish 25 Sample.online in
  is_connected c = true /\ websocket c = Some 7%nat
  /\ 1 <= batch_size c
  /\ message_queue (send_cycles Sample.stored
                      [Sample.noon; Sample.noon; Sample.noon] c).1 = [].
Proof.
  cbv zeta. split; [reflexivity|]. split; [reflexivity|].
  split; [vm_compute; discriminate|].
  destruct (send_worker_drains Sample.stored
              [Sample.noon; Sample.noon; Sample.noon]
              (Sample.publish 25 Sample.online) 7%nat eq_refl eq_refl)
    as (_ & _ & _ & H & _).
  apply H; vm_compute; discriminate.
Defined.
